(** * Flat vector index of the embedding clients

    A shallow embedding of [Cohere_Embedding] (src/Cohere_Embedding.py) and
    [OpenAI_Embedding] (src/openai_embedding.py): index creation, persistence
    as three files, incremental update and similarity search.

    The two classes are line-for-line duplicates except for the way the
    dimension of the FAISS index is chosen and for the shape of the HTTP
    payload; they are embedded once, the class being the field [self_api]
    of the instance.

    Modelling conventions.
    - The file system is a finite map from path to file; the three kinds of
      file (FAISS index, JSON metadata, .npy array) hold the value that was
      serialised, so [faiss.write_index]/[read_index], [json.dump]/[load] and
      [np.save]/[np.load] are the identity on content.  Directories are not
      modelled: the constructor creates the three directories the paths use.
      A path is the string the code builds; a statement that depends on two
      paths being two files is made for names that are single path
      components ([plain_name]), and a statement about a call that writes
      is made for the case where the call returns, or is about what it
      leaves untouched.
    - float32 and float64 values are exact rationals ([Q]); rounding and NaN
      are outside the model.  A statement that depends on the value of a
      number is made for numbers on which the float32 arithmetic is exact
      ([float32], [exact_L2sqr]).  A distance that is not below [FLT_MAX],
      as is a float32 distance that overflows, never enters the result
      heap of FAISS ([add_result]).
    - Python exceptions are values of [exn]; a method is a function from the
      file system to the file system at the moment it returns or raises,
      paired with its outcome.
    - The remote embedding service is the parameter [requests_post].
    - numpy and FAISS are external libraries; the few operations the code
      calls are modelled after their documented behaviour (see the comments
      on each definition). *)

From Stdlib Require Import QArith Lia.
From Stdlib Require Import Ascii.
From stdpp Require Import gmap strings list sorting pretty.

Set Default Proof Using "Type".

(** ** Python exceptions and outcomes *)

Inductive exn : Type :=
| Exception_ (msg : string)   (* raise Exception(f"Error in API call: ...") *)
| ValueError
| AssertionError
| IndexError
| FileNotFoundError
| RuntimeError
| ZeroDivisionError.

Inductive result (A : Type) : Type :=
| Ok (a : A)
| Raise (e : exn).
Arguments Ok {A} a.
Arguments Raise {A} e.

#[export] Instance result_ret : MRet result := fun _ a => Ok a.
#[export] Instance result_bind : MBind result := fun _ _ f m =>
  match m with
  | Ok a => f a
  | Raise e => Raise e
  end.

(** ** numpy arrays *)

(** The arrays the code manipulates have at most two axes.  [Array2 c rows]
    has shape [(length rows, c)]; numpy arrays are rectangular, which is
    the predicate [ndarray_wf]. *)
Inductive ndarray : Type :=
| Array0 (x : Q)
| Array1 (v : list Q)
| Array2 (ncols : nat) (rows : list (list Q)).

Definition ndarray_wf (a : ndarray) : Prop :=
  match a with
  | Array2 c rows => Forall (fun r => length r = c) rows
  | _ => True
  end.

Definition shape (a : ndarray) : list nat :=
  match a with
  | Array0 _ => []
  | Array1 v => [length v]
  | Array2 c rows => [length rows; c]
  end.

(** [np.array(rows, dtype=np.float32)] on a list of lists of numbers: an
    empty list gives the one-axis array of shape (0,), rows of one common
    length give a matrix, ragged rows raise ValueError. *)
Definition np_array (rows : list (list Q)) : result ndarray :=
  match rows with
  | [] => Ok (Array1 [])
  | r :: _ =>
      if forallb (fun r' => length r' =? length r) rows
      then Ok (Array2 (length r) rows)
      else Raise ValueError
  end.

(** [a[0]] *)
Definition getitem0 (a : ndarray) : result ndarray :=
  match a with
  | Array0 _ => Raise IndexError
  | Array1 [] => Raise IndexError
  | Array1 (x :: _) => Ok (Array0 x)
  | Array2 _ [] => Raise IndexError
  | Array2 _ (r :: _) => Ok (Array1 r)
  end.

(** [a.reshape(1, -1)] *)
Definition reshape_1_m1 (a : ndarray) : ndarray :=
  match a with
  | Array0 x => Array2 1 [[x]]
  | Array1 v => Array2 (length v) [v]
  | Array2 c rows => Array2 (length rows * c) [concat rows]
  end.

(** [np.atleast_2d], which [np.vstack] applies to each of its arguments. *)
Definition atleast_2d (a : ndarray) : nat * list (list Q) :=
  match a with
  | Array0 x => (1, [[x]])
  | Array1 v => (length v, [v])
  | Array2 c rows => (c, rows)
  end.

(** [np.vstack([a, b])]: the arrays are stacked row-wise; a different
    number of columns raises ValueError. *)
Definition np_vstack (a b : ndarray) : result ndarray :=
  let '(ca, ra) := atleast_2d a in
  let '(cb, rb) := atleast_2d b in
  if ca =? cb then Ok (Array2 ca (ra ++ rb)) else Raise ValueError.

(** [a.shape[1]] *)
Definition shape_1 (a : ndarray) : result nat :=
  match shape a with
  | [_; c] => Ok c
  | _ => Raise IndexError
  end.

(** ** FAISS: the flat L2 index *)

Record IndexFlatL2 : Type := mkIndexFlatL2 {
  index_d : nat;                 (* index.d *)
  index_xb : list (list Q)       (* the stored vectors, ntotal = length *)
}.

Definition ntotal (index : IndexFlatL2) : nat := length (index_xb index).

(** [faiss.IndexFlatL2(d)] *)
Definition new_IndexFlatL2 (d : nat) : IndexFlatL2 := mkIndexFlatL2 d [].

(** [index.add(x)]: the Python wrapper unpacks [n, d = x.shape] (ValueError
    unless x has two axes) and asserts [d == self.d]. *)
Definition index_add (index : IndexFlatL2) (x : ndarray) : result IndexFlatL2 :=
  match x with
  | Array2 c rows =>
      if c =? index_d index
      then Ok (mkIndexFlatL2 (index_d index) (index_xb index ++ rows))
      else Raise AssertionError
  | _ => Raise ValueError
  end.

(** Squared Euclidean distance, as the reference loop
    [for i < d: tmp = x[i] - y[i]; res += tmp * tmp]. *)
Definition fvec_L2sqr (x y : list Q) : Q :=
  fold_left (fun res xy => res + (fst xy - snd xy) * (fst xy - snd xy))%Q
            (combine x y) 0%Q.

(** [std::numeric_limits<float>::max()], the distance of an unfilled
    result slot. *)
Definition FLT_MAX : Q := 340282346638528859811704183484516925440 # 1.

Definition Qltb (x y : Q) : bool := negb (Qle_bool y x).

(** [CMax<float, int64_t>::cmp2(a1, b1, a2, b2)]:
    [(a1 > b1) || ((a1 == b1) && (a2 > b2))]. *)
Definition cmp2 (a1 b1 : Q) (a2 b2 : Z) : bool :=
  Qltb b1 a1 || (Qeq_bool a1 b1 && (b2 <? a2)%Z).

(** The result handler of one query keeps at most [k] (distance, label)
    pairs in a binary max-heap ordered by [cmp2].  The heap is represented
    by its content in ascending order, so its top is the last element. *)
Fixpoint heap_push (val : Q) (id : Z) (h : list (Q * Z)) : list (Q * Z) :=
  match h with
  | [] => [(val, id)]
  | (v, i) :: h' =>
      if cmp2 v val i id then (val, id) :: h
      else (v, i) :: heap_push val id h'
  end.

(** [add_result(dis, idx)]: [if (C::cmp(threshold, dis)) heap_replace_top],
    where the threshold is the distance at the top of the heap: while fewer
    than [k] results are held the top is an unfilled slot, whose distance
    is [FLT_MAX], so that a distance that is not below [FLT_MAX] is never
    admitted; afterwards it is the greatest distance held. *)
Definition add_result (k : nat) (h : list (Q * Z)) (dis : Q) (idx : Z)
  : list (Q * Z) :=
  if length h <? k then
    if Qltb dis FLT_MAX then heap_push dis idx h else h
  else match last h with
       | Some (threshold, _) =>
           if Qltb dis threshold then heap_push dis idx (removelast h) else h
       | None => h
       end.

(** [exhaustive_L2sqr_seq]: the sequential scan of the stored vectors, the
    label of a vector being its position. *)
Fixpoint exhaustive_L2sqr_seq (x : list Q) (y : list (list Q)) (j : Z)
    (k : nat) (h : list (Q * Z)) : list (Q * Z) :=
  match y with
  | [] => h
  | y_j :: y' =>
      exhaustive_L2sqr_seq x y' (j + 1)%Z k (add_result k h (fvec_L2sqr x y_j) j)
  end.

(** [knn_L2sqr] for one query: the results in ascending order, then the
    unfilled slots with distance [FLT_MAX] and label -1. *)
Definition knn_L2sqr (x : list Q) (y : list (list Q)) (k : nat) : list (Q * Z) :=
  let h := exhaustive_L2sqr_seq x y 0%Z k [] in
  h ++ replicate (k - length h) (FLT_MAX, (-1)%Z).

(** [index.search(x, k)]: the wrapper unpacks [n, d = x.shape], asserts
    [d == self.d] and [k > 0] and returns the arrays [D] and [I] of shape
    [(n, k)]. *)
Definition index_search (index : IndexFlatL2) (x : ndarray) (k : nat)
  : result (list (list Q) * list (list Z)) :=
  match x with
  | Array2 c queries =>
      if negb (c =? index_d index) then Raise AssertionError
      else if negb (0 <? k) then Raise AssertionError
      else
        let res := (fun q => knn_L2sqr q (index_xb index) k) <$> queries in
        Ok (fmap fst <$> res, fmap snd <$> res)
  | _ => Raise ValueError
  end.

(** ** Metadata (the JSON document) *)

Module Chunk.
Record t : Type := mk {
  id : nat;
  text : string;
  embedding_index : nat
}.
End Chunk.

(** The dict [chunks_metadata].  Keys written by only one of the classes,
    or only by [update_index], are optional. *)
Record metadata : Type := mkMetadata {
  created_at : string;
  updated_at : option string;
  model : string;
  input_type : option string;        (* Cohere_Embedding only *)
  encoding_format : option string;   (* OpenAI_Embedding only *)
  total_chunks : nat;
  embedding_dim : option nat;        (* OpenAI_Embedding only *)
  chunks : list Chunk.t
}.

(** [{"id": start + i, "text": text, "embedding_index": start + i}
     for i, text in enumerate(texts)] *)
Definition make_chunks (start : nat) (texts : list string) : list Chunk.t :=
  imap (fun i text => Chunk.mk (start + i) text (start + i)) texts.

(** ** The file system and the methods' monad *)

Inductive file : Type :=
| FaissFile (index : IndexFlatL2)
| JsonFile (chunks_metadata : metadata)
| NpyFile (embeddings : ndarray).

Abbreviation filesystem := (gmap string file).

Definition io (A : Type) : Type := filesystem -> filesystem * result A.

#[export] Instance io_ret : MRet io := fun _ a fs => (fs, Ok a).
#[export] Instance io_bind : MBind io := fun _ _ f m fs =>
  match m fs with
  | (fs', Ok a) => f a fs'
  | (fs', Raise e) => (fs', Raise e)
  end.

Definition lift {A} (r : result A) : io A := fun fs => (fs, r).

(** [try: x = body  except FileNotFoundError: handler; return] followed by
    the rest of the method, which uses [x]. *)
Definition try_except_FileNotFoundError {A B} (body : io A) (handler : io B)
    (rest : A -> io B) : io B :=
  fun fs =>
    match body fs with
    | (fs', Ok x) => rest x fs'
    | (fs', Raise FileNotFoundError) => handler fs'
    | (fs', Raise e) => (fs', Raise e)
    end.

Definition write_file (path : string) (f : file) : io unit :=
  fun fs => (<[path := f]> fs, Ok tt).

(** [faiss.read_index(path)].  FAISS reports every failure through its own
    C++ exception, which the Python binding raises as RuntimeError; for a
    missing file: "RuntimeError: Error in faiss::FileIOReader::FileIOReader
    ... could not open ... for reading: No such file or directory". *)
Definition faiss_read_index (path : string) : io IndexFlatL2 :=
  fun fs =>
    match fs !! path with
    | Some (FaissFile index) => (fs, Ok index)
    | _ => (fs, Raise RuntimeError)
    end.

(** [with open(path, 'r') as f: json.load(f)]: [open] raises
    FileNotFoundError; a file that is not JSON text makes [json.load] raise
    a subclass of ValueError. *)
Definition json_load (path : string) : io metadata :=
  fun fs =>
    match fs !! path with
    | Some (JsonFile chunks_metadata) => (fs, Ok chunks_metadata)
    | Some _ => (fs, Raise ValueError)
    | None => (fs, Raise FileNotFoundError)
    end.

(** [np.load(path)] *)
Definition np_load (path : string) : io ndarray :=
  fun fs =>
    match fs !! path with
    | Some (NpyFile embeddings) => (fs, Ok embeddings)
    | Some _ => (fs, Raise ValueError)
    | None => (fs, Raise FileNotFoundError)
    end.

(** [chunks[idx]] with a signed index: negative indices count from the
    end of the list. *)
Definition py_getitem {A} (l : list A) (idx : Z) : result A :=
  let n := Z.of_nat (length l) in
  let i := if (idx <? 0)%Z then (idx + n)%Z else idx in
  if (i <? 0)%Z then Raise IndexError
  else match l !! Z.to_nat i with
       | Some a => Ok a
       | None => Raise IndexError
       end.

(** ** The two classes *)

Inductive api_class : Type :=
| Cohere_Embedding (input_type : string) (embedding_types : list string)
    (embedding_dim : nat)
| OpenAI_Embedding (encoding_format : string).

Record instance : Type := mkInstance {
  self_model : string;
  self_api_key : string;
  self_index_directory : string;
  self_api : api_class
}.

(** [Union[str, List[str]]] *)
Inductive text_arg : Type :=
| Str (s : string)
| Texts (l : list string).

(** What the code reads of a [requests.Response]: the status and the rows
    of numbers of the JSON body ([result["embeddings"]["float"]] for Cohere,
    [[item["embedding"] for item in result["data"]]] for OpenAI). *)
Record Response : Type := mkResponse {
  status_code : nat;
  response_embeddings : list (list Q)
}.

Record SearchResult : Type := mkSearchResult {
  chunk_id : nat;
  text : string;
  distance : Q;
  score : Q;
  rank : nat
}.

(** The last character of a path, by which the three kinds of file are
    told apart. *)
Fixpoint last_char (s : string) : option Ascii.ascii :=
  match s with
  | EmptyString => None
  | String c EmptyString => Some c
  | String _ s' => last_char s'
  end.

Definition faiss_path (self : instance) (name : string) : string :=
  self_index_directory self +:+ "/" +:+ name +:+ ".faiss".
Definition chunks_path (self : instance) (name : string) : string :=
  self_index_directory self +:+ "/chunks/" +:+ name +:+ ".json".
Definition embeddings_path (self : instance) (name : string) : string :=
  self_index_directory self +:+ "/embeddings/" +:+ name +:+ ".npy".

(** The three artifacts of an index, as found in the file system. *)
Definition stored (self : instance) (name : string) (fs : filesystem)
    (index : IndexFlatL2) (chunks_metadata : metadata) (embeddings : ndarray)
  : Prop :=
  fs !! faiss_path self name = Some (FaissFile index) ∧
  fs !! chunks_path self name = Some (JsonFile chunks_metadata) ∧
  fs !! embeddings_path self name = Some (NpyFile embeddings).

Ltac io_unfold :=
  unfold mbind, mret, io_bind, io_ret, result_bind, result_ret, lift,
    write_file, faiss_read_index, json_load, np_load in *.

(** The central invariant of a persisted index: the counter, the chunk
    list and the rows of the embedding array agree, and chunks are numbered
    by position. *)
Definition central_invariant (chunks_metadata : metadata) (embeddings : ndarray)
  : Prop :=
  total_chunks chunks_metadata = length (chunks chunks_metadata) ∧
  (∃ d, shape embeddings = [total_chunks chunks_metadata; d]) ∧
  Chunk.id <$> chunks chunks_metadata = seq 0 (total_chunks chunks_metadata) ∧
  Chunk.embedding_index <$> chunks chunks_metadata
    = seq 0 (total_chunks chunks_metadata).

(** The order in which FAISS ranks results: by distance, then by label. *)
Definition hit_lt (a b : Q * Z) : Prop :=
  (a.1 < b.1)%Q ∨ ((a.1 == b.1)%Q ∧ (a.2 < b.2)%Z).

(** The (distance, label) pairs of the stored vectors [y], the first of
    which has label [j]. *)
Definition candidates (x : list Q) (y : list (list Q)) (j : Z) : list (Q * Z) :=
  imap (fun i y_i => (fvec_L2sqr x y_i, (j + Z.of_nat i)%Z)) y.

(** The candidates that can enter the heap: those with a distance below
    [FLT_MAX]. *)
Definition admissible (x : list Q) (y : list (list Q)) (j : Z) : list (Q * Z) :=
  filter (fun e : Q * Z => Qltb e.1 FLT_MAX) (candidates x y j).

(** Invariant of the scan: after the candidates [seen], all with labels
    below [j], the heap holds the [k] least of them in ascending order. *)
Definition heap_inv (k : nat) (j : Z) (seen h : list (Q * Z)) : Prop :=
  StronglySorted hit_lt h ∧
  length h = Nat.min k (length seen) ∧
  (∀ e, e ∈ seen → (e.2 < j)%Z) ∧
  ∃ dropped, seen ≡ₚ h ++ dropped ∧
             ∀ e c, e ∈ h → c ∈ dropped → hit_lt e c.

(** ** Numbers and names on which the model is exact

    The numbers of the model are exact rationals and a path is the string
    the code builds.  Where a statement depends on the value of a number,
    or on two paths being two files, it is made for the numbers and the
    names below. *)

(** [x] is a float32 value: [m * 2^e] with [|m| < 2^24] and
    [-149 <= e <= 104]. *)
Definition float32 (x : Q) : bool :=
  let x := Qred x in
  let n := Z.abs (Qnum x) in
  let d := Zpos (Qden x) in
  if (d =? 1)%Z then
    (* an integer: at most 24 significant bits, below 2^128 *)
    let l := (Z.log2 n + 1)%Z in
    let s := Z.max 0 (l - 24) in
    (Z.shiftl (Z.shiftr n s) s =? n)%Z && (l <=? 128)%Z
  else
    (* n / 2^a in lowest terms *)
    let a := Z.log2 d in
    (d =? 2 ^ a)%Z && (a <=? 149)%Z && (n <? 2 ^ 24)%Z.

(** An integer of absolute value at most 2^24; float32 holds each of
    them. *)
Definition float32_int (x : Q) : bool :=
  (Zpos (Qden x) =? 1)%Z && (Z.abs (Qnum x) <=? 2 ^ 24)%Z.

(** The distance loop is exact on [x] and [y]: the components are such
    integers and the squared distance is at most 2^24, so that every
    difference, every square and every partial sum, in whatever order the
    squares are summed, is an integer of absolute value at most 2^24 and
    is computed without rounding. *)
Definition exact_L2sqr (x y : list Q) : bool :=
  forallb float32_int x && forallb float32_int y
  && Qle_bool (fvec_L2sqr x y) (inject_Z (2 ^ 24)).

(** A name that is a single path component: it has no "/", so that two
    such names that differ make two files of one directory. *)
Fixpoint plain_name (name : string) : bool :=
  match name with
  | EmptyString => true
  | String c name' => negb (Ascii.eqb c "/") && plain_name name'
  end.

(** An embedding service used to exhibit concrete runs: it answers every
    text with the same vector. *)
Definition constant_service (v : list Q) (url : string) (self : instance)
    (input : text_arg) : Response :=
  match input with
  | Str _ => mkResponse 200 [v]
  | Texts l => mkResponse 200 ((fun _ => v) <$> l)
  end.

(** An embedding service that answers a text with the unit vector of the
    axis named by its length (modulo 3). *)
Definition axis_vector (s : string) : list Q :=
  match String.length s mod 3 with
  | 0 => [0; 0; 1]%Q
  | 1 => [1; 0; 0]%Q
  | _ => [0; 1; 0]%Q
  end.

Definition axis_service (url : string) (self : instance) (input : text_arg)
  : Response :=
  match input with
  | Str s => mkResponse 200 [axis_vector s]
  | Texts l => mkResponse 200 (axis_vector <$> l)
  end.

(** ** Concrete runs

    The scenario: two texts embedded on the first two axes of a space of
    dimension 3, then a third text on the third axis. *)

Definition openai : instance :=
  mkInstance "text-embedding-ada-002" "sk-test" "faiss_indexes"
             (OpenAI_Embedding "float").

Definition cohere3 : instance :=
  mkInstance "embed-english-v3.0" "co-test" "faiss_indexes"
             (Cohere_Embedding "classification" ["float"] 3).

Definition files_of (self : instance) (name : string) (index : IndexFlatL2)
    (chunks_metadata : metadata) (embeddings : ndarray) : filesystem :=
  <[embeddings_path self name := NpyFile embeddings]>
    (<[chunks_path self name := JsonFile chunks_metadata]>
       (<[faiss_path self name := FaissFile index]> ∅)).

Definition kb_index : IndexFlatL2 := mkIndexFlatL2 3 [[1; 0; 0]; [0; 1; 0]]%Q.

Definition kb_metadata : metadata :=
  {| created_at := "t0"; updated_at := None; model := "text-embedding-ada-002";
     input_type := None; encoding_format := Some "float";
     total_chunks := 2; embedding_dim := Some 3;
     chunks := [Chunk.mk 0 "a" 0; Chunk.mk 1 "bb" 1] |}.

Definition kb_fs : filesystem :=
  files_of openai "kb" kb_index kb_metadata (Array2 3 (index_xb kb_index)).

Definition kb3_index : IndexFlatL2 :=
  mkIndexFlatL2 3 [[1; 0; 0]; [0; 1; 0]; [0; 0; 1]]%Q.

Definition kb3_metadata : metadata :=
  {| created_at := "t0"; updated_at := Some "t1"; model := "text-embedding-ada-002";
     input_type := None; encoding_format := Some "float";
     total_chunks := 3; embedding_dim := Some 3;
     chunks := [Chunk.mk 0 "a" 0; Chunk.mk 1 "bb" 1; Chunk.mk 2 "ccc" 2] |}.

Definition kb3_fs : filesystem :=
  files_of openai "kb" kb3_index kb3_metadata (Array2 3 (index_xb kb3_index)).

(** An index of one vector, written by the Cohere class. *)
Definition one_index : IndexFlatL2 := mkIndexFlatL2 3 [[1; 0; 0]]%Q.

Definition one_metadata : metadata :=
  {| created_at := "t0"; updated_at := None; model := "embed-english-v3.0";
     input_type := Some "classification"; encoding_format := None;
     total_chunks := 1; embedding_dim := None;
     chunks := [Chunk.mk 0 "a" 0] |}.

Definition one_fs : filesystem :=
  files_of cohere3 "one" one_index one_metadata (Array2 3 (index_xb one_index)).

(** An index without vectors. *)
Definition empty_fs : filesystem :=
  files_of openai "empty" (mkIndexFlatL2 3 [])
    {| created_at := "t0"; updated_at := None; model := "text-embedding-ada-002";
       input_type := None; encoding_format := Some "float";
       total_chunks := 0; embedding_dim := Some 3; chunks := [] |}
    (Array2 3 []).

(** Three files that disagree with each other: one stored vector of
    dimension 3 in the FAISS file, five chunks announced and none listed in
    the metadata, two rows of two columns in the array. *)
Definition corrupt_metadata : metadata :=
  {| created_at := "t0"; updated_at := None; model := "text-embedding-ada-002";
     input_type := None; encoding_format := Some "float";
     total_chunks := 5; embedding_dim := Some 3; chunks := [] |}.

Definition corrupt_fs : filesystem :=
  files_of openai "kb" one_index corrupt_metadata (Array2 2 [[1; 0]; [0; 1]]%Q).

(** A service that is down. *)
Definition failing_service (url : string) (self : instance) (input : text_arg)
  : Response :=
  mkResponse 500 [].

(** The FAISS file of the scenario without its metadata and its array. *)
Definition partial_fs : filesystem :=
  <[faiss_path openai "kb" := FaissFile kb_index]> ∅.


(** * The chatbot of src/cohere.py

    [Cohere_LLM] and [Cohere_Chatbot].  A method is a function of the
    chatbot object and of the world, and returns both as they are when it
    returns or raises.  The world is the class counter, the files (a path
    holds the JSON document that was dumped to it; paths are compared as
    strings and a directory exists when a file lies in it), what was
    printed, the clock and the source of identifiers (each read advances
    it), and the remote service. *)
Module Cohere.

Inductive exn : Type :=
| ValueError
| FileNotFoundError
| KeyError
| TypeError
| IndexError
| UnicodeDecodeError
| JSONDecodeError.

Inductive outcome (A : Type) : Type :=
| Return (a : A)
| Raise (e : exn).
Arguments Return {A} a.
Arguments Raise {A} e.

(** The values [json.loads] and [response.json()] produce. *)
#[warnings="-register-all"]
Inductive json : Type :=
| JNull
| JBool (b : bool)
| JNum (q : Q)
| JStr (s : string)
| JArr (l : list json)
| JObj (kv : gmap string json).

(** [v[key]] for a string key: KeyError on a dict without the key,
    TypeError on every value that is not a dict. *)
Definition getitem (v : json) (key : string) : outcome json :=
  match v with
  | JObj kv =>
      match kv !! key with
      | Some x => Return x
      | None => Raise KeyError
      end
  | _ => Raise TypeError
  end.

(** [v[0]] *)
Definition getitem_0 (v : json) : outcome json :=
  match v with
  | JArr [] => Raise IndexError
  | JArr (x :: _) => Return x
  | JStr EmptyString => Raise IndexError
  | JStr (String c _) => Return (JStr (String c EmptyString))
  | JObj _ => Raise KeyError
  | _ => Raise TypeError
  end.

(** [v == s] for a string [s] *)
Definition json_eq_str (v : json) (s : string) : bool :=
  match v with
  | JStr s' => String.eqb s' s
  | _ => false
  end.

(** ["".join(items)]: TypeError unless every item is a string. *)
Fixpoint join (items : list json) : outcome string :=
  match items with
  | [] => Return EmptyString
  | JStr s :: items' =>
      match join items' with
      | Return t => Return (s +:+ t)
      | Raise e => Raise e
      end
  | _ :: _ => Raise TypeError
  end.

(** A message of the history: the content of the system message is the
    prompt itself, the content of the other messages is
    [{"type": "text", "text": ...}]. *)
Inductive message_content : Type :=
| Plain (s : string)
| TextPart (text : json).

Record Message : Type := mkMessage {
  role : string;
  content : message_content
}.

Record Cohere_LLM : Type := mkCohere_LLM {
  model : string;
  temperature : Q;
  stream : bool;
  p : Q;
  frequency_penalty : option Q;
  presence_penalty : option Q;
  api_key : string
}.

(** A line of [response.iter_lines()]: empty, not UTF-8 ([decode] raises),
    not JSON ([json.loads] raises JSONDecodeError), or a JSON value. *)
Inductive line : Type :=
| EmptyLine
| NotUtf8
| NotJson
| Json (data : json).

(** What the code reads of a [requests.Response]; [response_json] is
    [None] when the body is not JSON. *)
Record Response : Type := mkResponse {
  iter_lines : list line;
  response_json : option json
}.

Inductive document : Type :=
| MetadataDoc (chatbot_id : nat) (name created_at system_prompt model : string)
    (temperature p : Q)
| ConversationDoc (conversation_id chatbot_name : string) (chatbot_id : nat)
    (timestamp system_prompt : string) (history : list Message).

Record world : Type := mkWorld {
  _chatbot_counter : nat;                (* Cohere_Chatbot._chatbot_counter *)
  files : gmap string document;
  stdout : string;
  isoformat_at : nat -> string;          (* datetime.now().isoformat() *)
  clock : nat;
  uuid4_at : nat -> string;              (* str(uuid.uuid4()) *)
  uuids : nat;
  requests_post : string -> Cohere_LLM -> list Message -> Response
}.

Record Cohere_Chatbot : Type := mkCohere_Chatbot {
  llm : Cohere_LLM;
  system_prompt : string;
  verbose : bool;
  chatbot_id : nat;
  name : string;
  conversation_folder : string;
  conversation_id : string;
  history : list Message
}.

(** ** The methods' monad *)

Definition state : Type := Cohere_Chatbot * world.
Definition m (A : Type) : Type := state -> state * outcome A.

#[export] Instance m_ret : MRet m := fun _ a st => (st, Return a).
#[export] Instance m_bind : MBind m := fun _ _ f c st =>
  match c st with
  | (st', Return a) => f a st'
  | (st', Raise e) => (st', Raise e)
  end.

Definition raise {A} (e : exn) : m A := fun st => (st, Raise e).
Definition lift {A} (o : outcome A) : m A := fun st => (st, o).
Definition get_self : m Cohere_Chatbot := fun st => (st, Return st.1).
Definition get_world : m world := fun st => (st, Return st.2).
Definition put_self (self : Cohere_Chatbot) : m unit :=
  fun st => ((self, st.2), Return tt).
Definition put_world (w : world) : m unit :=
  fun st => ((st.1, w), Return tt).

Definition nl : string := String "010" EmptyString.

(** [datetime.now().isoformat()] *)
Definition now : m string :=
  w ← get_world;
  _ ← put_world (mkWorld (_chatbot_counter w) (files w) (stdout w)
                   (isoformat_at w) (S (clock w)) (uuid4_at w) (uuids w)
                   (requests_post w));
  mret (isoformat_at w (clock w)).

(** [str(uuid.uuid4())] *)
Definition uuid4 : m string :=
  w ← get_world;
  _ ← put_world (mkWorld (_chatbot_counter w) (files w) (stdout w)
                   (isoformat_at w) (clock w) (uuid4_at w) (S (uuids w))
                   (requests_post w));
  mret (uuid4_at w (uuids w)).

(** [sys.stdout.write(s)] *)
Definition write_stdout (s : string) : m unit :=
  w ← get_world;
  put_world (mkWorld (_chatbot_counter w) (files w) (stdout w +:+ s)
               (isoformat_at w) (clock w) (uuid4_at w) (uuids w)
               (requests_post w)).

(** [with open(path, 'w') as f: json.dump(doc, f, indent=2)] *)
Definition dump (path : string) (doc : document) : m unit :=
  w ← get_world;
  put_world (mkWorld (_chatbot_counter w) (<[path := doc]> (files w)) (stdout w)
               (isoformat_at w) (clock w) (uuid4_at w) (uuids w)
               (requests_post w)).

Definition set_conversation_id (conversation_id : string) : m unit :=
  self ← get_self;
  put_self (mkCohere_Chatbot (llm self) (system_prompt self) (verbose self)
              (chatbot_id self) (name self) (conversation_folder self)
              conversation_id (history self)).

Definition set_history (history : list Message) : m unit :=
  self ← get_self;
  put_self (mkCohere_Chatbot (llm self) (system_prompt self) (verbose self)
              (chatbot_id self) (name self) (conversation_folder self)
              (conversation_id self) history).

Definition set_conversation_folder (folder : string) : m unit :=
  self ← get_self;
  put_self (mkCohere_Chatbot (llm self) (system_prompt self) (verbose self)
              (chatbot_id self) (name self) folder
              (conversation_id self) (history self)).

(** ** Cohere_LLM *)

(** [Cohere_LLM.__init__]; [env] is [os.getenv('COHERE_API_KEY')]. *)
Definition Cohere_LLM__init__ (env : option string) (model : string)
    (temperature : Q) (stream : bool) (p : Q)
    (frequency_penalty presence_penalty : option Q) : outcome Cohere_LLM :=
  match env with
  | Some (String c k) =>
      Return (mkCohere_LLM model temperature stream p frequency_penalty
                presence_penalty (String c k))
  | _ => Raise ValueError   (* if not self.api_key *)
  end.

Definition _make_request (self : Cohere_LLM) (messages : list Message)
  : m Response :=
  w ← get_world;
  mret (requests_post w "https://api.cohere.com/v2/chat" self messages).

(** ** Cohere_Chatbot *)

Definition conversation_path (folder conversation_id : string) : string :=
  folder +:+ "/conversation_" +:+ conversation_id +:+ ".json".

Definition _create_conversation_folder : m string :=
  self ← get_self;
  let base_folder := "conversations" in
  let chatbot_folder := base_folder +:+ "/cohere/" +:+ name self in
  (* os.makedirs(chatbot_folder, exist_ok=True) *)
  created_at ← now;
  _ ← dump (chatbot_folder +:+ "/metadata.json")
        (MetadataDoc (chatbot_id self) (name self) created_at
           (system_prompt self) (model (llm self)) (temperature (llm self))
           (p (llm self)));
  mret chatbot_folder.

Definition _save_conversation : m unit :=
  self ← get_self;
  let filename :=
    conversation_path (conversation_folder self) (conversation_id self) in
  timestamp ← now;
  dump filename
    (ConversationDoc (conversation_id self) (name self) (chatbot_id self)
       timestamp (system_prompt self) (history self)).

Definition _initialize_conversation : m unit :=
  conversation_id ← uuid4;
  _ ← set_conversation_id conversation_id;
  self ← get_self;
  _ ← set_history [mkMessage "system" (Plain (system_prompt self))];
  _save_conversation.

Definition start_new_conversation : m unit :=
  _ ← _initialize_conversation;
  self ← get_self;
  if verbose self then
    (* print(f"\nStarted new conversation with ID: {self.conversation_id}") *)
    write_stdout (nl +:+ "Started new conversation with ID: "
                  +:+ conversation_id self +:+ nl)
  else mret tt.

(** [s.startswith(prefix)] and [s.endswith(suffix)] *)
Definition startswith (s prefix : string) : bool := String.prefix prefix s.

Fixpoint endswith (s suffix : string) : bool :=
  if String.eqb s suffix then true
  else match s with
       | EmptyString => false
       | String _ s' => endswith s' suffix
       end.

(** What follows [prefix] in [s], when [s] starts with it. *)
Fixpoint removeprefix (prefix s : string) : option string :=
  match prefix, s with
  | EmptyString, _ => Some s
  | String a prefix', String b s' =>
      if Ascii.eqb a b then removeprefix prefix' s' else None
  | String _ _, EmptyString => None
  end.

(** The first component of a relative path: what precedes its first "/". *)
Fixpoint first_component (path : string) : string :=
  match path with
  | EmptyString => EmptyString
  | String c path' =>
      if Ascii.eqb c "/" then EmptyString else String c (first_component path')
  end.

(** [os.listdir(folder)].  Directories are not part of the world: a folder
    is there when some file lies below it, and its entries are the first
    components of the paths below it. *)
Definition listdir (folder : string) : m (list string) :=
  w ← get_world;
  let below := omap (removeprefix (folder +:+ "/")) (map_to_list (files w)).*1 in
  if decide (below = []) then raise FileNotFoundError
  else mret (remove_dups (first_component <$> below)).

Definition list_conversations : m (list string) :=
  self ← get_self;
  entries ← listdir (conversation_folder self);
  mret (filter (λ f, startswith f "conversation_" && endswith f ".json") entries).

Definition load_conversation (conversation_id : string) : m unit :=
  self ← get_self;
  w ← get_world;
  let filename := conversation_path (conversation_folder self) conversation_id in
  match files w !! filename with
  | Some (ConversationDoc data_conversation_id _ _ _ _ data_history) =>
      _ ← set_conversation_id data_conversation_id;
      _ ← set_history data_history;
      if verbose self then
        write_stdout (nl +:+ "Loaded conversation: " +:+ conversation_id +:+ nl)
      else mret tt
  | Some (MetadataDoc _ _ _ _ _ _ _) => raise KeyError  (* data["conversation_id"] *)
  | None => raise FileNotFoundError
  end.

Definition _prepare_messages (message : string) : m (list Message) :=
  self ← get_self;
  _ ← set_history (history self
                   ++ [mkMessage "user" (TextPart (JStr message))]);
  self ← get_self;
  mret (history self).

Definition _print_streaming_response (content : json) : m unit :=
  match content with
  | JStr s => write_stdout s
  | _ => raise TypeError      (* write() argument must be str *)
  end.

(** [data["delta"]["message"]["content"]["text"]] *)
Definition delta_text (data : json) : outcome json :=
  match getitem data "delta" with
  | Return delta =>
      match getitem delta "message" with
      | Return msg =>
          match getitem msg "content" with
          | Return c => getitem c "text"
          | Raise e => Raise e
          end
      | Raise e => Raise e
      end
  | Raise e => Raise e
  end.

(** The loop [for line in response.iter_lines()]. *)
Fixpoint collect (verbose : bool) (lines : list line) (collected_messages : list json)
  : m (list json) :=
  match lines with
  | [] => mret collected_messages
  | EmptyLine :: lines' => collect verbose lines' collected_messages
  | NotUtf8 :: _ => raise UnicodeDecodeError
  | NotJson :: lines' =>
      (* except json.JSONDecodeError: continue *)
      collect verbose lines' collected_messages
  | Json data :: lines' =>
      type ← lift (getitem data "type");
      if json_eq_str type "content-delta" then
        content ← lift (delta_text data);
        _ ← (if verbose then _print_streaming_response content else mret tt);
        collect verbose lines' (collected_messages ++ [content])
      else collect verbose lines' collected_messages
  end.

(** [response_data["message"]["content"][0]["text"]] *)
Definition message_text (response_data : json) : outcome json :=
  match getitem response_data "message" with
  | Return msg =>
      match getitem msg "content" with
      | Return c =>
          match getitem_0 c with
          | Return c0 => getitem c0 "text"
          | Raise e => Raise e
          end
      | Raise e => Raise e
      end
  | Raise e => Raise e
  end.

(** The branch [if self.llm.stream: ... else: ...] of [__call__], which
    computes [full_response]. *)
Definition read_response (response : Response) : m json :=
  self ← get_self;
  if stream (llm self) then
    collected_messages ← collect (verbose self) (iter_lines response) [];
    full_response ← lift (join collected_messages);
    _ ← (if verbose self then write_stdout (nl +:+ nl) else mret tt);
    mret (JStr full_response)
  else
    match response_json response with
    | None => raise JSONDecodeError
    | Some response_data =>
        full_response ← lift (message_text response_data);
        _ ← (if verbose self then
               match full_response with
               | JStr s => write_stdout (s +:+ nl +:+ nl)
               | _ => raise TypeError     (* full_response + "\n" *)
               end
             else mret tt);
        mret full_response
    end.

Definition __call__ (message : string) : m json :=
  messages ← _prepare_messages message;
  self ← get_self;
  response ← _make_request (llm self) messages;
  _ ← (if verbose self then
         _ ← write_stdout (nl +:+ name self +:+ " - User: " +:+ " "
                           +:+ message +:+ nl);
         write_stdout (nl +:+ name self +:+ " - Assistant: ")
       else mret tt);
  full_response ← read_response response;
  self ← get_self;
  _ ← set_history (history self
                   ++ [mkMessage "assistant" (TextPart full_response)]);
  _ ← _save_conversation;
  mret full_response.

(** [Cohere_Chatbot(llm, system_prompt, verbose, name)]: the object and
    the world after [__init__]. *)
Definition Cohere_Chatbot__init__ (llm : Cohere_LLM) (system_prompt : string)
    (verbose : bool) (name : option string) (w : world)
  : state * outcome unit :=
  let counter := S (_chatbot_counter w) in
  let w := mkWorld counter (files w) (stdout w) (isoformat_at w) (clock w)
             (uuid4_at w) (uuids w) (requests_post w) in
  let chatbot_id := counter in
  let name :=
    match name with
    | Some (String c n) => String c n
    | _ => "cohere_chatbot_" +:+ pretty chatbot_id    (* name or f"..." *)
    end in
  let self := mkCohere_Chatbot llm system_prompt verbose chatbot_id name
                EmptyString EmptyString [] in
  (folder ← _create_conversation_folder;
   _ ← set_conversation_folder folder;
   _ ← set_history [];
   _initialize_conversation) (self, w).

(** ** Notions used to state the properties *)

(** The messages [__call__] appends. *)
Definition user_message (message : string) : Message :=
  mkMessage "user" (TextPart (JStr message)).
Definition assistant_message (full_response : json) : Message :=
  mkMessage "assistant" (TextPart full_response).

(** [self'] is [self] up to its history. *)
Definition same_but_history (self self' : Cohere_Chatbot) : Prop :=
  llm self' = llm self ∧
  system_prompt self' = system_prompt self ∧
  verbose self' = verbose self ∧
  chatbot_id self' = chatbot_id self ∧
  name self' = name self ∧
  conversation_folder self' = conversation_folder self ∧
  conversation_id self' = conversation_id self.

(** [w'] differs from [w] by what was printed only. *)
Definition only_printed (w w' : world) : Prop :=
  _chatbot_counter w' = _chatbot_counter w ∧
  files w' = files w ∧
  isoformat_at w' = isoformat_at w ∧
  clock w' = clock w ∧
  uuid4_at w' = uuid4_at w ∧
  uuids w' = uuids w ∧
  requests_post w' = requests_post w.

(** The streamed lines [lines] carry the text [s]: the concatenation, in
    order, of the texts of their content-delta events; empty lines, lines
    that are not JSON and events of another type carry nothing. *)
Inductive carries : list line -> string -> Prop :=
| carries_nil : carries [] EmptyString
| carries_empty lines s : carries lines s -> carries (EmptyLine :: lines) s
| carries_not_json lines s : carries lines s -> carries (NotJson :: lines) s
| carries_other data type lines s :
    getitem data "type" = Return type ->
    json_eq_str type "content-delta" = false ->
    carries lines s ->
    carries (Json data :: lines) s
| carries_delta data type text lines s :
    getitem data "type" = Return type ->
    json_eq_str type "content-delta" = true ->
    delta_text data = Return (JStr text) ->
    carries lines s ->
    carries (Json data :: lines) (text +:+ s).

(** [self] with [self.verbose = verbose]. *)
Definition with_verbose (verbose : bool) (self : Cohere_Chatbot) : Cohere_Chatbot :=
  mkCohere_Chatbot (llm self) (system_prompt self) verbose (chatbot_id self)
    (name self) (conversation_folder self) (conversation_id self) (history self).

(** What [__call__] prints before it reads the response. *)
Definition call_header (name message : string) : string :=
  (nl +:+ name +:+ " - User: " +:+ " " +:+ message +:+ nl)
  +:+ (nl +:+ name +:+ " - Assistant: ").

(** The world after [s] has been written to the standard output. *)
Definition printing (s : string) (w : world) : world :=
  mkWorld (_chatbot_counter w) (files w) (stdout w +:+ s) (isoformat_at w)
    (clock w) (uuid4_at w) (uuids w) (requests_post w).

(** The world after [doc] has been dumped to [path] with a time stamp
    taken. *)
Definition dumped (path : string) (doc : document) (w : world) : world :=
  mkWorld (_chatbot_counter w) (<[path := doc]> (files w)) (stdout w)
    (isoformat_at w) (S (clock w)) (uuid4_at w) (uuids w) (requests_post w).

(** [r] is the reply held by [response]: the text its lines carry in
    streaming mode, the text of the first content of its message
    otherwise. *)
Definition replies (stream : bool) (response : Response) (r : json) : Prop :=
  if stream then ∃ s, r = JStr s ∧ carries (iter_lines response) s
  else ∃ response_data, response_json response = Some response_data ∧
                        message_text response_data = Return r.

(** ** A concrete run *)

(** The content-delta event of a piece of text, and the event that ends a
    message. *)
Definition content_delta (text : string) : json :=
  JObj {[ "type" := JStr "content-delta";
          "delta" := JObj {[ "message" :=
                       JObj {[ "content" := JObj {[ "text" := JStr text ]} ]} ]} ]}.
Definition message_end : json := JObj {[ "type" := JStr "message-end" ]}.

(** A service that streams "Hel", "lo" between other lines. *)
Definition hello_service (url : string) (llm : Cohere_LLM)
    (messages : list Message) : Response :=
  mkResponse [EmptyLine; Json (content_delta "Hel"); NotJson;
              Json (content_delta "lo"); Json message_end]
             None.

(** A service whose second line has no "type". *)
Definition untyped_service (url : string) (llm : Cohere_LLM)
    (messages : list Message) : Response :=
  mkResponse [Json (content_delta "Hel"); Json (JObj ∅)] None.

Definition demo_llm : Cohere_LLM :=
  mkCohere_LLM "command-r-plus-08-2024" (7 # 10) true 0 None None "key".

Definition demo_world (service : string -> Cohere_LLM -> list Message -> Response)
  : world :=
  mkWorld 0 ∅ EmptyString (fun n => "t" +:+ pretty n) 0
          (fun n => "id" +:+ pretty n) 0 service.

(** The chatbot constructed first in [demo_world], silent and unnamed. *)
Definition demo_state (service : string -> Cohere_LLM -> list Message -> Response)
  : state :=
  (Cohere_Chatbot__init__ demo_llm "You are a helpful assistant." false None
     (demo_world service)).1.


Ltac m_unfold :=
  unfold mbind, mret, m_bind, m_ret, get_self, get_world, put_self, put_world,
    raise, lift, now, uuid4, write_stdout, dump, set_conversation_id,
    set_history, set_conversation_folder in *.

(** Runs the constructor symbolically. *)
Ltac init_run :=
  cbv beta iota zeta delta
    [Cohere_Chatbot__init__ _create_conversation_folder _initialize_conversation
     _save_conversation mbind mret m_bind m_ret get_self get_world put_self
     put_world raise lift now uuid4 write_stdout dump set_conversation_id
     set_history set_conversation_folder fst snd
     llm system_prompt verbose chatbot_id name conversation_folder
     conversation_id history
     _chatbot_counter files stdout isoformat_at clock uuid4_at uuids
     requests_post].

End Cohere.


Section Embedding.

(** [requests.post(url, headers=headers, json=payload)], as a function of
    the url, of the instance, whose attributes make the headers and the
    options of the payload, and of the texts of the payload. *)
Variable requests_post : string -> instance -> text_arg -> Response.

Definition _make_request (self : instance) (texts : text_arg) : Response :=
  match self_api self with
  | Cohere_Embedding _ _ _ =>
      (* if isinstance(texts, str): texts = [texts] *)
      let texts := match texts with Str s => Texts [s] | _ => texts end in
      requests_post "https://api.cohere.com/v2/embed" self texts
  | OpenAI_Embedding _ =>
      requests_post "https://api.openai.com/v1/embeddings" self texts
  end.

Definition get_embedding (self : instance) (texts : text_arg) : result ndarray :=
  let response := _make_request self texts in
  if negb (status_code response =? 200) then Raise (Exception_ "Error in API call")
  else
    match self_api self with
    | Cohere_Embedding _ _ _ =>
        embeddings ← np_array (response_embeddings response);
        match texts with
        | Str _ => getitem0 embeddings
        | Texts _ => Ok embeddings
        end
    | OpenAI_Embedding _ =>
        match texts with
        | Str _ =>
            (* np.array(result["data"][0]["embedding"]) *)
            match response_embeddings response with
            | [] => Raise IndexError
            | v :: _ => Ok (Array1 v)
            end
        | Texts _ => np_array (response_embeddings response)
        end
    end.

Definition save_index (self : instance) (name : string) (index : IndexFlatL2)
    (chunks_metadata : metadata) (embeddings : ndarray) : io unit :=
  _ ← write_file (faiss_path self name) (FaissFile index);
  _ ← write_file (chunks_path self name) (JsonFile chunks_metadata);
  write_file (embeddings_path self name) (NpyFile embeddings).

Definition load_index (self : instance) (name : string)
  : io (IndexFlatL2 * metadata * ndarray) :=
  index ← faiss_read_index (faiss_path self name);
  chunks_metadata ← json_load (chunks_path self name);
  embeddings ← np_load (embeddings_path self name);
  mret (index, chunks_metadata, embeddings).

(** [now] is the value of [datetime.now().isoformat()] during the call. *)
Definition create_faiss_index (self : instance) (now : string) (name : string)
    (texts : list string) : io (IndexFlatL2 * metadata) :=
  embeddings ← lift (get_embedding self (Texts texts));
  match self_api self with
  | Cohere_Embedding input_type _ embedding_dim =>
      index ← lift (index_add (new_IndexFlatL2 embedding_dim) embeddings);
      let chunks_metadata :=
        {| created_at := now; updated_at := None; model := self_model self;
           input_type := Some input_type; encoding_format := None;
           total_chunks := length texts; embedding_dim := None;
           chunks := make_chunks 0 texts |} in
      _ ← save_index self name index chunks_metadata embeddings;
      mret (index, chunks_metadata)
  | OpenAI_Embedding encoding_format =>
      actual_dim ← lift (shape_1 embeddings);
      index ← lift (index_add (new_IndexFlatL2 actual_dim) embeddings);
      let chunks_metadata :=
        {| created_at := now; updated_at := None; model := self_model self;
           input_type := None; encoding_format := Some encoding_format;
           total_chunks := length texts; embedding_dim := Some actual_dim;
           chunks := make_chunks 0 texts |} in
      _ ← save_index self name index chunks_metadata embeddings;
      mret (index, chunks_metadata)
  end.

(** One entry of the result list of [search]. *)
Definition search_entry (chunks_metadata : metadata) (i : nat) (dist : Q) (idx : Z)
  : result SearchResult :=
  chunk ← py_getitem (chunks chunks_metadata) idx;
  if Qeq_bool (1 + dist) 0 then Raise ZeroDivisionError else
  mret {| chunk_id := Chunk.id chunk;
          text := Chunk.text chunk;
          distance := dist;
          score := (1 / (1 + dist))%Q;
          rank := i + 1 |}.

(** [for i, (dist, idx) in enumerate(zip(distances[0], indices[0]))] *)
Fixpoint search_results (chunks_metadata : metadata) (i : nat)
    (hits : list (Q * Z)) : result (list SearchResult) :=
  match hits with
  | [] => Ok []
  | (dist, idx) :: hits' =>
      r ← search_entry chunks_metadata i dist idx;
      rs ← search_results chunks_metadata (S i) hits';
      mret (r :: rs)
  end.

Definition search (self : instance) (name : string) (query : string) (k : nat)
  : io (list SearchResult) :=
  '(index, chunks_metadata, _) ← load_index self name;
  query_embedding ← lift (get_embedding self (Str query));
  let query_embedding := reshape_1_m1 query_embedding in
  '(distances, indices) ← lift (index_search index query_embedding k);
  match distances, indices with
  | distances_0 :: _, indices_0 :: _ =>
      lift (search_results chunks_metadata 0 (combine distances_0 indices_0))
  | _, _ => lift (Raise IndexError)
  end.

Definition update_index (self : instance) (now : string) (name : string)
    (new_texts : list string) : io unit :=
  try_except_FileNotFoundError
    (load_index self name)
    (* print(f"Index {name} not found. Creating new index...") *)
    (_ ← create_faiss_index self now name new_texts; mret tt)
    (fun '(index, chunks_metadata, embeddings) =>
     new_embeddings ← lift (get_embedding self (Texts new_texts));
     embeddings ← lift (np_vstack embeddings new_embeddings);
     dim ← match self_api self with
           | Cohere_Embedding _ _ embedding_dim => mret embedding_dim
           | OpenAI_Embedding _ => lift (shape_1 embeddings)
           end;
     index ← lift (index_add (new_IndexFlatL2 dim) embeddings);
     let start_id := length (chunks chunks_metadata) in
     let new_chunks := make_chunks start_id new_texts in
     let all_chunks := chunks chunks_metadata ++ new_chunks in
     let chunks_metadata :=
       {| created_at := created_at chunks_metadata;
          updated_at := Some now;
          model := model chunks_metadata;
          input_type := input_type chunks_metadata;
          encoding_format := encoding_format chunks_metadata;
          total_chunks := length all_chunks;
          embedding_dim :=
            match self_api self with
            | Cohere_Embedding _ _ _ => embedding_dim chunks_metadata
            | OpenAI_Embedding _ => Some dim
            end;
          chunks := all_chunks |} in
     save_index self name index chunks_metadata embeddings).


(** A caller that updates the index [name] with one batch after the
    other, going on when a call raises. *)
Fixpoint run_updates (self : instance) (name : string)
    (batches : list (string * list string)) (fs : filesystem) : filesystem :=
  match batches with
  | [] => fs
  | (now, new_texts) :: batches' =>
      run_updates self name batches' (update_index self now name new_texts fs).1
  end.

(** The index [name] holds what the service answers for [texts]: the array
    and the FAISS index are made of the vectors of [texts], the chunk list
    is the list of [texts].  This is the state [create_faiss_index] writes
    when called with [texts], up to the other metadata entries. *)
Definition built_from (self : instance) (name : string) (texts : list string)
    (fs : filesystem) : Prop :=
  ∃ index md,
    stored self name fs index md (Array2 (index_d index) (index_xb index)) ∧
    get_embedding self (Texts texts)
      = Ok (Array2 (index_d index) (index_xb index)) ∧
    chunks md = make_chunks 0 texts.

(** * Properties *)

(** ** Paths *)

Lemma last_char_app (a b : string) :
  b ≠ EmptyString → last_char (a +:+ b) = last_char b.
Proof.
  intros Hb. induction a as [|c a IH]; [done|].
  change (String c a +:+ b) with (String c (a +:+ b)).
  destruct (a +:+ b) eqn:E.
  - destruct a.
    + change (b = EmptyString) in E. congruence.
    + discriminate E.
  - rewrite <- IH. reflexivity.
Qed.

Lemma append_nonempty (a b : string) : b ≠ EmptyString → a +:+ b ≠ EmptyString.
Proof. intros Hb. destruct a; [exact Hb | discriminate]. Qed.

Lemma last_char_faiss_path self name : last_char (faiss_path self name) = Some "s"%char.
Proof.
  unfold faiss_path.
  rewrite !last_char_app; auto using append_nonempty.
Qed.

Lemma last_char_chunks_path self name : last_char (chunks_path self name) = Some "n"%char.
Proof.
  unfold chunks_path.
  rewrite !last_char_app; auto using append_nonempty.
Qed.

Lemma last_char_embeddings_path self name :
  last_char (embeddings_path self name) = Some "y"%char.
Proof.
  unfold embeddings_path.
  rewrite !last_char_app; auto using append_nonempty.
Qed.

Lemma faiss_path_ne_chunks_path self name name' :
  faiss_path self name ≠ chunks_path self name'.
Proof.
  intros E. apply (f_equal last_char) in E.
  by rewrite last_char_faiss_path, last_char_chunks_path in E.
Qed.

Lemma faiss_path_ne_embeddings_path self name name' :
  faiss_path self name ≠ embeddings_path self name'.
Proof.
  intros E. apply (f_equal last_char) in E.
  by rewrite last_char_faiss_path, last_char_embeddings_path in E.
Qed.

Lemma chunks_path_ne_embeddings_path self name name' :
  chunks_path self name ≠ embeddings_path self name'.
Proof.
  intros E. apply (f_equal last_char) in E.
  by rewrite last_char_chunks_path, last_char_embeddings_path in E.
Qed.

(** ** Persistence *)

Lemma save_index_eq self name index md emb fs :
  save_index self name index md emb fs =
    (<[embeddings_path self name := NpyFile emb]>
       (<[chunks_path self name := JsonFile md]>
          (<[faiss_path self name := FaissFile index]> fs)), Ok tt).
Proof. reflexivity. Qed.

Lemma stored_after_save self name index md emb fs :
  stored self name (save_index self name index md emb fs).1 index md emb.
Proof.
  rewrite save_index_eq. simpl. repeat split.
  - rewrite lookup_insert_ne by (symmetry; apply faiss_path_ne_embeddings_path).
    rewrite lookup_insert_ne by (symmetry; apply faiss_path_ne_chunks_path).
    apply lookup_insert_eq.
  - rewrite lookup_insert_ne by (symmetry; apply chunks_path_ne_embeddings_path).
    apply lookup_insert_eq.
  - apply lookup_insert_eq.
Qed.

Lemma load_index_stored self name fs index md emb :
  stored self name fs index md emb →
  load_index self name fs = (fs, Ok (index, md, emb)).
Proof.
  intros (Hi & Hm & He). unfold load_index. io_unfold.
  by rewrite Hi, Hm, He.
Qed.

Lemma load_index_fs self name fs : (load_index self name fs).1 = fs.
Proof.
  unfold load_index. io_unfold.
  destruct (fs !! faiss_path self name) as [[]|]; try done.
  destruct (fs !! chunks_path self name) as [[]|]; try done.
  destruct (fs !! embeddings_path self name) as [[]|]; done.
Qed.

Lemma load_index_Ok self name fs fs' index md emb :
  load_index self name fs = (fs', Ok (index, md, emb)) →
  fs' = fs ∧ stored self name fs index md emb.
Proof.
  unfold load_index, stored. io_unfold.
  destruct (fs !! faiss_path self name) as [[]|]; try done.
  destruct (fs !! chunks_path self name) as [[]|]; try done.
  destruct (fs !! embeddings_path self name) as [[]|]; try done.
  intros [= <- <- <- <-]. done.
Qed.

(** ** Outcomes of [create_faiss_index] and [update_index] *)

Lemma np_array_Ok rows a :
  np_array rows = Ok a →
  (rows = [] ∧ a = Array1 []) ∨
  (∃ r rows', rows = r :: rows' ∧ a = Array2 (length r) rows ∧
              Forall (fun r' => length r' = length r) rows).
Proof.
  unfold np_array. destruct rows as [|r rows']; [intros [= <-]; by left|].
  destruct (forallb _ _) eqn:E; [|done]. intros [= <-]. right.
  exists r, rows'. split_and!; [done..|].
  apply Forall_forall. intros r' Hr'.
  rewrite forallb_forall in E. apply Nat.eqb_eq, E. by apply list_elem_of_In.
Qed.

Lemma index_add_new_Ok dim a index :
  index_add (new_IndexFlatL2 dim) a = Ok index →
  ∃ rows, a = Array2 dim rows ∧ index = mkIndexFlatL2 dim rows.
Proof.
  unfold index_add. destruct a as [| |c rows]; try done. simpl.
  destruct (Nat.eqb_spec c dim) as [->|]; [|done].
  intros [= <-]. by exists rows.
Qed.

Lemma shape_1_Ok a c : shape_1 a = Ok c → ∃ rows, a = Array2 c rows.
Proof. destruct a; try done. intros [= <-]. by eexists. Qed.

Lemma np_vstack_Ok a b e :
  np_vstack a b = Ok e →
  (atleast_2d a).1 = (atleast_2d b).1 ∧
  e = Array2 (atleast_2d a).1 ((atleast_2d a).2 ++ (atleast_2d b).2).
Proof.
  unfold np_vstack. destruct (atleast_2d a) as [ca ra], (atleast_2d b) as [cb rb].
  simpl. destruct (Nat.eqb_spec ca cb); [|done]. by intros [= <-].
Qed.

(** A raised exception leaves the file system as it was: the three files
    are written last. *)
Lemma create_faiss_index_Raise self now name texts fs fs' e :
  create_faiss_index self now name texts fs = (fs', Raise e) → fs' = fs.
Proof.
  unfold create_faiss_index. io_unfold.
  destruct (get_embedding self (Texts texts)) as [emb|]; [|by intros [= <-]].
  destruct (self_api self) as [it et dim|ef].
  - destruct (index_add _ emb); [|by intros [= <-]]. done.
  - destruct (shape_1 emb); [|by intros [= <-]].
    destruct (index_add _ emb); [|by intros [= <-]]. done.
Qed.

Lemma create_faiss_index_Ok self now name texts fs fs' index md :
  create_faiss_index self now name texts fs = (fs', Ok (index, md)) →
  ∃ rows,
    get_embedding self (Texts texts) = Ok (Array2 (index_d index) rows) ∧
    index = mkIndexFlatL2 (index_d index) rows ∧
    chunks md = make_chunks 0 texts ∧
    total_chunks md = length texts ∧
    created_at md = now ∧
    match self_api self with
    | Cohere_Embedding _ _ embedding_dim => index_d index = embedding_dim
    | OpenAI_Embedding _ => embedding_dim md = Some (index_d index)
    end ∧
    fs' = (save_index self name index md (Array2 (index_d index) rows) fs).1.
Proof.
  unfold create_faiss_index. io_unfold.
  destruct (get_embedding self (Texts texts)) as [emb|]; [|done].
  destruct (self_api self) as [it et dim|ef].
  - destruct (index_add _ emb) as [index'|] eqn:Ha; [|done].
    apply index_add_new_Ok in Ha as (rows & -> & ->).
    intros [= <- <- <-]. by exists rows.
  - destruct (shape_1 emb) as [c|] eqn:Hs; [|done].
    destruct (index_add _ emb) as [index'|] eqn:Ha; [|done].
    apply index_add_new_Ok in Ha as (rows & -> & ->).
    intros [= <- <- <-]. by exists rows.
Qed.

Lemma update_index_Raise self now name new_texts fs fs' e :
  update_index self now name new_texts fs = (fs', Raise e) → fs' = fs.
Proof.
  unfold update_index, try_except_FileNotFoundError.
  pose proof (load_index_fs self name fs) as Hl.
  destruct (load_index self name fs) as [fs0 [[[index md] emb]|e0]]; simpl in Hl; subst fs0.
  - io_unfold.
    destruct (get_embedding self (Texts new_texts)) as [new_emb|]; [|by intros [= <-]].
    destruct (np_vstack emb new_emb) as [emb'|]; [|by intros [= <-]].
    destruct (self_api self) as [it et dim|ef].
    + destruct (index_add _ emb'); [|by intros [= <-]]. done.
    + destruct (shape_1 emb'); [|by intros [= <-]].
      destruct (index_add _ emb'); [|by intros [= <-]]. done.
  - destruct e0; try (by intros [= <-]).
    io_unfold.
    destruct (create_faiss_index self now name new_texts fs) as [fs1 [r|e1]] eqn:Hc;
      [done|].
    intros [= <- <-]. by eapply create_faiss_index_Raise.
Qed.

(** On an index whose three files are present, a successful
    [update_index] stacks the new rows under the stored ones, rebuilds the
    FAISS index from the stacked array, appends the new chunks and writes
    the three files. *)
Lemma update_index_Ok self now name new_texts fs fs' index md emb :
  stored self name fs index md emb →
  update_index self now name new_texts fs = (fs', Ok tt) →
  ∃ new_emb index' md' emb',
    get_embedding self (Texts new_texts) = Ok new_emb ∧
    np_vstack emb new_emb = Ok emb' ∧
    emb' = Array2 (index_d index') (index_xb index') ∧
    chunks md' = chunks md ++ make_chunks (length (chunks md)) new_texts ∧
    total_chunks md' = length (chunks md') ∧
    match self_api self with
    | Cohere_Embedding _ _ embedding_dim => index_d index' = embedding_dim
    | OpenAI_Embedding _ => embedding_dim md' = Some (index_d index')
    end ∧
    fs' = (save_index self name index' md' emb' fs).1.
Proof.
  intros Hst. unfold update_index, try_except_FileNotFoundError.
  rewrite (load_index_stored _ _ _ _ _ _ Hst). io_unfold.
  destruct (get_embedding self (Texts new_texts)) as [new_emb|]; [|done].
  destruct (np_vstack emb new_emb) as [emb'|] eqn:Hv; [|done].
  destruct (self_api self) as [it et dim|ef].
  - destruct (index_add _ emb') as [index'|] eqn:Ha; [|done].
    apply index_add_new_Ok in Ha as (rows & -> & ->).
    intros [= <-]. eexists new_emb, _, _, _. split_and!.
    7: reflexivity. all: done.
  - destruct (shape_1 emb') as [c|] eqn:Hs; [|done].
    destruct (index_add _ emb') as [index'|] eqn:Ha; [|done].
    apply index_add_new_Ok in Ha as (rows & -> & ->).
    intros [= <-]. eexists new_emb, _, _, _. split_and!.
    7: reflexivity. all: done.
Qed.

Lemma update_index_not_found self now name new_texts fs :
  load_index self name fs = (fs, Raise FileNotFoundError) →
  update_index self now name new_texts fs =
    (_ ← create_faiss_index self now name new_texts; mret tt) fs.
Proof.
  intros Hl. unfold update_index, try_except_FileNotFoundError. by rewrite Hl.
Qed.

Lemma load_index_cases self name fs :
  (∃ index md emb, stored self name fs index md emb) ∨
  (∃ e, load_index self name fs = (fs, Raise e)).
Proof.
  pose proof (load_index_fs self name fs) as Hfs.
  destruct (load_index self name fs) as [fs0 [[[index md] emb]|e]] eqn:Hl;
    simpl in Hfs; subst fs0.
  - left. exists index, md, emb. by apply load_index_Ok in Hl as [_ ?].
  - right. by exists e.
Qed.

Lemma get_embedding_Texts self texts :
  get_embedding self (Texts texts) =
    if negb (status_code (_make_request self (Texts texts)) =? 200)
    then Raise (Exception_ "Error in API call")
    else np_array (response_embeddings (_make_request self (Texts texts))).
Proof.
  unfold get_embedding. destruct (negb _); [done|].
  destruct (self_api self); [|done].
  by destruct (np_array _).
Qed.

Lemma make_chunks_length start texts : length (make_chunks start texts) = length texts.
Proof. unfold make_chunks. by rewrite length_imap. Qed.

Lemma make_chunks_lookup start texts i t :
  texts !! i = Some t →
  make_chunks start texts !! i = Some (Chunk.mk (start + i) t (start + i)).
Proof. intros H. unfold make_chunks. by rewrite list_lookup_imap, H. Qed.

Lemma make_chunks_id start texts :
  Chunk.id <$> make_chunks start texts = seq start (length texts).
Proof.
  unfold make_chunks. rewrite fmap_imap.
  rewrite <- (list_fmap_id (seq start _)).
  exact (imap_seq texts id start).
Qed.

Lemma make_chunks_embedding_index start texts :
  Chunk.embedding_index <$> make_chunks start texts = seq start (length texts).
Proof.
  unfold make_chunks. rewrite fmap_imap.
  rewrite <- (list_fmap_id (seq start _)).
  exact (imap_seq texts id start).
Qed.

(** ** Save and load *)

(** C7. Round trip: loading an index right after saving it returns the
    FAISS index, the metadata (chunk texts and ids in their order) and the
    embedding array exactly as they were saved. *)
Theorem load_index_after_save_index self name index md emb fs :
  load_index self name (save_index self name index md emb fs).1 =
    ((save_index self name index md emb fs).1, Ok (index, md, emb)).
Proof. apply load_index_stored, stored_after_save. Qed.

(** C6 (as amended). [load_index] performs no consistency check: whenever
    the three files of an index are present it returns their contents as
    they are, whatever the row count of the array, [total_chunks] and the
    dimensions are. *)
Theorem load_index_returns_artifacts_unchecked self name fs index md emb :
  stored self name fs index md emb →
  load_index self name fs = (fs, Ok (index, md, emb)).
Proof.
  intros (Hi & Hm & He). unfold load_index. io_unfold.
  rewrite Hi, Hm, He. reflexivity.
Qed.

(** ** Update of a missing index *)

(** C5. When the FAISS file of the named index is absent (in particular
    when none of its three files exists), [update_index] creates nothing:
    the failure of [faiss.read_index], the first read of [load_index], is
    not a FileNotFoundError, so the handler is not entered, the exception
    reaches the caller and the file system is unchanged. *)
Theorem update_index_missing_index_not_created self now name new_texts fs :
  fs !! faiss_path self name = None →
  update_index self now name new_texts fs = (fs, Raise RuntimeError).
Proof.
  intros Hnone.
  unfold update_index, try_except_FileNotFoundError, load_index. io_unfold.
  rewrite Hnone. reflexivity.
Qed.

(** The handler is entered when the FAISS file is there and the metadata or
    the array is missing: the index is then created from the new texts. *)
Lemma update_index_recreates_partial_index self now name new_texts fs index :
  fs !! faiss_path self name = Some (FaissFile index) →
  fs !! chunks_path self name = None ∨
    (is_Some (fs !! chunks_path self name) ∧ fs !! embeddings_path self name = None) →
  (∀ f, fs !! chunks_path self name = Some f → ∃ md, f = JsonFile md) →
  update_index self now name new_texts fs =
    (_ ← create_faiss_index self now name new_texts; mret tt) fs.
Proof.
  intros Hi Hmiss Hjson. apply update_index_not_found.
  unfold load_index. io_unfold. rewrite Hi.
  destruct Hmiss as [Hm|[[f Hm] He]]; rewrite Hm; [done|].
  destruct (Hjson f Hm) as [md ->]. by rewrite He.
Qed.

(** ** Dimension mismatch *)


(** ** Append-only update *)

(** C8. A successful [update_index] on an existing index keeps every
    chunk and every row of the embedding array at its position, appends one
    chunk per new text, numbered from the previous number of chunks in
    input order, and appends the new rows after the stored ones. *)
Theorem update_index_append_only self now name new_texts fs fs' index md emb :
  stored self name fs index md emb →
  update_index self now name new_texts fs = (fs', Ok tt) →
  ∃ index' md' emb' new_emb,
    stored self name fs' index' md' emb' ∧
    get_embedding self (Texts new_texts) = Ok new_emb ∧
    chunks md' = chunks md ++ make_chunks (length (chunks md)) new_texts ∧
    (atleast_2d emb').2 = (atleast_2d emb).2 ++ (atleast_2d new_emb).2 ∧
    (∀ i c, chunks md !! i = Some c → chunks md' !! i = Some c) ∧
    (∀ i v, (atleast_2d emb).2 !! i = Some v → (atleast_2d emb').2 !! i = Some v) ∧
    (∀ i t, new_texts !! i = Some t →
       chunks md' !! (length (chunks md) + i) =
         Some (Chunk.mk (length (chunks md) + i) t (length (chunks md) + i))) ∧
    length (chunks md') = length (chunks md) + length new_texts.
Proof.
  intros Hst Hup.
  destruct (update_index_Ok _ _ _ _ _ _ _ _ _ Hst Hup)
    as (new_emb & index' & md' & emb' & Hget & Hv & Hemb & Hch & Htot & _ & ->).
  apply np_vstack_Ok in Hv as [_ Hv].
  exists index', md', emb', new_emb. split_and!.
  - apply stored_after_save.
  - done.
  - done.
  - by rewrite Hv.
  - intros i c Hi. rewrite Hch. by apply lookup_app_l_Some.
  - intros i v Hi. rewrite Hv. simpl. by apply lookup_app_l_Some.
  - intros i t Hi. rewrite Hch, lookup_app_r by lia.
    replace (length (chunks md) + i - length (chunks md)) with i by lia.
    by apply make_chunks_lookup.
  - by rewrite Hch, length_app, make_chunks_length.
Qed.

(** ** The dimension of an index *)

(** One update of an index whose three files agree on the dimension [d]:
    it raises and writes nothing, or it keeps [d] in the three files. *)
Lemma update_index_keeps_dimension
    self now name new_texts fs fs' index md d rows out :
  stored self name fs index md (Array2 d rows) →
  index_d index = d →
  (∀ ef, self_api self = OpenAI_Embedding ef → embedding_dim md = Some d) →
  update_index self now name new_texts fs = (fs', out) →
  match out with
  | Raise _ => fs' = fs
  | Ok _ =>
      ∃ index' md' rows',
        stored self name fs' index' md' (Array2 d (rows ++ rows')) ∧
        index_d index' = index_d index ∧
        embedding_dim md' = embedding_dim md
  end.
Proof.
  intros Hst Hd Hmd Hup.
  destruct out as [[]|e]; [|by eapply update_index_Raise].
  unfold update_index, try_except_FileNotFoundError in Hup.
  rewrite (load_index_stored _ _ _ _ _ _ Hst) in Hup. io_unfold.
  destruct (get_embedding self (Texts new_texts)) as [new_emb|]; [|done].
  destruct (np_vstack _ new_emb) as [emb'|] eqn:Hv; [|done].
  apply np_vstack_Ok in Hv as [Hc ->]. simpl in *.
  destruct (self_api self) as [it et dim|ef] eqn:Hapi; simpl in Hup.
  - destruct (Nat.eqb_spec d dim) as [E|]; [subst dim|done].
    injection Hup as <-. eexists _, _, _.
    split; [apply stored_after_save|]. simpl. by rewrite Hd.
  - rewrite Nat.eqb_refl in Hup.
    injection Hup as <-. eexists _, _, _.
    split; [apply stored_after_save|]. simpl.
    split; [done|]. symmetry. by eapply Hmd.
Qed.

(** C9 (as amended). On an index whose three files agree on the dimension
    [d] (the dimension of the FAISS index, the number of columns of the
    array and, for the OpenAI class, [embedding_dim]): one [update_index]
    either raises and leaves the three files as they were, or succeeds and
    keeps the dimension in the three files; new vectors of another length
    are rejected with numpy's ValueError; and after any sequence of
    updates, whether they succeed or raise, the index still has the
    dimension [d] in its three files. *)
Theorem update_index_preserves_dimension
    self now name new_texts fs fs' index md d rows out :
  stored self name fs index md (Array2 d rows) →
  index_d index = d →
  (∀ ef, self_api self = OpenAI_Embedding ef → embedding_dim md = Some d) →
  update_index self now name new_texts fs = (fs', out) →
  match out with
  | Raise _ => fs' = fs
  | Ok _ =>
      ∃ index' md' rows',
        stored self name fs' index' md' (Array2 d (rows ++ rows')) ∧
        index_d index' = index_d index ∧
        embedding_dim md' = embedding_dim md
  end ∧
  (∀ new_emb, get_embedding self (Texts new_texts) = Ok new_emb →
     (atleast_2d new_emb).1 ≠ d → out = Raise ValueError) ∧
  (∀ batches,
     ∃ index' md' rows',
       stored self name (run_updates self name batches fs) index' md'
              (Array2 d (rows ++ rows')) ∧
       index_d index' = index_d index ∧
       embedding_dim md' = embedding_dim md).
Proof.
  intros Hst Hd Hmd Hup. split_and!.
  - by eapply update_index_keeps_dimension.
  - intros new_emb Hget Hne.
    unfold update_index, try_except_FileNotFoundError in Hup.
    rewrite (load_index_stored _ _ _ _ _ _ Hst) in Hup. io_unfold.
    rewrite Hget in Hup. unfold np_vstack in Hup.
    destruct (atleast_2d new_emb) as [cb rb]. simpl in *.
    destruct (Nat.eqb_spec d cb); [congruence|]. by injection Hup as _ <-.
  - clear fs' out Hup now new_texts. intros batches.
    revert fs index md rows Hst Hd Hmd.
    induction batches as [|[now new_texts] batches IH];
      intros fs index md rows Hst Hd Hmd.
    + exists index, md, []. by rewrite app_nil_r.
    + cbn [run_updates].
      destruct (update_index self now name new_texts fs) as [fs1 out1] eqn:Hup.
      pose proof (update_index_keeps_dimension _ _ _ _ _ _ _ _ _ _ _
                    Hst Hd Hmd Hup) as Hone.
      destruct out1 as [[]|e]; simpl.
      * destruct Hone as (index1 & md1 & rows1 & Hst1 & Hd1 & Hmd1).
        destruct (IH fs1 index1 md1 (rows ++ rows1)) as (index' & md' & rows' & ? & ? & ?).
        { done. }
        { congruence. }
        { intros ef Hef. rewrite Hmd1. by eapply Hmd. }
        exists index', md', (rows1 ++ rows'). rewrite app_assoc.
        split_and!; [done|congruence..].
      * subst fs1. by apply IH.
Qed.

Lemma update_index_keeps_columns self now name new_texts fs index md d rows :
  stored self name fs index md (Array2 d rows) →
  ∃ index' md' rows',
    stored self name (update_index self now name new_texts fs).1 index' md'
           (Array2 d (rows ++ rows')).
Proof.
  intros Hst.
  destruct (update_index self now name new_texts fs) as [fs' [[]|e]] eqn:Hup.
  - destruct (update_index_Ok _ _ _ _ _ _ _ _ _ Hst Hup)
      as (new_emb & index' & md' & emb' & _ & Hv & _ & _ & _ & _ & ->).
    apply np_vstack_Ok in Hv as [_ ->].
    exists index', md', (atleast_2d new_emb).2. apply stored_after_save.
  - apply update_index_Raise in Hup as ->.
    exists index, md, []. by rewrite app_nil_r.
Qed.

(** Whatever the batches and whether the calls succeed or raise, the array
    of an existing index keeps its number of columns and its rows. *)
Lemma run_updates_keep_columns self name batches fs index md d rows :
  stored self name fs index md (Array2 d rows) →
  ∃ index' md' rows',
    stored self name (run_updates self name batches fs) index' md'
           (Array2 d (rows ++ rows')).
Proof.
  revert fs index md rows.
  induction batches as [|[now new_texts] batches IH]; intros fs index md rows Hst.
  - exists index, md, []. by rewrite app_nil_r.
  - destruct (update_index_keeps_columns self now name new_texts _ _ _ _ _ Hst)
      as (index1 & md1 & rows1 & Hst1).
    destruct (IH _ _ _ _ Hst1) as (index' & md' & rows' & Hst').
    exists index', md', (rows1 ++ rows'). by rewrite app_assoc.
Qed.

(** ** The central invariant *)

Lemma create_faiss_index_invariant self now name texts fs fs' r :
  length (response_embeddings (_make_request self (Texts texts))) = length texts →
  create_faiss_index self now name texts fs = (fs', Ok r) →
  ∃ index md emb,
    stored self name fs' index md emb ∧ central_invariant md emb ∧
    emb = Array2 (index_d index) (index_xb index).
Proof.
  intros Hlen Hc. destruct r as [index md].
  apply create_faiss_index_Ok in Hc
    as (rows & Hget & Hindex & Hch & Htot & _ & _ & ->).
  exists index, md, (Array2 (index_d index) rows). split_and!.
  - apply stored_after_save.
  - rewrite get_embedding_Texts in Hget. destruct (negb _); [done|].
    apply np_array_Ok in Hget as [[_ ?]|(r & rows' & Hrows & [= Hd Hr] & _)]; [done|].
    unfold central_invariant. rewrite Hch, Htot, make_chunks_length.
    rewrite make_chunks_id, make_chunks_embedding_index. simpl.
    split_and!; try done. exists (index_d index). by rewrite Hr, Hlen.
  - by rewrite Hindex.
Qed.

(** C1. After a successful [create_faiss_index], and after a successful
    [update_index] with a non-empty batch on a file system where the index,
    if it loads, satisfies the invariant: [total_chunks] is the length of
    the chunk list and the number of rows of the stored array, the chunk
    ids are 0..n-1 in order and each [embedding_index] is the position of
    its chunk.  The service is assumed to answer one vector per text. *)
Theorem central_invariant_after_create_and_update self now name texts fs fs' :
  length (response_embeddings (_make_request self (Texts texts))) = length texts →
  ((∃ r, create_faiss_index self now name texts fs = (fs', Ok r)) →
   ∃ index md emb, stored self name fs' index md emb ∧ central_invariant md emb) ∧
  (texts ≠ [] →
   (∀ index md emb, stored self name fs index md emb → central_invariant md emb) →
   update_index self now name texts fs = (fs', Ok tt) →
   ∃ index md emb, stored self name fs' index md emb ∧ central_invariant md emb).
Proof.
  intros Hlen. split.
  - intros [r Hc].
    destruct (create_faiss_index_invariant _ _ _ _ _ _ _ Hlen Hc)
      as (index & md & emb & ? & ? & _). by exists index, md, emb.
  - intros Hne Hpre Hup.
    destruct (load_index_cases self name fs) as [(index & md & emb & Hst)|[e Hl]].
    + destruct (Hpre _ _ _ Hst) as (Htot & [d Hshape] & Hid & Hei).
      destruct (update_index_Ok _ _ _ _ _ _ _ _ _ Hst Hup)
        as (new_emb & index' & md' & emb' & Hget & Hv & Hemb & Hch & Htot' & _ & ->).
      exists index', md', emb'. split; [apply stored_after_save|].
      rewrite get_embedding_Texts in Hget. destruct (negb _); [done|].
      apply np_array_Ok in Hget as [[Hnil _]|(r & rows' & Hrows & -> & _)].
      { rewrite Hnil in Hlen. by destruct texts. }
      destruct emb as [| |c rows]; try done. injection Hshape as Hrows_len ->.
      apply np_vstack_Ok in Hv as [_ ->]. simpl.
      unfold central_invariant.
      rewrite Htot', Hch, !fmap_app, length_app, make_chunks_length.
      rewrite make_chunks_id, make_chunks_embedding_index, Hid, Hei.
      rewrite <- Htot, seq_app. split_and!; try done.
      exists d. simpl. rewrite length_app. do 2 f_equal; lia.
    + unfold update_index, try_except_FileNotFoundError in Hup. rewrite Hl in Hup.
      destruct e; try done. io_unfold.
      destruct (create_faiss_index self now name texts fs) as [fs1 [r|]] eqn:Hc; [|done].
      injection Hup as ->.
      destruct (create_faiss_index_invariant _ _ _ _ _ _ _ Hlen Hc)
        as (index & md & emb & ? & ? & _). by exists index, md, emb.
Qed.

(** ** The FAISS result heap *)

Lemma Qltb_lt x y : Qltb x y = true ↔ (x < y)%Q.
Proof.
  unfold Qltb. rewrite negb_true_iff, <- not_true_iff_false, Qle_bool_iff.
  split; [apply Qnot_le_lt | apply Qlt_not_le].
Qed.

Lemma cmp2_hit_lt v val i id : cmp2 v val i id = true ↔ hit_lt (val, id) (v, i).
Proof.
  unfold cmp2, hit_lt. simpl.
  rewrite orb_true_iff, andb_true_iff, Qltb_lt, Qeq_bool_iff, Z.ltb_lt.
  split; (intros [?|[? ?]]; [by left | right; split; [by symmetry | done]]).
Qed.

Lemma hit_lt_trans a b c : hit_lt a b → hit_lt b c → hit_lt a c.
Proof.
  unfold hit_lt. intros [Hab|[Hab Hab']] [Hbc|[Hbc Hbc']].
  - left. by eapply Qlt_trans.
  - left. by rewrite <- Hbc.
  - left. by rewrite Hab.
  - right. split; [by rewrite Hab | lia].
Qed.

Lemma hit_lt_total a b : a.2 ≠ b.2 → ¬ hit_lt a b → hit_lt b a.
Proof.
  unfold hit_lt. intros Hne Hn.
  destruct (Q_dec a.1 b.1) as [[Hlt|Hgt]|Heq].
  - destruct Hn. by left.
  - by left.
  - right. split; [by symmetry|].
    destruct (Z.lt_trichotomy a.2 b.2) as [?|[?|?]]; [|done..].
    destruct Hn. by right.
Qed.

Lemma heap_push_perm val id h : heap_push val id h ≡ₚ (val, id) :: h.
Proof.
  induction h as [|[v i] h IH]; [done|]. simpl.
  destruct (cmp2 v val i id); [done|].
  rewrite IH. apply Permutation_swap.
Qed.

Lemma heap_push_length val id h : length (heap_push val id h) = S (length h).
Proof. by rewrite heap_push_perm. Qed.

Lemma heap_push_sorted val id h :
  StronglySorted hit_lt h →
  (∀ e, e ∈ h → e.2 ≠ id) →
  StronglySorted hit_lt (heap_push val id h).
Proof.
  induction 1 as [|[v i] h Hsorted IH Hall]; intros Hfresh; simpl.
  - repeat constructor.
  - destruct (cmp2 v val i id) eqn:Hc.
    + apply cmp2_hit_lt in Hc. constructor; [by constructor|].
      constructor; [done|].
      eapply Forall_impl; [exact Hall|]. intros e He. by eapply hit_lt_trans.
    + constructor.
      * apply IH. intros e He. apply Hfresh. by right.
      * rewrite heap_push_perm. constructor; [|done].
        apply (hit_lt_total (val, id) (v, i)).
        -- simpl. intros E. by apply (Hfresh (v, i)); [left|].
        -- rewrite <- cmp2_hit_lt. by rewrite Hc.
Qed.

Lemma heap_inv_next k j seen h : heap_inv k j seen h → heap_inv k (j + 1) seen h.
Proof.
  intros (Hsorted & Hlen & Hlabels & Hdropped). split_and!; [done..| |done].
  intros e He. apply Hlabels in He. lia.
Qed.

Lemma add_result_admitted k j seen h dis :
  heap_inv k j seen h →
  (dis < FLT_MAX)%Q →
  heap_inv k (j + 1) (seen ++ [(dis, j)]) (add_result k h dis j).
Proof.
  intros (Hsorted & Hlen & Hlabels & dropped & Hperm & Hdropped) Hadm.
  assert (Hfresh : ∀ e, e ∈ h → e.2 ≠ j).
  { intros e He E. assert (e ∈ seen) as Hs by (rewrite Hperm; set_solver).
    apply Hlabels in Hs. lia. }
  assert (Hlabels' : ∀ e, e ∈ seen ++ [(dis, j)] → (e.2 < j + 1)%Z).
  { intros e [He|He%list_elem_of_singleton]%elem_of_app.
    - apply Hlabels in He. lia.
    - subst e. simpl. lia. }
  apply Qltb_lt in Hadm.
  unfold add_result, heap_inv. rewrite Hadm.
  destruct (Nat.ltb_spec (length h) k) as [Hk|Hk].
  - (* the heap is not full *)
    assert (dropped = []) as ->.
    { apply Permutation_length in Hperm. rewrite length_app in Hperm.
      destruct dropped; [done|]. simpl in Hperm. lia. }
    split_and!.
    + by apply heap_push_sorted.
    + rewrite heap_push_length, length_app. simpl. lia.
    + done.
    + exists []. split; [|by intros ?? _ ?%elem_of_nil].
      rewrite app_nil_r in Hperm. rewrite app_nil_r, heap_push_perm, Hperm.
      symmetry. apply Permutation_cons_append.
  - (* the heap is full *)
    destruct (last h) as [[threshold top]|] eqn:Hlast.
    2:{ apply last_None in Hlast as ->. simpl in *.
        split_and!; [constructor| rewrite length_app; simpl; lia | done |].
        exists (dropped ++ [(dis, j)]). split; [by rewrite Hperm|].
        by intros ?? ?%elem_of_nil. }
    apply last_Some in Hlast as [h' ->].
    rewrite length_app in Hlen, Hk. simpl in Hlen, Hk.
    pose proof (StronglySorted_app_1_l _ _ _ Hsorted) as Hsorted'.
    assert (Htop : ∀ e, e ∈ h' → hit_lt e (threshold, top)).
    { intros e He.
      apply (StronglySorted_app_1_elem_of _ _ _ _ _ Hsorted He). by left. }
    destruct (Qltb dis threshold) eqn:Hlt.
    + apply Qltb_lt in Hlt. rewrite removelast_last. split_and!.
      * apply heap_push_sorted; [done|].
        intros e He. apply Hfresh. set_solver.
      * rewrite heap_push_length, length_app. simpl. lia.
      * done.
      * exists ((threshold, top) :: dropped). split.
        -- rewrite heap_push_perm, Hperm, <- Permutation_cons_append.
           simpl. by rewrite <- app_assoc.
        -- intros e c He Hc. rewrite heap_push_perm in He.
           assert (Hte : hit_lt (dis, j) (threshold, top)) by by left.
           apply elem_of_cons in He as [->|He], Hc as [->|Hc].
           ++ done.
           ++ eapply hit_lt_trans; [exact Hte|]. apply Hdropped; set_solver.
           ++ by apply Htop.
           ++ apply Hdropped; set_solver.
    + assert (Hge : (threshold <= dis)%Q).
      { apply Qnot_lt_le. rewrite <- Qltb_lt. by rewrite Hlt. }
      split_and!.
      * done.
      * rewrite !length_app. simpl. lia.
      * done.
      * exists (dropped ++ [(dis, j)]). split; [by rewrite Hperm, app_assoc|].
        intros e c He [Hc|Hc%list_elem_of_singleton]%elem_of_app;
          [by apply Hdropped|]. subst c.
        assert (Hej : (e.2 < j)%Z).
        { apply Hlabels. rewrite Hperm. apply elem_of_app. by left. }
        assert (Hle : (e.1 <= threshold)%Q).
        { apply elem_of_app in He as [Hin|Hin].
          - destruct (Htop e Hin) as [?|[Heq _]];
              [by apply Qlt_le_weak | by rewrite Heq; apply Qle_refl].
          - apply list_elem_of_singleton in Hin. subst e. apply Qle_refl. }
        destruct (Qle_lt_or_eq _ _ (Qle_trans _ _ _ Hle Hge)) as [?|?];
          [by left | by right].
Qed.

(** A distance that is not below [FLT_MAX] leaves the heap as it is. *)
Lemma add_result_not_admitted k j seen h dis :
  heap_inv k j seen h →
  (∀ e, e ∈ seen → (e.1 < FLT_MAX)%Q) →
  ¬ (dis < FLT_MAX)%Q →
  add_result k h dis j = h.
Proof.
  intros (_ & _ & _ & dropped & Hperm & _) Hseen Hadm.
  rewrite <- Qltb_lt in Hadm. apply not_true_is_false in Hadm.
  unfold add_result. rewrite Hadm.
  destruct (length h <? k); [done|].
  destruct (last h) as [[threshold top]|] eqn:Hlast; [|done].
  destruct (Qltb dis threshold) eqn:Hlt; [|done]. exfalso.
  apply Qltb_lt in Hlt.
  assert (Hin : (threshold, top) ∈ seen).
  { rewrite Hperm. apply elem_of_app. left.
    apply last_Some in Hlast as [h' ->]. set_solver. }
  apply Hseen in Hin. simpl in Hin.
  apply not_true_iff_false in Hadm. apply Hadm, Qltb_lt.
  by apply Qlt_trans with threshold.
Qed.

Lemma candidates_cons x y_j y j :
  candidates x (y_j :: y) j = (fvec_L2sqr x y_j, j) :: candidates x y (j + 1).
Proof.
  unfold candidates. rewrite imap_cons. f_equal; [f_equal; lia|].
  apply imap_ext. intros i v _. simpl. f_equal. lia.
Qed.

Lemma elem_of_admissible x y j e :
  e ∈ admissible x y j ↔ (e.1 < FLT_MAX)%Q ∧ e ∈ candidates x y j.
Proof.
  unfold admissible. by rewrite list_elem_of_filter, Is_true_true, Qltb_lt.
Qed.

Lemma admissible_cons x y_j y j :
  admissible x (y_j :: y) j =
    if Qltb (fvec_L2sqr x y_j) FLT_MAX
    then (fvec_L2sqr x y_j, j) :: admissible x y (j + 1)
    else admissible x y (j + 1).
Proof.
  unfold admissible. rewrite candidates_cons.
  destruct (Qltb (fvec_L2sqr x y_j) FLT_MAX) eqn:Hadm.
  - rewrite filter_cons_True; [done|]. simpl. by apply Is_true_true.
  - rewrite filter_cons_False; [done|]. simpl. by apply Is_true_false.
Qed.

Lemma exhaustive_L2sqr_seq_inv x k y j seen h :
  heap_inv k j seen h →
  (∀ e, e ∈ seen → (e.1 < FLT_MAX)%Q) →
  heap_inv k (j + Z.of_nat (length y)) (seen ++ admissible x y j)
           (exhaustive_L2sqr_seq x y j k h).
Proof.
  revert j seen h. induction y as [|y_j y IH]; intros j seen h Hinv Hseen.
  - simpl. rewrite app_nil_r. by replace (j + Z.of_nat 0)%Z with j by lia.
  - rewrite admissible_cons. cbn [exhaustive_L2sqr_seq].
    replace (j + Z.of_nat (length (y_j :: y)))%Z
      with (j + 1 + Z.of_nat (length y))%Z by (simpl; lia).
    destruct (Qltb (fvec_L2sqr x y_j) FLT_MAX) eqn:Hadm.
    + apply Qltb_lt in Hadm.
      rewrite (cons_middle _ seen), app_assoc.
      apply IH; [by apply add_result_admitted|].
      intros e [He|He%list_elem_of_singleton]%elem_of_app; [by apply Hseen|].
      by subst e.
    + rewrite (add_result_not_admitted k j seen h) by
        (try done; rewrite <- Qltb_lt; by rewrite Hadm).
      apply IH; [by apply heap_inv_next|done].
Qed.

Lemma heap_inv_empty k : heap_inv k 0 [] [].
Proof.
  split_and!; [constructor | simpl; lia | by intros ? ?%elem_of_nil |].
  exists []. split; [done|]. by intros ?? ?%elem_of_nil.
Qed.

Lemma elem_of_candidates x y e :
  e ∈ candidates x y 0 ↔
  ∃ i y_i, y !! i = Some y_i ∧ e = (fvec_L2sqr x y_i, Z.of_nat i).
Proof.
  unfold candidates. rewrite elem_of_lookup_imap.
  split; intros (i & y_i & H1 & H2); exists i, y_i; naive_solver.
Qed.

(** The scan returns, in ascending order, the [k] least of the candidates
    with a distance below [FLT_MAX], or all of them when they are fewer. *)
Lemma exhaustive_L2sqr_seq_spec x y k :
  let h := exhaustive_L2sqr_seq x y 0 k [] in
  StronglySorted hit_lt h ∧
  length h = Nat.min k (length (admissible x y 0)) ∧
  (∀ e, e ∈ h →
     (e.1 < FLT_MAX)%Q ∧
     ∃ i y_i, y !! i = Some y_i ∧ e = (fvec_L2sqr x y_i, Z.of_nat i)) ∧
  (∀ i y_i, y !! i = Some y_i →
     (fvec_L2sqr x y_i < FLT_MAX)%Q →
     (fvec_L2sqr x y_i, Z.of_nat i) ∉ h →
     ∀ e, e ∈ h → hit_lt e (fvec_L2sqr x y_i, Z.of_nat i)).
Proof.
  intros h.
  destruct (exhaustive_L2sqr_seq_inv x k y 0 [] [] (heap_inv_empty k))
    as (Hsorted & Hlen & _ & dropped & Hperm & Hdropped).
  { by intros ? ?%elem_of_nil. }
  fold h in Hsorted, Hlen, Hperm, Hdropped. simpl in Hlen, Hperm.
  split_and!.
  - done.
  - done.
  - intros e He.
    assert (Hadm : e ∈ admissible x y 0) by (rewrite Hperm; set_solver).
    apply elem_of_admissible in Hadm as [? Hc]. split; [done|].
    by apply elem_of_candidates.
  - intros i y_i Hi Hadm Hnot e He. apply Hdropped; [done|].
    assert (Hc : (fvec_L2sqr x y_i, Z.of_nat i) ∈ admissible x y 0).
    { apply elem_of_admissible. split; [done|]. apply elem_of_candidates. eauto. }
    rewrite Hperm in Hc. by apply elem_of_app in Hc as [?|?].
Qed.

(** When every stored vector is at a distance below [FLT_MAX], all of them
    are candidates. *)
Lemma admissible_all x y j :
  (∀ v, v ∈ y → (fvec_L2sqr x v < FLT_MAX)%Q) →
  admissible x y j = candidates x y j.
Proof.
  revert j. induction y as [|y_j y IH]; intros j Hy; [done|].
  rewrite admissible_cons, candidates_cons.
  assert (Hadm : (fvec_L2sqr x y_j < FLT_MAX)%Q) by (apply Hy; by left).
  apply Qltb_lt in Hadm. rewrite Hadm. f_equal.
  apply IH. intros v Hv. apply Hy. by right.
Qed.

Lemma length_candidates x y j : length (candidates x y j) = length y.
Proof. unfold candidates. by rewrite length_imap. Qed.

Lemma length_admissible_le x y j : length (admissible x y j) ≤ length y.
Proof.
  unfold admissible. rewrite <- (length_candidates x y j). apply length_filter.
Qed.

(** ** Search *)

Lemma StronglySorted_lookup_lt {A} (R : relation A) l n n' a b :
  StronglySorted R l → n < n' → l !! n = Some a → l !! n' = Some b → R a b.
Proof.
  intros Hsorted. revert n n'.
  induction Hsorted as [|x l Hsorted IH Hall]; intros n n' Hlt Ha Hb; [done|].
  destruct n' as [|n']; [lia|]. destruct n as [|n]; simpl in *.
  - injection Ha as ->. rewrite Forall_forall in Hall.
    apply Hall. by eapply list_elem_of_lookup_2.
  - apply (IH n n'); [lia|done..].
Qed.

Lemma Qsquare_nonneg (a : Q) : (0 <= a * a)%Q.
Proof. unfold Qle. simpl. rewrite Z.mul_1_r. apply Z.square_nonneg. Qed.

Lemma fvec_L2sqr_nonneg x y : (0 <= fvec_L2sqr x y)%Q.
Proof.
  unfold fvec_L2sqr. generalize (Qle_refl 0). generalize 0%Q at 2 4.
  induction (combine x y) as [|xy l IH]; intros res Hres; [done|].
  simpl. apply IH.
  rewrite <- (Qplus_0_r 0). apply Qplus_le_compat; [done|].
  apply Qsquare_nonneg.
Qed.

Lemma combine_fst_snd {A B} (l : list (A * B)) : combine (l.*1) (l.*2) = l.
Proof. induction l as [|[a b] l IH]; [done|]. csimpl. by rewrite IH. Qed.

Lemma py_getitem_nat {A} (l : list A) i a :
  l !! i = Some a → py_getitem l (Z.of_nat i) = Ok a.
Proof.
  intros Hi. unfold py_getitem.
  destruct (Z.ltb_spec (Z.of_nat i) 0); [lia|].
  destruct (Z.ltb_spec (Z.of_nat i) 0); [lia|].
  by rewrite Nat2Z.id, Hi.
Qed.

(** Up to the failures of loading and of embedding the query, [search] is
    the result loop run on the [k] hits FAISS returns. *)
Lemma search_stored self name query k fs index md emb q :
  stored self name fs index md emb →
  get_embedding self (Str query) = Ok (Array1 q) →
  length q = index_d index →
  0 < k →
  search self name query k fs =
    (fs, search_results md 0 (knn_L2sqr q (index_xb index) k)).
Proof.
  intros Hst Hq Hd Hk. unfold search.
  unfold mbind at 1, io_bind. rewrite (load_index_stored _ _ _ _ _ _ Hst).
  io_unfold. rewrite Hq. simpl. rewrite Hd, Nat.eqb_refl. simpl.
  destruct (Nat.ltb_spec 0 k); [|lia]. simpl.
  by rewrite combine_fst_snd.
Qed.

Lemma search_results_Ok md i0 hits :
  (∀ e, e ∈ hits → (0 <= e.1)%Q ∧ ∃ i, e.2 = Z.of_nat i ∧ is_Some (chunks md !! i)) →
  ∃ results,
    search_results md i0 hits = Ok results ∧
    length results = length hits ∧
    ∀ n r, results !! n = Some r →
      ∃ dis i c,
        hits !! n = Some (dis, Z.of_nat i) ∧ chunks md !! i = Some c ∧
        r = {| chunk_id := Chunk.id c; text := Chunk.text c; distance := dis;
               score := (1 / (1 + dis))%Q; rank := i0 + n + 1 |}.
Proof.
  revert i0. induction hits as [|[dis idx] hits IH]; intros i0 Hhits.
  - exists []. by split_and!.
  - destruct (Hhits (dis, idx)) as (Hdis & i & Hi & [c Hc]); [by left|].
    simpl in Hdis, Hi. subst idx.
    destruct (IH (S i0)) as (rs & Hrs & Hlen & Hspec).
    { intros e He. apply Hhits. by right. }
    eexists (_ :: rs). split_and!.
    + cbn [search_results]. unfold search_entry. unfold mbind, result_bind.
      rewrite (py_getitem_nat _ _ _ Hc).
      destruct (Qeq_bool (1 + dis) 0) eqn:Hz.
      { apply Qeq_bool_iff in Hz. exfalso.
        assert (0 < 1 + dis)%Q.
        { apply Qlt_le_trans with (1 + 0)%Q; [done|]. by apply Qplus_le_r. }
        rewrite Hz in *. by apply (Qlt_irrefl 0). }
      rewrite Hrs. reflexivity.
    + simpl. by rewrite Hlen.
    + intros [|n] r Hr; simpl in Hr.
      * injection Hr as <-. exists dis, i, c. split_and!; [done..|].
        do 2 f_equal. lia.
      * destruct (Hspec n r Hr) as (dis' & i' & c' & ? & ? & ->).
        exists dis', i', c'. split_and!; [done..|]. f_equal. lia.
Qed.

(** ** Rebuilding the FAISS index on update *)

Lemma make_chunks_app start texts texts' :
  make_chunks start (texts ++ texts') =
    make_chunks start texts ++ make_chunks (start + length texts) texts'.
Proof.
  unfold make_chunks. rewrite imap_app. f_equal.
  apply imap_ext. intros i t _. f_equal; lia.
Qed.

Lemma search_results_chunks md md' i hits :
  chunks md = chunks md' → search_results md i hits = search_results md' i hits.
Proof.
  intros Hch. revert i. induction hits as [|[dis idx] hits IH]; intros i; [done|].
  cbn [search_results]. unfold search_entry. by rewrite Hch, IH.
Qed.

Lemma search_loaded self name query k fs index md emb :
  stored self name fs index md emb →
  search self name query k fs =
    (fs,
     query_embedding ← get_embedding self (Str query);
     '(distances, indices) ← index_search index (reshape_1_m1 query_embedding) k;
     match distances, indices with
     | distances_0 :: _, indices_0 :: _ =>
         search_results md 0 (combine distances_0 indices_0)
     | _, _ => Raise IndexError
     end).
Proof.
  intros Hst. unfold search. unfold mbind at 1, io_bind.
  rewrite (load_index_stored _ _ _ _ _ _ Hst). io_unfold.
  destruct (get_embedding self (Str query)) as [qe|]; [|done].
  destruct (index_search index (reshape_1_m1 qe) k) as [[distances indices]|];
    [|done].
  destruct distances as [|distances_0 ?]; [done|].
  by destruct indices as [|indices_0 ?].
Qed.

(** The results of [search] depend on the FAISS file and on the chunk list
    of the metadata only. *)
Lemma search_same_index_and_chunks self name query k fs fs' index md md' emb emb' :
  stored self name fs index md emb →
  stored self name fs' index md' emb' →
  chunks md = chunks md' →
  (search self name query k fs).2 = (search self name query k fs').2.
Proof.
  intros Hst Hst' Hch.
  rewrite (search_loaded _ _ _ _ _ _ _ _ Hst), (search_loaded _ _ _ _ _ _ _ _ Hst').
  simpl. unfold mbind, result_bind.
  destruct (get_embedding self (Str query)) as [qe|]; [|done].
  destruct (index_search index (reshape_1_m1 qe) k) as [[distances indices]|];
    [|done].
  destruct distances as [|distances_0 ?]; [done|].
  destruct indices as [|indices_0 ?]; [done|].
  by apply search_results_chunks.
Qed.

Lemma get_embedding_Texts_Array2 self texts d rows :
  get_embedding self (Texts texts) = Ok (Array2 d rows) →
  rows = response_embeddings (_make_request self (Texts texts)) ∧
  status_code (_make_request self (Texts texts)) = 200 ∧
  ∃ r rows', rows = r :: rows' ∧ d = length r.
Proof.
  rewrite get_embedding_Texts.
  destruct (Nat.eqb_spec (status_code (_make_request self (Texts texts))) 200);
    [|done]. simpl.
  intros [[_ ?]|(r & rows' & Hrows & [= -> ->] & _)]%np_array_Ok; [done|].
  split_and!; [done..|]. by exists r, rows'.
Qed.

Lemma create_faiss_index_built_from self now name texts fs fs' r :
  create_faiss_index self now name texts fs = (fs', Ok r) →
  built_from self name texts fs'.
Proof.
  destruct r as [index md]. intros Hc.
  apply create_faiss_index_Ok in Hc as (rows & Hget & Hindex & Hch & _ & _ & _ & ->).
  exists index, md.
  assert (index_xb index = rows) as -> by (by rewrite Hindex).
  split_and!; [apply stored_after_save|done..].
Qed.

(** C10. On an index built from [texts] (by [create_faiss_index] or by
    earlier updates), a successful [update_index] stores a flat L2 index
    over the stored rows followed by the new rows: the index is again built
    from [texts ++ new_texts], as is the index [create_faiss_index] writes
    in one step from [texts ++ new_texts], and every later [search] has the
    same outcome on both.  The service is assumed to answer a batch with
    the vectors of its texts in order, and with at least one vector for the
    new texts. *)
Theorem update_index_rebuild_equivalence
    self now now' name texts new_texts fs fs' fs0 fs1 r :
  built_from self name texts fs →
  update_index self now name new_texts fs = (fs', Ok tt) →
  create_faiss_index self now' name (texts ++ new_texts) fs0 = (fs1, Ok r) →
  response_embeddings (_make_request self (Texts (texts ++ new_texts))) =
    response_embeddings (_make_request self (Texts texts)) ++
    response_embeddings (_make_request self (Texts new_texts)) →
  response_embeddings (_make_request self (Texts new_texts)) ≠ [] →
  (∃ index md emb d,
     stored self name fs index md emb ∧
     stored self name fs'
       (mkIndexFlatL2 d ((atleast_2d emb).2 ++
          response_embeddings (_make_request self (Texts new_texts))))
       {| created_at := created_at md; updated_at := Some now;
          model := model md; input_type := input_type md;
          encoding_format := encoding_format md;
          total_chunks := length texts + length new_texts;
          embedding_dim := match self_api self with
                           | Cohere_Embedding _ _ _ => embedding_dim md
                           | OpenAI_Embedding _ => Some d
                           end;
          chunks := make_chunks 0 (texts ++ new_texts) |}
       (Array2 d ((atleast_2d emb).2 ++
          response_embeddings (_make_request self (Texts new_texts))))) ∧
  built_from self name (texts ++ new_texts) fs' ∧
  built_from self name (texts ++ new_texts) fs1 ∧
  ∀ query k, (search self name query k fs').2 = (search self name query k fs1).2.
Proof.
  intros (index1 & md1 & Hst1 & Hget1 & Hch1) Hup Hc3 Hpos Hnew.
  pose proof (create_faiss_index_built_from _ _ _ _ _ _ _ Hc3)
    as (index3 & md3 & Hst3 & Hget3 & Hch3).
  assert (Hup' := Hup).
  unfold update_index, try_except_FileNotFoundError in Hup'.
  rewrite (load_index_stored _ _ _ _ _ _ Hst1) in Hup'. io_unfold.
  destruct (get_embedding self (Texts new_texts)) as [new_emb|] eqn:Hget2; [|done].
  rewrite get_embedding_Texts in Hget2. destruct (negb _); [done|].
  apply np_array_Ok in Hget2 as [[? _]|(r2 & rows2' & Hr2 & -> & _)]; [done|].
  apply get_embedding_Texts_Array2 in Hget1 as Hfacts1.
  destruct Hfacts1 as (Hrows1 & _ & r1 & rows1' & Hr1 & Hd1).
  apply get_embedding_Texts_Array2 in Hget3 as Hfacts3.
  destruct Hfacts3 as (Hrows3 & _ & r3 & rows3' & Hr3 & Hd3).
  set (PA := response_embeddings (_make_request self (Texts texts))) in *.
  set (PB := response_embeddings (_make_request self (Texts new_texts))) in *.
  destruct index1 as [d1 xb1], index3 as [d3 xb3]. simpl in *.
  subst xb1. rewrite Hpos, Hr1 in Hrows3. rewrite Hrows3 in Hr3.
  injection Hr3 as <- _. assert (d3 = d1) as -> by congruence. clear Hd3.
  rewrite <- Hr1 in Hrows3. subst xb3.
  unfold np_vstack in Hup'. simpl in Hup'.
  destruct (Nat.eqb_spec d1 (length r2)) as [Hd2|]; [|done].
  assert (Hch2 : chunks md1 ++ make_chunks (length (chunks md1)) new_texts
                 = make_chunks 0 (texts ++ new_texts)).
  { by rewrite Hch1, make_chunks_app, make_chunks_length. }
  assert (Hst2 : stored self name fs'
            (mkIndexFlatL2 d1 (PA ++ PB))
            {| created_at := created_at md1; updated_at := Some now;
               model := model md1; input_type := input_type md1;
               encoding_format := encoding_format md1;
               total_chunks := length texts + length new_texts;
               embedding_dim := match self_api self with
                                | Cohere_Embedding _ _ _ => embedding_dim md1
                                | OpenAI_Embedding _ => Some d1
                                end;
               chunks := make_chunks 0 (texts ++ new_texts) |}
            (Array2 d1 (PA ++ PB))).
  { rewrite <- Hch2 at 1. rewrite <- (length_app texts new_texts).
    rewrite <- (make_chunks_length 0 (texts ++ new_texts)), <- Hch2.
    destruct (self_api self) as [it et dim|ef]; simpl in Hup'.
    - destruct (Nat.eqb_spec d1 dim) as [E|]; [subst dim|done].
      injection Hup' as <-. apply stored_after_save.
    - rewrite Nat.eqb_refl in Hup'.
      injection Hup' as <-. apply stored_after_save. }
  split_and!.
  - by exists (mkIndexFlatL2 d1 PA), md1, (Array2 d1 PA), d1.
  - eexists _, _. split_and!; [exact Hst2| |done]. simpl. by rewrite Hget3.
  - exists (mkIndexFlatL2 d1 (PA ++ PB)), md3. by split_and!.
  - intros query k.
    eapply search_same_index_and_chunks; [exact Hst2|exact Hst3|].
    by rewrite Hch3.
Qed.

(** Whatever the index holds, a successful [search] returns as many
    results as were asked for. *)
Lemma search_results_length md i hits results :
  search_results md i hits = Ok results → length results = length hits.
Proof.
  revert i results. induction hits as [|[dis idx] hits IH]; intros i results.
  - by intros [= <-].
  - cbn [search_results]. unfold mbind, result_bind.
    destruct (search_entry md i dis idx); [|done].
    destruct (search_results md (S i) hits) as [rs|] eqn:Hrs; [|done].
    intros [= <-]. simpl. f_equal. by eapply IH.
Qed.

Lemma knn_L2sqr_length x y k : length (knn_L2sqr x y k) = k.
Proof.
  unfold knn_L2sqr. destruct (exhaustive_L2sqr_seq_spec x y k) as (_ & Hlen & _).
  simpl in Hlen. rewrite length_app, length_replicate, Hlen. lia.
Qed.

Lemma search_Ok_length self name query k fs fs' results :
  search self name query k fs = (fs', Ok results) → length results = k.
Proof.
  destruct (load_index_cases self name fs) as [(index & md & emb & Hst)|[e Hl]].
  - rewrite (search_loaded _ _ _ _ _ _ _ _ Hst). intros [= _ Hres].
    unfold mbind, result_bind in Hres.
    destruct (get_embedding self (Str query)) as [qe|]; [|done].
    unfold index_search in Hres.
    destruct (reshape_1_m1 qe) as [| |c queries]; try done.
    destruct (negb (c =? index_d index)); [done|].
    destruct (negb (0 <? k)); [done|].
    destruct queries as [|q0 queries]; [done|]. simpl in Hres.
    apply search_results_length in Hres.
    rewrite combine_fst_snd in Hres. by rewrite Hres, knn_L2sqr_length.
  - unfold search. unfold mbind at 1, io_bind. by rewrite Hl.
Qed.

(** ** Failures of the embedding service *)

Lemma get_embedding_failure self texts :
  status_code (_make_request self texts) ≠ 200 →
  get_embedding self texts = Raise (Exception_ "Error in API call").
Proof.
  intros Hs. unfold get_embedding.
  by destruct (Nat.eqb_spec (status_code (_make_request self texts)) 200).
Qed.

(** X1. When the service answers with a status other than 200,
    [create_faiss_index] raises the API exception and writes nothing, and
    so does [update_index], whether it updates an existing index or falls
    back to creating one. *)
Theorem service_failure_writes_nothing self now name texts fs :
  status_code (_make_request self (Texts texts)) ≠ 200 →
  create_faiss_index self now name texts fs
    = (fs, Raise (Exception_ "Error in API call")) ∧
  ((∃ index md emb, stored self name fs index md emb) ∨
   load_index self name fs = (fs, Raise FileNotFoundError) →
   update_index self now name texts fs
     = (fs, Raise (Exception_ "Error in API call"))).
Proof.
  intros Hs. apply get_embedding_failure in Hs.
  assert (Hc : create_faiss_index self now name texts fs
               = (fs, Raise (Exception_ "Error in API call"))).
  { unfold create_faiss_index. io_unfold. by rewrite Hs. }
  split; [done|]. intros [(index & md & emb & Hst)|Hl].
  - unfold update_index, try_except_FileNotFoundError.
    rewrite (load_index_stored _ _ _ _ _ _ Hst). io_unfold. by rewrite Hs.
  - rewrite (update_index_not_found _ _ _ _ _ Hl). io_unfold. by rewrite Hc.
Qed.

(** ** Creation *)

(** X2. An index cannot be created empty: when the service answers with
    no vector (as for an empty list of texts), [create_faiss_index] raises,
    ValueError from [index.add] in the Cohere class and IndexError from
    [embeddings.shape[1]] in the OpenAI class, and writes nothing. *)
Theorem create_faiss_index_no_vector self now name texts fs :
  status_code (_make_request self (Texts texts)) = 200 →
  response_embeddings (_make_request self (Texts texts)) = [] →
  create_faiss_index self now name texts fs =
    (fs, Raise match self_api self with
               | Cohere_Embedding _ _ _ => ValueError
               | OpenAI_Embedding _ => IndexError
               end).
Proof.
  intros Hs Hrows. unfold create_faiss_index. io_unfold.
  rewrite get_embedding_Texts, Hs, Hrows. simpl.
  by destruct (self_api self).
Qed.

(** X3. [create_faiss_index] returns only when the service answers with
    status 200 and at least one vector, all vectors have one length, and,
    in the Cohere class, this length is [embedding_dim]; in every other
    case it raises and leaves the files as they are. *)
Theorem create_faiss_index_succeeds_only_if self now name texts fs :
  let accepted :=
    status_code (_make_request self (Texts texts)) = 200 ∧
    ∃ v rows,
      response_embeddings (_make_request self (Texts texts)) = v :: rows ∧
      Forall (fun v' => length v' = length v) rows ∧
      match self_api self with
      | Cohere_Embedding _ _ dim => length v = dim
      | OpenAI_Embedding _ => True
      end in
  (∀ fs' r, create_faiss_index self now name texts fs = (fs', Ok r) → accepted) ∧
  (¬ accepted → ∃ e, create_faiss_index self now name texts fs = (fs, Raise e)).
Proof.
  intros accepted.
  assert (Honly : ∀ fs' r,
            create_faiss_index self now name texts fs = (fs', Ok r) → accepted).
  { intros fs' [index md] Hc.
    apply create_faiss_index_Ok in Hc as (rows & Hget & _ & _ & _ & _ & Hapi & _).
    apply get_embedding_Texts_Array2 in Hget as Hfacts.
    destruct Hfacts as (Hrows & Hs & v & rows' & Hv & Hd).
    rewrite get_embedding_Texts, Hs in Hget. simpl in Hget.
    apply np_array_Ok in Hget as [[? _]|(v' & rows'' & Hv' & _ & Hall)]; [congruence|].
    split; [done|]. exists v, rows'. rewrite <- Hrows, Hv. split_and!; [done| |].
    + rewrite <- Hrows, Hv in Hv'. injection Hv' as <- <-.
      rewrite <- Hrows, Hv in Hall. by apply Forall_cons in Hall as [_ ?].
    + destruct (self_api self); [congruence|done]. }
  split; [done|]. intros Hnot.
  destruct (create_faiss_index self now name texts fs) as [fs' [r|e]] eqn:Hc.
  - destruct Hnot. by eapply Honly.
  - apply create_faiss_index_Raise in Hc as ->. by exists e.
Qed.

(** X4. [create_faiss_index] returns what it persisted and replaces what
    was there: after a successful call, whatever the file system held
    before, [load_index] returns the returned index, the returned metadata
    and an array with the vectors and the dimension of the index; the
    metadata lists the texts in order, counts them, carries the time of the
    call and no update time. *)
Theorem load_index_after_create_faiss_index self now name texts fs fs' index md :
  create_faiss_index self now name texts fs = (fs', Ok (index, md)) →
  load_index self name fs' =
    (fs', Ok (index, md, Array2 (index_d index) (index_xb index))) ∧
  chunks md = make_chunks 0 texts ∧
  total_chunks md = length texts ∧
  created_at md = now ∧
  updated_at md = None ∧
  model md = self_model self.
Proof.
  intros Hc.
  assert (Hmeta : updated_at md = None ∧ model md = self_model self).
  { unfold create_faiss_index in Hc. io_unfold.
    destruct (get_embedding self (Texts texts)) as [emb|]; [|done].
    destruct (self_api self) as [it et dim|ef].
    - destruct (index_add _ emb); [|done]. by injection Hc as _ _ <-.
    - destruct (shape_1 emb); [|done].
      destruct (index_add _ emb); [|done]. by injection Hc as _ _ <-. }
  apply create_faiss_index_Ok in Hc as (rows & _ & Hindex & Hch & Htot & Hnow & _ & ->).
  assert (index_xb index = rows) as -> by (by rewrite Hindex).
  destruct Hmeta. split_and!; [|done..].
  apply load_index_stored, stored_after_save.
Qed.

(** ** Files of other indexes *)

Lemma string_length_append (a b : string) :
  String.length (a +:+ b) = String.length a + String.length b.
Proof.
  induction a as [|c a IH]; [done|].
  change (String c a +:+ b) with (String c (a +:+ b)). simpl. by rewrite IH.
Qed.

Lemma string_append_inj_r (a b s : string) : a +:+ s = b +:+ s → a = b.
Proof.
  revert b. induction a as [|c a IH]; intros b Hab.
  - destruct b as [|c' b]; [done|].
    apply (f_equal String.length) in Hab.
    rewrite !string_length_append in Hab. simpl in Hab. lia.
  - destruct b as [|c' b].
    + apply (f_equal String.length) in Hab.
      rewrite !string_length_append in Hab. simpl in Hab. lia.
    + change (String c (a +:+ s) = String c' (b +:+ s)) in Hab.
      injection Hab as -> Hab. f_equal. by apply IH.
Qed.

Lemma faiss_path_inj self name name' :
  faiss_path self name = faiss_path self name' → name = name'.
Proof.
  unfold faiss_path. intros H.
  apply String.app_inj in H. apply (String.app_inj "/") in H.
  by apply string_append_inj_r in H.
Qed.

Lemma chunks_path_inj self name name' :
  chunks_path self name = chunks_path self name' → name = name'.
Proof.
  unfold chunks_path. intros H.
  apply String.app_inj in H. apply (String.app_inj "/chunks/") in H.
  by apply string_append_inj_r in H.
Qed.

Lemma embeddings_path_inj self name name' :
  embeddings_path self name = embeddings_path self name' → name = name'.
Proof.
  unfold embeddings_path. intros H.
  apply String.app_inj in H. apply (String.app_inj "/embeddings/") in H.
  by apply string_append_inj_r in H.
Qed.

Lemma save_index_frame self name index md emb fs p :
  p ≠ faiss_path self name → p ≠ chunks_path self name →
  p ≠ embeddings_path self name →
  (save_index self name index md emb fs).1 !! p = fs !! p.
Proof.
  intros H1 H2 H3. rewrite save_index_eq. simpl.
  by rewrite !lookup_insert_ne.
Qed.

(** [create_faiss_index] and [update_index] write the three files of the
    index they are called for and no other path. *)
Lemma create_faiss_index_frame self now name texts fs p :
  p ≠ faiss_path self name → p ≠ chunks_path self name →
  p ≠ embeddings_path self name →
  (create_faiss_index self now name texts fs).1 !! p = fs !! p.
Proof.
  intros H1 H2 H3.
  destruct (create_faiss_index self now name texts fs) as [fs' [[index md]|e]] eqn:Hc.
  - apply create_faiss_index_Ok in Hc as (rows & _ & _ & _ & _ & _ & _ & ->).
    by apply save_index_frame.
  - by apply create_faiss_index_Raise in Hc as ->.
Qed.

Lemma update_index_frame self now name new_texts fs p :
  p ≠ faiss_path self name → p ≠ chunks_path self name →
  p ≠ embeddings_path self name →
  (update_index self now name new_texts fs).1 !! p = fs !! p.
Proof.
  intros H1 H2 H3.
  destruct (update_index self now name new_texts fs) as [fs' [[]|e]] eqn:Hup;
    [|by apply update_index_Raise in Hup as ->].
  destruct (load_index_cases self name fs) as [(index & md & emb & Hst)|[e Hl]].
  - destruct (update_index_Ok _ _ _ _ _ _ _ _ _ Hst Hup)
      as (? & ? & ? & ? & _ & _ & _ & _ & _ & _ & ->).
    by apply save_index_frame.
  - unfold update_index, try_except_FileNotFoundError in Hup. rewrite Hl in Hup.
    destruct e; try done. io_unfold.
    pose proof (create_faiss_index_frame self now name new_texts fs p H1 H2 H3) as Hf.
    destruct (create_faiss_index self now name new_texts fs) as [fs1 [r|]]; [|done].
    by injection Hup as <-.
Qed.

(** X5. Creating or updating one index leaves every other index of the
    instance as it is: when the two names are single path components (no
    "/") and differ, the three files of the index with the other name are
    the same after [create_faiss_index] and after [update_index], whether
    the call succeeds or raises. *)
Theorem other_index_untouched self now name name' texts fs index md emb :
  plain_name name = true →
  plain_name name' = true →
  name' ≠ name →
  stored self name' fs index md emb →
  stored self name' (create_faiss_index self now name texts fs).1 index md emb ∧
  stored self name' (update_index self now name texts fs).1 index md emb.
Proof.
  intros _ _ Hne (Hi & Hm & He).
  assert (H1 : faiss_path self name' ≠ faiss_path self name)
    by (by intros ?%faiss_path_inj).
  assert (H2 : chunks_path self name' ≠ chunks_path self name)
    by (by intros ?%chunks_path_inj).
  assert (H3 : embeddings_path self name' ≠ embeddings_path self name)
    by (by intros ?%embeddings_path_inj).
  pose proof (faiss_path_ne_chunks_path self name' name).
  pose proof (faiss_path_ne_embeddings_path self name' name).
  pose proof (chunks_path_ne_embeddings_path self name' name).
  pose proof (faiss_path_ne_chunks_path self name name').
  pose proof (faiss_path_ne_embeddings_path self name name').
  pose proof (chunks_path_ne_embeddings_path self name name').
  split; (repeat split;
    [rewrite <- Hi|rewrite <- Hm|rewrite <- He]);
    (apply create_faiss_index_frame || apply update_index_frame); congruence.
Qed.

(** ** Search: what it reads and what it returns *)

(** X6. [search] is read-only: whatever its arguments and its outcome, the
    file system after the call is the file system before it. *)
Theorem search_read_only self name query k fs :
  (search self name query k fs).1 = fs.
Proof.
  destruct (load_index_cases self name fs) as [(index & md & emb & Hst)|[e Hl]].
  - by rewrite (search_loaded _ _ _ _ _ _ _ _ Hst).
  - unfold search. unfold mbind at 1, io_bind. by rewrite Hl.
Qed.

Lemma get_embedding_Str_Ok self query a :
  get_embedding self (Str query) = Ok a →
  ∃ v rows, response_embeddings (_make_request self (Str query)) = v :: rows ∧
            a = Array1 v.
Proof.
  unfold get_embedding. destruct (negb _); [done|].
  destruct (self_api self).
  - unfold mbind, result_bind.
    destruct (np_array _) as [emb|] eqn:Hnp; [|done].
    apply np_array_Ok in Hnp as [[_ ->]|(v & rows & -> & -> & _)]; [done|].
    intros [= <-]. by exists v, rows.
  - destruct (response_embeddings _) as [|v rows]; [done|].
    intros [= <-]. by exists v, rows.
Qed.

(** A successful [search] is the result loop run on the [k] hits FAISS
    returns for the embedding of the query. *)
Lemma search_Ok_hits self name query k fs fs' results :
  search self name query k fs = (fs', Ok results) →
  ∃ index md emb q,
    stored self name fs index md emb ∧
    get_embedding self (Str query) = Ok (Array1 q) ∧
    length q = index_d index ∧ 0 < k ∧
    search_results md 0 (knn_L2sqr q (index_xb index) k) = Ok results.
Proof.
  destruct (load_index_cases self name fs) as [(index & md & emb & Hst)|[e Hl]].
  2:{ unfold search. unfold mbind at 1, io_bind. by rewrite Hl. }
  rewrite (search_loaded _ _ _ _ _ _ _ _ Hst). intros [= _ Hres].
  unfold mbind, result_bind in Hres.
  destruct (get_embedding self (Str query)) as [qe|] eqn:Hq; [|done].
  destruct (get_embedding_Str_Ok _ _ _ Hq) as (q & rows & _ & ->).
  simpl in Hres.
  destruct (Nat.eqb_spec (length q) (index_d index)) as [Hd|]; [|done].
  destruct (Nat.ltb_spec 0 k) as [Hk|]; [|done]. simpl in Hres.
  rewrite combine_fst_snd in Hres.
  by exists index, md, emb, q.
Qed.

Lemma search_results_inv md i hits results :
  search_results md i hits = Ok results →
  length results = length hits ∧
  ∀ n r, results !! n = Some r →
    ∃ dist idx c,
      hits !! n = Some (dist, idx) ∧
      py_getitem (chunks md) idx = Ok c ∧
      ¬ (1 + dist == 0)%Q ∧
      r = {| chunk_id := Chunk.id c; text := Chunk.text c; distance := dist;
             score := (1 / (1 + dist))%Q; rank := i + n + 1 |}.
Proof.
  revert i results. induction hits as [|[dist idx] hits IH]; intros i results.
  - intros [= <-]. split; [done|]. by intros n r ?.
  - cbn [search_results]. unfold search_entry, mbind, mret, result_bind, result_ret.
    destruct (py_getitem (chunks md) idx) as [c|] eqn:Hc; [|done].
    destruct (Qeq_bool (1 + dist) 0) eqn:Hz; [done|].
    destruct (search_results md (S i) hits) as [rs|] eqn:Hrs; [|done].
    intros [= <-]. destruct (IH _ _ Hrs) as [Hlen Hspec].
    split; [simpl; by rewrite Hlen|].
    intros [|n] r Hr; simpl in Hr.
    + injection Hr as <-. exists dist, idx, c. split_and!; [done..| |].
      * by apply Qeq_bool_neq.
      * do 2 f_equal. lia.
    + destruct (Hspec n r Hr) as (dist' & idx' & c' & ? & ? & ? & ->).
      exists dist', idx', c'. split_and!; [done..|]. f_equal. lia.
Qed.

(** Every hit of FAISS is a stored vector with its squared distance and
    its position, or an unfilled slot. *)
Lemma elem_of_knn_L2sqr x y k e :
  e ∈ knn_L2sqr x y k →
  e = (FLT_MAX, (-1)%Z) ∨
  ∃ j y_j, y !! j = Some y_j ∧ e = (fvec_L2sqr x y_j, Z.of_nat j).
Proof.
  unfold knn_L2sqr. intros [He|He]%elem_of_app.
  - right. destruct (exhaustive_L2sqr_seq_spec x y k) as (_ & _ & Hin & _).
    by apply Hin in He as [_ ?].
  - left. by apply elem_of_replicate in He as [-> _].
Qed.

Lemma knn_L2sqr_nonneg x y k e : e ∈ knn_L2sqr x y k → (0 <= e.1)%Q.
Proof.
  intros [->|(j & y_j & _ & ->)]%elem_of_knn_L2sqr; [done|].
  apply fvec_L2sqr_nonneg.
Qed.

(** X7. A successful [search] returns exactly [k] results, whatever the
    index holds, and the result at position [n] has rank [n + 1]. *)
Theorem search_returns_k_ranked_results self name query k fs fs' results :
  search self name query k fs = (fs', Ok results) →
  length results = k ∧
  ∀ n r, results !! n = Some r → rank r = n + 1.
Proof.
  intros (index & md & emb & q & _ & _ & _ & _ & Hres)%search_Ok_hits.
  apply search_results_inv in Hres as [Hlen Hspec]. split.
  - by rewrite Hlen, knn_L2sqr_length.
  - intros n r Hr. by destruct (Hspec n r Hr) as (? & ? & ? & _ & _ & _ & ->).
Qed.

(** X8. Every result of a successful [search] has a distance that is not
    negative and the score [1 / (1 + distance)], which lies in (0, 1]. *)
Theorem search_result_score_bounds self name query k fs fs' results r :
  search self name query k fs = (fs', Ok results) →
  r ∈ results →
  (0 <= distance r)%Q ∧
  score r = (1 / (1 + distance r))%Q ∧
  (0 < score r)%Q ∧ (score r <= 1)%Q.
Proof.
  intros (index & md & emb & q & _ & _ & _ & _ & Hres)%search_Ok_hits Hr.
  apply search_results_inv in Hres as [_ Hspec].
  apply list_elem_of_lookup_1 in Hr as [n Hr].
  destruct (Hspec n r Hr) as (dist & idx & c & Hn & _ & _ & ->). simpl.
  assert (Hdist : (0 <= dist)%Q).
  { apply (knn_L2sqr_nonneg q (index_xb index) k (dist, idx)).
    by eapply list_elem_of_lookup_2. }
  assert (Hpos : (0 < 1 + dist)%Q).
  { apply Qlt_le_trans with (1 + 0)%Q; [done|]. by apply Qplus_le_r. }
  split_and!; [done..| |].
  - unfold Qdiv. rewrite Qmult_1_l. by apply Qinv_lt_0_compat.
  - unfold Qdiv. rewrite Qmult_1_l. apply Qle_shift_inv_r; [done|].
    rewrite Qmult_1_l. rewrite <- (Qplus_0_r 1) at 1. by apply Qplus_le_r.
Qed.

Lemma get_embedding_Raise self texts e :
  get_embedding self texts = Raise e →
  e = Exception_ "Error in API call" ∨ e = ValueError ∨ e = IndexError.
Proof.
  unfold get_embedding. destruct (negb _); [intros [= <-]; by left|].
  assert (Hnp : ∀ rows e', np_array rows = Raise e' → e' = ValueError).
  { intros rows e'. unfold np_array. destruct rows; [done|].
    destruct (forallb _ _); [done|]. by intros [= <-]. }
  destruct (self_api self).
  - unfold mbind, result_bind.
    destruct (np_array _) as [a|e'] eqn:Ha.
    + destruct texts; [|done].
      destruct a as [|[|]|? [|]]; simpl; try done; intros [= <-]; auto.
    + intros [= <-]. apply Hnp in Ha as ->. auto.
  - destruct texts.
    + destruct (response_embeddings _); [|done]. intros [= <-]. auto.
    + intros ->%Hnp. auto.
Qed.

Lemma py_getitem_Raise {A} (l : list A) idx e :
  py_getitem l idx = Raise e → e = IndexError.
Proof.
  unfold py_getitem.
  destruct (_ <? 0)%Z; [by intros [= <-]|].
  destruct (l !! _); [done|by intros [= <-]].
Qed.

Lemma search_results_ZeroDivisionError md i hits :
  search_results md i hits = Raise ZeroDivisionError →
  ∃ e, e ∈ hits ∧ (1 + e.1 == 0)%Q.
Proof.
  revert i. induction hits as [|[dist idx] hits IH]; intros i; [done|].
  cbn [search_results]. unfold search_entry, mbind, mret, result_bind, result_ret.
  destruct (py_getitem (chunks md) idx) as [c|] eqn:Hc.
  2:{ by apply py_getitem_Raise in Hc as ->. }
  destruct (Qeq_bool (1 + dist) 0) eqn:Hz.
  - intros _. exists (dist, idx). split; [by left|]. by apply Qeq_bool_iff.
  - destruct (search_results md (S i) hits) as [rs|e] eqn:Hrs; [done|].
    intros [= ->]. destruct (IH _ Hrs) as (e & He & Hz'). exists e. split; [by right|done].
Qed.

(** X9. [search] never raises ZeroDivisionError: the denominator
    [1 + distance] of the score is at least 1. *)
Theorem search_never_divides_by_zero self name query k fs :
  (search self name query k fs).2 ≠ Raise ZeroDivisionError.
Proof.
  destruct (load_index_cases self name fs) as [(index & md & emb & Hst)|[e Hl]].
  2:{ unfold search. unfold mbind at 1, io_bind. rewrite Hl. simpl.
      intros [= ->]. unfold load_index in Hl. io_unfold.
      destruct (fs !! faiss_path self name) as [[]|]; try done.
      destruct (fs !! chunks_path self name) as [[]|]; try done.
      destruct (fs !! embeddings_path self name) as [[]|]; done. }
  rewrite (search_loaded _ _ _ _ _ _ _ _ Hst). simpl.
  unfold mbind, result_bind.
  destruct (get_embedding self (Str query)) as [qe|e] eqn:Hq.
  2:{ intros [= ->]. by apply get_embedding_Raise in Hq as [?|[?|?]]. }
  destruct (get_embedding_Str_Ok _ _ _ Hq) as (q & rows & _ & ->). simpl.
  destruct (negb (length q =? index_d index)); [done|].
  destruct (negb (0 <? k)); [done|]. simpl.
  rewrite combine_fst_snd.
  intros (e & He & Hz)%search_results_ZeroDivisionError.
  apply knn_L2sqr_nonneg in He.
  assert (0 < 1 + e.1)%Q.
  { apply Qlt_le_trans with (1 + 0)%Q; [done|]. by apply Qplus_le_r. }
  rewrite Hz in *. by apply (Qlt_irrefl 0).
Qed.

(** X10. On an existing index, a query whose embedding has another length
    than the dimension of the index, or [k = 0], makes [search] raise
    AssertionError (the assertions of [index.search]). *)
Theorem search_assertion_errors self name query k fs index md emb q :
  stored self name fs index md emb →
  get_embedding self (Str query) = Ok (Array1 q) →
  length q ≠ index_d index ∨ k = 0 →
  search self name query k fs = (fs, Raise AssertionError).
Proof.
  intros Hst Hq Hbad. rewrite (search_loaded _ _ _ _ _ _ _ _ Hst).
  unfold mbind, result_bind. rewrite Hq. simpl.
  destruct (Nat.eqb_spec (length q) (index_d index)) as [Hd|]; [|done]. simpl.
  destruct Hbad as [?|Hk0]; [done|]. by rewrite Hk0.
Qed.

(** X11. On an index that holds no vector and no chunk, [search] raises
    IndexError for every [k >= 1]: the first label FAISS returns is -1 and
    the chunk list is empty. *)
Theorem search_empty_index_raises self name query k fs index md emb q :
  stored self name fs index md emb →
  get_embedding self (Str query) = Ok (Array1 q) →
  length q = index_d index →
  0 < k →
  index_xb index = [] →
  chunks md = [] →
  search self name query k fs = (fs, Raise IndexError).
Proof.
  intros Hst Hq Hd Hk Hxb Hch.
  rewrite (search_stored _ _ _ _ _ _ _ _ _ Hst Hq Hd Hk), Hxb.
  destruct k as [|k]; [lia|].
  unfold knn_L2sqr. simpl. unfold search_entry, py_getitem. by rewrite Hch.
Qed.

(** ** Update: what it rewrites *)

(** X12. A successful [update_index] on an existing index restores the
    agreement of the three files, whatever they held: the FAISS index is
    rebuilt over the rows of the stored array followed by the new rows (the
    vectors of the old FAISS file are not used), the array holds the same
    rows with the dimension of the index, and [total_chunks] is recomputed
    as the length of the chunk list. *)
Theorem update_index_restores_agreement
    self now name new_texts fs fs' index md emb :
  stored self name fs index md emb →
  update_index self now name new_texts fs = (fs', Ok tt) →
  ∃ index' md' new_emb,
    get_embedding self (Texts new_texts) = Ok new_emb ∧
    index_xb index' = (atleast_2d emb).2 ++ (atleast_2d new_emb).2 ∧
    index_d index' = (atleast_2d emb).1 ∧
    stored self name fs' index' md' (Array2 (index_d index') (index_xb index')) ∧
    total_chunks md' = length (chunks md') ∧
    length (chunks md') = length (chunks md) + length new_texts.
Proof.
  intros Hst Hup.
  destruct (update_index_Ok _ _ _ _ _ _ _ _ _ Hst Hup)
    as (new_emb & index' & md' & emb' & Hget & Hv & Hemb & Hch & Htot & _ & ->).
  apply np_vstack_Ok in Hv as [_ Hv]. rewrite Hv in Hemb.
  injection Hemb as Hd Hxb.
  exists index', md', new_emb. split_and!; [done..| | |].
  - rewrite Hv, Hd, Hxb. apply stored_after_save.
  - done.
  - by rewrite Hch, length_app, make_chunks_length.
Qed.

(** X13. A successful [update_index] on an existing index keeps the
    creation time, the model and the class-specific entries of the
    metadata and stamps [updated_at] with the time of the call. *)
Theorem update_index_metadata self now name new_texts fs fs' index md emb :
  stored self name fs index md emb →
  update_index self now name new_texts fs = (fs', Ok tt) →
  ∃ index' md' emb',
    stored self name fs' index' md' emb' ∧
    created_at md' = created_at md ∧
    updated_at md' = Some now ∧
    model md' = model md ∧
    input_type md' = input_type md ∧
    encoding_format md' = encoding_format md.
Proof.
  intros Hst Hup. unfold update_index, try_except_FileNotFoundError in Hup.
  rewrite (load_index_stored _ _ _ _ _ _ Hst) in Hup. io_unfold.
  destruct (get_embedding self (Texts new_texts)) as [new_emb|]; [|done].
  destruct (np_vstack emb new_emb) as [emb'|]; [|done].
  destruct (self_api self) as [it et dim|ef].
  - destruct (index_add _ emb') as [index'|]; [|done].
    injection Hup as <-. eexists _, _, _. split; [apply stored_after_save|done].
  - destruct (shape_1 emb') as [c|]; [|done].
    destruct (index_add _ emb') as [index'|]; [|done].
    injection Hup as <-. eexists _, _, _. split; [apply stored_after_save|done].
Qed.

(** X14. When the FAISS file of an index exists and its metadata file is
    missing, a successful [update_index] does not add to the index: it
    replaces it by the index [create_faiss_index] builds from the new texts
    alone, so that the vectors indexed before are no longer stored. *)
Theorem update_index_replaces_partial_index
    self now name new_texts fs fs' index :
  fs !! faiss_path self name = Some (FaissFile index) →
  fs !! chunks_path self name = None →
  update_index self now name new_texts fs = (fs', Ok tt) →
  ∃ index' md',
    create_faiss_index self now name new_texts fs = (fs', Ok (index', md')) ∧
    load_index self name fs' =
      (fs', Ok (index', md', Array2 (index_d index') (index_xb index'))) ∧
    get_embedding self (Texts new_texts)
      = Ok (Array2 (index_d index') (index_xb index')) ∧
    chunks md' = make_chunks 0 new_texts.
Proof.
  intros Hi Hm Hup.
  rewrite update_index_not_found in Hup.
  2:{ unfold load_index. io_unfold. by rewrite Hi, Hm. }
  io_unfold.
  destruct (create_faiss_index self now name new_texts fs)
    as [fs1 [[index' md']|]] eqn:Hc; [|done].
  injection Hup as ->. exists index', md'.
  apply create_faiss_index_Ok in Hc as Hfacts.
  destruct Hfacts as (rows & Hget & Hindex & Hch & _ & _ & _ & Hfs).
  assert (index_xb index' = rows) as Hxb by (by rewrite Hindex).
  rewrite Hxb. split_and!; [done| |done..].
  rewrite Hfs. apply load_index_stored, stored_after_save.
Qed.

(** ** The embedding of texts *)

(** X15. When [get_embedding] succeeds the status was 200.  On a single
    string it returns a one-axis array as long as the first vector of the
    response; on a list of texts it returns an empty one-axis array if the
    response has no vector, and otherwise a two-axis array with one row per
    vector, all vectors having the length of the first.  When the numbers
    of the response are float32 values, the array holds them as they are:
    the first vector for a single string, the vectors in the order of the
    response for a list. *)
Theorem get_embedding_shape self texts a :
  get_embedding self texts = Ok a →
  status_code (_make_request self texts) = 200 ∧
  match texts with
  | Str _ =>
      ∃ v rows, response_embeddings (_make_request self texts) = v :: rows ∧
                shape a = [length v] ∧
                (forallb float32 v = true → a = Array1 v)
  | Texts _ =>
      (response_embeddings (_make_request self texts) = [] ∧ a = Array1 []) ∨
      ∃ v rows, response_embeddings (_make_request self texts) = v :: rows ∧
                shape a = [S (length rows); length v] ∧
                Forall (fun v' => length v' = length v) rows ∧
                (forallb (forallb float32) (v :: rows) = true →
                 a = Array2 (length v) (v :: rows))
  end.
Proof.
  intros Hget. split.
  { destruct (Nat.eqb_spec (status_code (_make_request self texts)) 200); [done|].
    by rewrite get_embedding_failure in Hget. }
  destruct texts as [s|l].
  - apply get_embedding_Str_Ok in Hget as (v & rows & Hrows & ->).
    by exists v, rows.
  - rewrite get_embedding_Texts in Hget. destruct (negb _); [done|].
    apply np_array_Ok in Hget as [[? ?]|(v & rows & Hrows & -> & Hall)]; [by left|].
    right. exists v, rows. rewrite Hrows in *. split_and!; [done..| |done].
    by apply Forall_cons in Hall as [_ ?].
Qed.

(** ** Search: exact matches and short indexes *)


Lemma py_getitem_nat_inv {A} (l : list A) j a :
  py_getitem l (Z.of_nat j) = Ok a → l !! j = Some a.
Proof.
  unfold py_getitem.
  destruct (Z.ltb_spec (Z.of_nat j) 0); [lia|].
  destruct (Z.ltb_spec (Z.of_nat j) 0); [lia|].
  rewrite Nat2Z.id. destruct (l !! j); [|done]. by intros [= ->].
Qed.

Lemma py_getitem_minus_1 {A} (l : list A) a :
  last l = Some a → py_getitem l (-1) = Ok a.
Proof.
  intros Hlast. unfold py_getitem.
  assert (0 < length l) by (destruct l; [done|simpl; lia]).
  destruct (Z.ltb_spec (-1) 0); [|lia].
  destruct (Z.ltb_spec (-1 + Z.of_nat (length l)) 0); [lia|].
  replace (Z.to_nat (-1 + Z.of_nat (length l))) with (Nat.pred (length l)) by lia.
  by rewrite <- last_lookup, Hlast.
Qed.

Lemma search_results_total md i hits :
  (∀ e, e ∈ hits → (0 <= e.1)%Q ∧ ∃ c, py_getitem (chunks md) e.2 = Ok c) →
  ∃ results, search_results md i hits = Ok results.
Proof.
  revert i. induction hits as [|[dist idx] hits IH]; intros i Hhits; [by eexists|].
  destruct (Hhits (dist, idx)) as [Hdist [c Hc]]; [by left|]. simpl in Hdist, Hc.
  destruct (IH (S i)) as [rs Hrs]; [intros e He; apply Hhits; by right|].
  cbn [search_results]. unfold search_entry, mbind, mret, result_bind, result_ret.
  rewrite Hc, Hrs.
  destruct (Qeq_bool (1 + dist) 0) eqn:Hz; [|by eexists].
  apply Qeq_bool_iff in Hz. exfalso.
  assert (0 < 1 + dist)%Q.
  { apply Qlt_le_trans with (1 + 0)%Q; [done|]. by apply Qplus_le_r. }
  rewrite Hz in *. by apply (Qlt_irrefl 0).
Qed.


Lemma exact_L2sqr_below x y : exact_L2sqr x y = true → (fvec_L2sqr x y < FLT_MAX)%Q.
Proof.
  unfold exact_L2sqr. intros [_ Hle%Qle_bool_iff]%andb_true_iff.
  by apply Qle_lt_trans with (inject_Z (2 ^ 24)).
Qed.

(** X17. What [search] returns on a non-empty index with as many chunks
    as vectors, numbered by position, when the distance loop is exact on
    the query and on every stored vector.  It returns [k] results, ranked
    from 1, each with the score [1 / (1 + distance)].  With [n] the number
    of stored vectors, the results before position [n] are stored vectors,
    each with its chunk id, the text of its chunk and its squared distance
    to the query; they are strictly ascending for the order "by distance,
    then by chunk id", and every stored vector that is not among them comes
    after each of them in that order.  The results from position [n] on,
    if any, repeat the id and the text of the last chunk with the distance
    [FLT_MAX] of an unfilled FAISS slot. *)
Theorem search_ranks_stored_vectors self name query k fs index md emb q c_last :
  stored self name fs index md emb →
  get_embedding self (Str query) = Ok (Array1 q) →
  length q = index_d index →
  1 ≤ k →
  length (chunks md) = ntotal index →
  (∀ i c, chunks md !! i = Some c → Chunk.id c = i) →
  last (chunks md) = Some c_last →
  forallb (exact_L2sqr q) (index_xb index) = true →
  ∃ results,
    search self name query k fs = (fs, Ok results) ∧
    length results = k ∧
    (∀ n r, results !! n = Some r →
       rank r = n + 1 ∧ score r = (1 / (1 + distance r))%Q) ∧
    (∀ n r, results !! n = Some r → n < ntotal index →
       ∃ c v, chunks md !! chunk_id r = Some c ∧
              index_xb index !! chunk_id r = Some v ∧
              text r = Chunk.text c ∧
              distance r = fvec_L2sqr q v) ∧
    (∀ n n' r r', n < n' → n' < ntotal index →
       results !! n = Some r → results !! n' = Some r' →
       hit_lt (distance r, Z.of_nat (chunk_id r))
              (distance r', Z.of_nat (chunk_id r'))) ∧
    (∀ j v, index_xb index !! j = Some v →
       (∀ n r, results !! n = Some r → n < ntotal index → chunk_id r ≠ j) →
       ∀ n r, results !! n = Some r → n < ntotal index →
         hit_lt (distance r, Z.of_nat (chunk_id r)) (fvec_L2sqr q v, Z.of_nat j)) ∧
    (∀ n r, results !! n = Some r → ntotal index ≤ n →
       chunk_id r = Chunk.id c_last ∧ text r = Chunk.text c_last ∧
       distance r = FLT_MAX).
Proof.
  intros Hst Hq Hd Hk Hchunks Hids Hlast Hexact. unfold ntotal in *.
  assert (Hbelow : ∀ v, v ∈ index_xb index → (fvec_L2sqr q v < FLT_MAX)%Q).
  { intros v Hv. apply exact_L2sqr_below.
    rewrite forallb_forall in Hexact. apply Hexact. by apply list_elem_of_In. }
  rewrite (search_stored _ _ _ _ _ _ _ _ _ Hst Hq Hd) by lia.
  destruct (exhaustive_L2sqr_seq_spec q (index_xb index) k)
    as (Hsorted & Hlen & Hin & Hout).
  unfold knn_L2sqr.
  set (h := exhaustive_L2sqr_seq q (index_xb index) 0 k []) in *.
  simpl in Hsorted, Hlen, Hin, Hout.
  rewrite (admissible_all _ _ _ Hbelow), length_candidates in Hlen.
  set (hits := h ++ replicate (k - length h) (FLT_MAX, (-1)%Z)).
  destruct (search_results_total md 0 hits) as [results Hres].
  { intros e [He|He]%elem_of_app.
    - destruct (Hin e He) as (_ & i & v & Hv & ->). simpl.
      split; [apply fvec_L2sqr_nonneg|].
      assert (is_Some (chunks md !! i)) as [c Hc].
      { apply lookup_lt_is_Some. rewrite Hchunks. by eapply lookup_lt_Some. }
      exists c. by apply py_getitem_nat.
    - apply elem_of_replicate in He as [-> _]. simpl.
      split; [done|]. exists c_last. by apply py_getitem_minus_1. }
  exists results. rewrite Hres.
  apply search_results_inv in Hres as [Hlen' Hspec].
  assert (Hk' : length results = k).
  { rewrite Hlen'. unfold hits. rewrite length_app, length_replicate. lia. }
  (* a result before position [n] is the hit at its position *)
  assert (Hkey : ∀ n r, results !! n = Some r → n < length (index_xb index) →
            h !! n = Some (distance r, Z.of_nat (chunk_id r)) ∧
            ∃ c, chunks md !! chunk_id r = Some c ∧ text r = Chunk.text c).
  { intros n r Hr Hn. destruct (Hspec n r Hr) as (dist & idx & c & Hn' & Hc & _ & ->).
    assert (n < length h).
    { apply lookup_lt_Some in Hr. lia. }
    unfold hits in Hn'. rewrite lookup_app_l in Hn' by done.
    destruct (Hin _ (list_elem_of_lookup_2 _ _ _ Hn')) as (_ & i & v & Hi & [= -> ->]).
    apply py_getitem_nat_inv in Hc. simpl. rewrite (Hids i c Hc).
    split; [done|]. by exists c. }
  split_and!.
  - done.
  - done.
  - intros n r Hr. by destruct (Hspec n r Hr) as (? & ? & ? & _ & _ & _ & ->).
  - intros n r Hr Hn. destruct (Hkey n r Hr Hn) as (Hh & c & Hc & Htext).
    destruct (Hin _ (list_elem_of_lookup_2 _ _ _ Hh)) as (_ & i & v & Hv & [= Hdis Hi]).
    apply Nat2Z.inj in Hi. subst i. by exists c, v.
  - intros n n' r r' Hlt Hn' Hr Hr'.
    destruct (Hkey n r Hr) as (Hh & _); [lia|].
    destruct (Hkey n' r' Hr' Hn') as (Hh' & _).
    by eapply (StronglySorted_lookup_lt hit_lt h n n').
  - intros j v Hv Hnot n r Hr Hn.
    destruct (Hkey n r Hr Hn) as (Hh & _).
    apply Hout; [done| | |by eapply list_elem_of_lookup_2].
    { apply Hbelow. by eapply list_elem_of_lookup_2. }
    intros [n' Hn']%list_elem_of_lookup_1.
    assert (n' < length h) by (by eapply lookup_lt_Some).
    assert (is_Some (results !! n')) as [r' Hr'].
    { apply lookup_lt_is_Some. lia. }
    destruct (Hkey n' r' Hr') as (Hh'' & _); [lia|].
    rewrite Hn' in Hh''. injection Hh'' as _ Hj. apply Nat2Z.inj in Hj.
    apply (Hnot n' r'); [done|lia|done].
  - intros n r Hr Hn. destruct (Hspec n r Hr) as (dist & idx & c & Hn' & Hc & _ & ->).
    unfold hits in Hn'. rewrite lookup_app_r in Hn' by lia.
    apply lookup_replicate in Hn' as [[= -> ->] _].
    rewrite (py_getitem_minus_1 _ _ Hlast) in Hc. by injection Hc as <-.
Qed.

End Embedding.

(** * The scenario, run *)

Lemma kb_fs_stored :
  stored openai "kb" kb_fs kb_index kb_metadata (Array2 3 (index_xb kb_index)).
Proof. repeat split; vm_compute; reflexivity. Qed.

Lemma kb3_fs_stored :
  stored openai "kb" kb3_fs kb3_index kb3_metadata (Array2 3 (index_xb kb3_index)).
Proof. repeat split; vm_compute; reflexivity. Qed.

Lemma create_kb :
  create_faiss_index axis_service openai "t0" "kb" ["a"; "bb"] ∅
    = (kb_fs, Ok (kb_index, kb_metadata)).
Proof. vm_compute. reflexivity. Qed.

Lemma update_kb :
  update_index axis_service openai "t1" "kb" ["ccc"] kb_fs = (kb3_fs, Ok tt).
Proof. vm_compute. reflexivity. Qed.

(** The scenario of the specification: the nearest chunk of the first
    text is chunk 0 at distance 0; after the third text is added, its two
    nearest chunks are chunk 2 at distance 0, then chunk 0 at distance 2. *)
Lemma scenario_search :
  (search axis_service openai "kb" "a" 1 kb_fs).2 =
    Ok [mkSearchResult 0 "a" 0 1 1] ∧
  (search axis_service openai "kb" "ccc" 2 kb3_fs).2 =
    Ok [mkSearchResult 2 "ccc" 0 1 1; mkSearchResult 0 "a" 2 (1 # 3) 2].
Proof. split; vm_compute; reflexivity. Qed.

(** Witness of C1: the update of the scenario. *)
Lemma central_invariant_after_create_and_update_witness :
  ∃ index md emb, stored openai "kb" kb3_fs index md emb ∧ central_invariant md emb.
Proof.
  apply (proj2 (central_invariant_after_create_and_update axis_service
                  openai "t1" "kb" ["ccc"] kb_fs kb3_fs eq_refl)).
  - discriminate.
  - intros index md emb (_ & Hm & He).
    vm_compute in Hm, He. injection Hm as <-. injection He as <-.
    repeat split; try reflexivity. exists 3. reflexivity.
  - vm_compute. reflexivity.
Defined.

(** C2 on the code: on a non-empty index of one vector, written by the
    Cohere class, with a query of the dimension of the index and [k = 2],
    [search] returns two results; the second one names chunk 0 again, with
    a distance that is not the squared distance to the vector of chunk 0
    (it is the unfilled FAISS slot of C3, read as the last chunk). *)
Lemma search_second_result_without_vector :
  ∃ results r v,
    search axis_service cohere3 "one" "a" 2 one_fs = (one_fs, Ok results) ∧
    ntotal one_index = 1 ∧
    results !! 1 = Some r ∧
    chunk_id r = 0 ∧
    index_xb one_index !! chunk_id r = Some v ∧
    ¬ (distance r == fvec_L2sqr (axis_vector "a") v)%Q.
Proof.
  eexists _, _, _. split_and!.
  - vm_compute. reflexivity.
  - reflexivity.
  - reflexivity.
  - reflexivity.
  - reflexivity.
  - vm_compute. discriminate.
Qed.

(** C3 on the code: with two stored vectors and the default [k = 5],
    [search] returns five results, the last three naming the last chunk at
    distance [FLT_MAX]; on an index without vectors it raises IndexError. *)
Lemma search_fewer_than_k_pads_or_raises :
  (search axis_service openai "kb" "a" 5 kb_fs).2 =
    Ok [mkSearchResult 0 "a" 0 1 1;
        mkSearchResult 1 "bb" 2 (1 # 3) 2;
        mkSearchResult 1 "bb" FLT_MAX (1 # 340282346638528859811704183484516925441) 3;
        mkSearchResult 1 "bb" FLT_MAX (1 # 340282346638528859811704183484516925441) 4;
        mkSearchResult 1 "bb" FLT_MAX (1 # 340282346638528859811704183484516925441) 5] ∧
  ntotal kb_index = 2 ∧
  (search axis_service openai "empty" "a" 5 empty_fs).2 = Raise IndexError.
Proof. split_and!; vm_compute; reflexivity. Qed.


(** Witness of C5: an empty file system. *)
Lemma update_index_missing_index_not_created_witness :
  update_index axis_service openai "t0" "kb" ["a"] ∅ = (∅, Raise RuntimeError).
Proof.
  apply (update_index_missing_index_not_created axis_service openai "t0" "kb" ["a"] ∅).
  reflexivity.
Defined.

(** C6 as stated fails: the three files disagree (two rows of two columns,
    [total_chunks = 5], dimension 3) and [load_index] returns them. *)
Lemma load_index_accepts_inconsistent_artifacts :
  ∃ index md emb,
    load_index openai "kb" corrupt_fs = (corrupt_fs, Ok (index, md, emb)) ∧
    shape emb = [2; 2] ∧
    total_chunks md = 5 ∧
    embedding_dim md = Some 3 ∧
    ntotal index = 1.
Proof. eexists _, _, _. split_and!; vm_compute; reflexivity. Qed.

(** Witness of C6 as amended. *)
Lemma load_index_returns_artifacts_unchecked_witness :
  load_index openai "kb" corrupt_fs =
    (corrupt_fs, Ok (one_index, corrupt_metadata, Array2 2 [[1; 0]; [0; 1]]%Q)).
Proof.
  apply (load_index_returns_artifacts_unchecked openai "kb" corrupt_fs).
  repeat split; vm_compute; reflexivity.
Defined.

(** Witness of C8: the update of the scenario. *)
Lemma update_index_append_only_witness :
  ∃ index' md' emb',
    stored openai "kb" kb3_fs index' md' emb' ∧
    chunks md' = chunks kb_metadata ++ make_chunks 2 ["ccc"].
Proof.
  destruct (update_index_append_only axis_service openai "t1" "kb" ["ccc"]
              kb_fs kb3_fs kb_index kb_metadata (Array2 3 (index_xb kb_index)))
    as (index' & md' & emb' & new_emb & Hst & _ & Hch & _).
  - repeat split; vm_compute; reflexivity.
  - vm_compute. reflexivity.
  - exists index', md', emb'. split; assumption.
Defined.

(** C9 as stated fails.  The FAISS file of "kb" has dimension 3 and
    [embedding_dim] is 3 while the array has two columns (the files that
    [save_index] writes when it is called with these three values): an
    update with vectors of length 2 succeeds and the index has dimension 2
    afterwards, in the FAISS file and in [embedding_dim], while vectors of
    the declared length 3 are rejected.  And when the metadata file of an
    index of dimension 3 is missing, an update with vectors of length 2
    succeeds through [create_faiss_index], which takes the dimension 2 of
    the incoming batch. *)
Lemma update_index_changes_dimension :
  (save_index openai "kb" one_index corrupt_metadata
     (Array2 2 [[1; 0]; [0; 1]]%Q) ∅).1 = corrupt_fs ∧
  index_d one_index = 3 ∧
  embedding_dim corrupt_metadata = Some 3 ∧
  update_index (constant_service [1; 0]%Q) openai "t1" "kb" ["x"] corrupt_fs
    = (files_of openai "kb"
         (mkIndexFlatL2 2 [[1; 0]; [0; 1]; [1; 0]]%Q)
         {| created_at := "t0"; updated_at := Some "t1";
            model := "text-embedding-ada-002";
            input_type := None; encoding_format := Some "float";
            total_chunks := 1; embedding_dim := Some 2;
            chunks := [Chunk.mk 0 "x" 0] |}
         (Array2 2 [[1; 0]; [0; 1]; [1; 0]]%Q),
       Ok tt) ∧
  update_index (constant_service [1; 0; 0]%Q) openai "t1" "kb" ["x"] corrupt_fs
    = (corrupt_fs, Raise ValueError) ∧
  partial_fs !! faiss_path openai "kb" = Some (FaissFile kb_index) ∧
  index_d kb_index = 3 ∧
  update_index (constant_service [1; 0]%Q) openai "t1" "kb" ["x"] partial_fs
    = (files_of openai "kb"
         (mkIndexFlatL2 2 [[1; 0]]%Q)
         {| created_at := "t1"; updated_at := None;
            model := "text-embedding-ada-002";
            input_type := None; encoding_format := Some "float";
            total_chunks := 1; embedding_dim := Some 2;
            chunks := [Chunk.mk 0 "x" 0] |}
         (Array2 2 [[1; 0]]%Q),
       Ok tt).
Proof. split_and!; vm_compute; reflexivity. Qed.

(** Witness of C9 as amended: the update of the scenario keeps dimension 3. *)
Lemma update_index_preserves_dimension_witness :
  ∃ index' md' rows',
    stored openai "kb" kb3_fs index' md' (Array2 3 (index_xb kb_index ++ rows')) ∧
    index_d index' = index_d kb_index ∧
    embedding_dim md' = embedding_dim kb_metadata.
Proof.
  destruct (update_index_preserves_dimension axis_service openai "t1" "kb" ["ccc"]
              kb_fs kb3_fs kb_index kb_metadata 3 (index_xb kb_index) (Ok tt))
    as (H & _ & _).
  - repeat split; vm_compute; reflexivity.
  - reflexivity.
  - reflexivity.
  - vm_compute. reflexivity.
  - exact H.
Defined.

(** Witness of C10: the scenario against the creation from the three
    texts at once. *)
Lemma update_index_rebuild_equivalence_witness :
  (search axis_service openai "kb" "ccc" 2 kb3_fs).2 =
  (search axis_service openai "kb" "ccc" 2
     (create_faiss_index axis_service openai "t2" "kb" ["a"; "bb"; "ccc"] ∅).1).2.
Proof.
  destruct (update_index_rebuild_equivalence axis_service openai "t1" "t2" "kb"
              ["a"; "bb"] ["ccc"] kb_fs kb3_fs ∅
              (create_faiss_index axis_service openai "t2" "kb" ["a"; "bb"; "ccc"] ∅).1
              (kb3_index,
               {| created_at := "t2"; updated_at := None;
                  model := "text-embedding-ada-002";
                  input_type := None; encoding_format := Some "float";
                  total_chunks := 3; embedding_dim := Some 3;
                  chunks := chunks kb3_metadata |}))
    as (_ & _ & _ & Hsearch).
  - exists kb_index, kb_metadata.
    split; [repeat split; vm_compute; reflexivity|].
    split; vm_compute; reflexivity.
  - vm_compute. reflexivity.
  - vm_compute. reflexivity.
  - reflexivity.
  - discriminate.
  - exact (Hsearch "ccc" 2).
Defined.

(** * Further runs *)

(** Witness of X1. *)
Lemma service_failure_writes_nothing_witness :
  create_faiss_index failing_service openai "t0" "kb" ["a"] kb_fs
    = (kb_fs, Raise (Exception_ "Error in API call")) ∧
  update_index failing_service openai "t0" "kb" ["a"] kb_fs
    = (kb_fs, Raise (Exception_ "Error in API call")).
Proof.
  destruct (service_failure_writes_nothing failing_service openai "t0" "kb" ["a"] kb_fs)
    as [Hc Hu].
  - vm_compute. discriminate.
  - split; [exact Hc|]. apply Hu. left.
    exists kb_index, kb_metadata, (Array2 3 (index_xb kb_index)).
    repeat split; vm_compute; reflexivity.
Defined.

(** Witness of X2: no text, no vector. *)
Lemma create_faiss_index_no_vector_witness :
  create_faiss_index axis_service openai "t0" "kb" [] ∅ = (∅, Raise IndexError) ∧
  create_faiss_index axis_service cohere3 "t0" "kb" [] ∅ = (∅, Raise ValueError).
Proof.
  split.
  - apply (create_faiss_index_no_vector axis_service openai "t0" "kb" [] ∅);
      reflexivity.
  - apply (create_faiss_index_no_vector axis_service cohere3 "t0" "kb" [] ∅);
      reflexivity.
Defined.

(** Witness of X4: the creation of the scenario. *)
Lemma load_index_after_create_faiss_index_witness :
  load_index openai "kb" kb_fs =
    (kb_fs, Ok (kb_index, kb_metadata, Array2 3 (index_xb kb_index))).
Proof.
  apply (load_index_after_create_faiss_index axis_service openai "t0" "kb"
           ["a"; "bb"] ∅ kb_fs kb_index kb_metadata).
  vm_compute. reflexivity.
Defined.

(** Witness of X5: creating the index "other" beside the index "kb". *)
Lemma other_index_untouched_witness :
  stored openai "kb"
    (create_faiss_index axis_service openai "t1" "other" ["ccc"] kb_fs).1
    kb_index kb_metadata (Array2 3 (index_xb kb_index)).
Proof.
  apply (other_index_untouched axis_service openai "t1" "other" "kb" ["ccc"] kb_fs
           kb_index kb_metadata (Array2 3 (index_xb kb_index))).
  - reflexivity.
  - reflexivity.
  - discriminate.
  - repeat split; vm_compute; reflexivity.
Defined.

(** Witness of X7: the default [k = 5] on the two vectors of the scenario. *)
Lemma search_returns_k_ranked_results_witness :
  ∃ results,
    search axis_service openai "kb" "a" 5 kb_fs = (kb_fs, Ok results) ∧
    length results = 5.
Proof.
  eexists. split; [vm_compute; reflexivity|].
  eapply (search_returns_k_ranked_results axis_service openai "kb" "a" 5 kb_fs kb_fs).
  vm_compute. reflexivity.
Defined.

(** Witness of X8: the second result of the second search of the scenario. *)
Lemma search_result_score_bounds_witness :
  (0 < score (mkSearchResult 0 "a" 2 (1 # 3) 2))%Q ∧
  (score (mkSearchResult 0 "a" 2 (1 # 3) 2) <= 1)%Q.
Proof.
  destruct (search_result_score_bounds axis_service openai "kb" "ccc" 2 kb3_fs kb3_fs
              [mkSearchResult 2 "ccc" 0 1 1; mkSearchResult 0 "a" 2 (1 # 3) 2]
              (mkSearchResult 0 "a" 2 (1 # 3) 2))
    as (_ & _ & Hpos & Hle).
  - vm_compute. reflexivity.
  - right. left.
  - split; assumption.
Defined.

(** Witness of X10: [k = 0]. *)
Lemma search_assertion_errors_witness :
  search axis_service openai "kb" "a" 0 kb_fs = (kb_fs, Raise AssertionError).
Proof.
  apply (search_assertion_errors axis_service openai "kb" "a" 0 kb_fs
           kb_index kb_metadata (Array2 3 (index_xb kb_index)) [1; 0; 0]%Q).
  - repeat split; vm_compute; reflexivity.
  - vm_compute. reflexivity.
  - right. reflexivity.
Defined.

(** Witness of X11. *)
Lemma search_empty_index_raises_witness :
  search axis_service openai "empty" "a" 5 empty_fs = (empty_fs, Raise IndexError).
Proof.
  eapply (search_empty_index_raises axis_service openai "empty" "a" 5 empty_fs
            (mkIndexFlatL2 3 []) _ (Array2 3 []) [1; 0; 0]%Q).
  - repeat split; vm_compute; reflexivity.
  - vm_compute. reflexivity.
  - reflexivity.
  - lia.
  - reflexivity.
  - reflexivity.
Defined.

(** Witness of X12: the update of the scenario. *)
Lemma update_index_restores_agreement_witness :
  ∃ index' md',
    stored openai "kb" kb3_fs index' md' (Array2 (index_d index') (index_xb index')) ∧
    total_chunks md' = length (chunks md').
Proof.
  destruct (update_index_restores_agreement axis_service openai "t1" "kb" ["ccc"]
              kb_fs kb3_fs kb_index kb_metadata (Array2 3 (index_xb kb_index)))
    as (index' & md' & new_emb & _ & _ & _ & Hst & Htot & _).
  - repeat split; vm_compute; reflexivity.
  - vm_compute. reflexivity.
  - exists index', md'. split; assumption.
Defined.

(** Witness of X13: the update of the scenario. *)
Lemma update_index_metadata_witness :
  ∃ index' md' emb',
    stored openai "kb" kb3_fs index' md' emb' ∧
    created_at md' = "t0" ∧ updated_at md' = Some "t1".
Proof.
  destruct (update_index_metadata axis_service openai "t1" "kb" ["ccc"]
              kb_fs kb3_fs kb_index kb_metadata (Array2 3 (index_xb kb_index)))
    as (index' & md' & emb' & Hst & Hc & Hu & _).
  - repeat split; vm_compute; reflexivity.
  - vm_compute. reflexivity.
  - exists index', md', emb'. split_and!; assumption.
Defined.

(** Witness of X14: only the FAISS file of the scenario is left. *)
Lemma update_index_replaces_partial_index_witness :
  ∃ index' md',
    create_faiss_index axis_service openai "t1" "kb" ["ccc"] partial_fs
      = ((update_index axis_service openai "t1" "kb" ["ccc"] partial_fs).1,
         Ok (index', md')) ∧
    chunks md' = make_chunks 0 ["ccc"].
Proof.
  destruct (update_index_replaces_partial_index axis_service openai "t1" "kb" ["ccc"]
              partial_fs
              (update_index axis_service openai "t1" "kb" ["ccc"] partial_fs).1
              kb_index)
    as (index' & md' & Hc & _ & _ & Hch).
  - vm_compute. reflexivity.
  - vm_compute. reflexivity.
  - vm_compute. reflexivity.
  - exists index', md'. split; assumption.
Defined.

(** Witness of X15: the embedding of one string by the Cohere class. *)
Lemma get_embedding_shape_witness :
  ∃ v rows,
    response_embeddings (_make_request axis_service cohere3 (Str "a")) = v :: rows ∧
    shape (Array1 [1; 0; 0]%Q) = [length v] ∧
    (forallb float32 v = true → Array1 [1; 0; 0]%Q = Array1 v).
Proof.
  apply (get_embedding_shape axis_service cohere3 (Str "a") (Array1 [1; 0; 0]%Q)).
  vm_compute. reflexivity.
Defined.


(** Witness of X17: the default [k = 5] on the two vectors of the scenario. *)
Lemma search_ranks_stored_vectors_witness :
  ∃ results,
    search axis_service openai "kb" "a" 5 kb_fs = (kb_fs, Ok results) ∧
    length results = 5.
Proof.
  destruct (search_ranks_stored_vectors axis_service openai "kb" "a" 5 kb_fs
              kb_index kb_metadata (Array2 3 (index_xb kb_index)) [1; 0; 0]%Q
              (Chunk.mk 1 "bb" 1))
    as (results & Hs & Hlen & _).
  - repeat split; vm_compute; reflexivity.
  - vm_compute. reflexivity.
  - reflexivity.
  - lia.
  - reflexivity.
  - intros [|[|i]] c H; simpl in H; try discriminate; by injection H as <-.
  - reflexivity.
  - vm_compute. reflexivity.
  - exists results. split; assumption.
Defined.


(** * Properties of the chatbot *)

Import Cohere.

Lemma only_printed_refl w : only_printed w w.
Proof. by repeat split. Qed.

Lemma only_printed_trans w1 w2 w3 :
  only_printed w1 w2 → only_printed w2 w3 → only_printed w1 w3.
Proof.
  intros (?&?&?&?&?&?&?) (?&?&?&?&?&?&?). repeat split; congruence.
Qed.

(** The streaming loop touches nothing but the standard output, and not
    even that when the chatbot is not verbose. *)
Lemma collect_frame v lines collected self w st' out :
  collect v lines collected (self, w) = (st', out) →
  st'.1 = self ∧ only_printed w st'.2 ∧ (v = false → stdout st'.2 = stdout w).
Proof.
  revert collected w.
  induction lines as [|[| | |data] lines IH]; intros collected w; cbn [collect].
  - intros [= <- _]. split_and!; [done|apply only_printed_refl|done].
  - apply IH.
  - intros [= <- _]. split_and!; [done|apply only_printed_refl|done].
  - apply IH.
  - m_unfold.
    destruct (getitem data "type") as [type|]; simpl.
    2:{ intros [= <- _]. split_and!; [done|apply only_printed_refl|done]. }
    destruct (json_eq_str type "content-delta"); [|apply IH].
    destruct (delta_text data) as [content|]; simpl.
    2:{ intros [= <- _]. split_and!; [done|apply only_printed_refl|done]. }
    destruct v; simpl.
    + unfold _print_streaming_response. m_unfold.
      destruct content; simpl;
        try (intros [= <- _]; split_and!; [done|apply only_printed_refl|done]).
      intros (Hs & Hw & _)%IH. split_and!; [done| |done].
      eapply only_printed_trans; [|exact Hw]. by repeat split.
    + apply IH.
Qed.

Lemma read_response_frame response self w st' out :
  read_response response (self, w) = (st', out) →
  st'.1 = self ∧ only_printed w st'.2 ∧
  (verbose self = false → stdout st'.2 = stdout w).
Proof.
  unfold read_response. m_unfold. simpl.
  destruct (stream (llm self)).
  - destruct (collect (verbose self) (iter_lines response) [] (self, w))
      as [[self1 w1] [collected|e]] eqn:Hc;
      apply collect_frame in Hc as (Hs & Hw & Hv); simpl in *; subst self1.
    2:{ by intros [= <- _]. }
    destruct (join collected) as [full|]; simpl.
    2:{ by intros [= <- _]. }
    destruct (verbose self); simpl; intros [= <- _]; simpl.
    + split_and!; [done| |done].
      eapply only_printed_trans; [exact Hw|]. by repeat split.
    + by split_and!.
  - destruct (response_json response) as [data|]; simpl.
    2:{ intros [= <- _]. split_and!; [done|apply only_printed_refl|done]. }
    destruct (message_text data) as [full|]; simpl.
    2:{ intros [= <- _]. split_and!; [done|apply only_printed_refl|done]. }
    destruct (verbose self); simpl.
    + destruct full; simpl; intros [= <- _]; simpl;
        (split_and!; [done| |done]); try apply only_printed_refl.
      by repeat split.
    + intros [= <- _]. split_and!; [done|apply only_printed_refl|done].
Qed.

(** [__call__] up to the reading of the response. *)
Lemma call_unfold message self w :
  ∃ w1,
    only_printed w w1 ∧ (verbose self = false → stdout w1 = stdout w) ∧
    __call__ message (self, w) =
      let self1 :=
        mkCohere_Chatbot (llm self) (system_prompt self) (verbose self)
          (chatbot_id self) (name self) (conversation_folder self)
          (conversation_id self) (history self ++ [user_message message]) in
      let response :=
        requests_post w "https://api.cohere.com/v2/chat" (llm self)
          (history self ++ [user_message message]) in
      match read_response response (self1, w1) with
      | (st2, Return full_response) =>
          (_ ← set_history (history st2.1 ++ [assistant_message full_response]);
           _ ← _save_conversation;
           mret full_response) st2
      | (st2, Raise e) => (st2, Raise e)
      end.
Proof.
  destruct (verbose self) eqn:Hv.
  - eexists (mkWorld _ _ _ _ _ _ _ _). split_and!; [| |].
    3:{ unfold __call__, _prepare_messages, _make_request. m_unfold. simpl.
        rewrite Hv. simpl. reflexivity. }
    + by repeat split.
    + done.
  - exists w. split_and!; [apply only_printed_refl|done|].
    unfold __call__, _prepare_messages, _make_request. m_unfold. simpl.
    rewrite Hv. simpl. by destruct w.
Qed.

(** X18. A successful [__call__] appends exactly the user message and the
    assistant message carrying the returned text to the history, keeps the
    identity of the chatbot and of the conversation, and writes one file:
    the conversation file, which then holds the whole history. *)
Theorem call_appends_exchange message self w self' w' full_response :
  __call__ message (self, w) = ((self', w'), Return full_response) →
  same_but_history self self' ∧
  history self' =
    history self ++ [user_message message; assistant_message full_response] ∧
  files w' =
    <[conversation_path (conversation_folder self) (conversation_id self) :=
        ConversationDoc (conversation_id self) (name self) (chatbot_id self)
          (isoformat_at w (clock w)) (system_prompt self) (history self')]>
      (files w) ∧
  _chatbot_counter w' = _chatbot_counter w.
Proof.
  destruct (call_unfold message self w) as (w1 & Hw1 & _ & ->). simpl.
  destruct (read_response _ _) as [[self2 w2] [full|e]] eqn:Hr; [|done].
  apply read_response_frame in Hr as (Hs & Hw2 & _). simpl in *. subst self2.
  pose proof (only_printed_trans _ _ _ Hw1 Hw2) as (Hc & Hf & Hi & Hcl & _).
  unfold _save_conversation. m_unfold. simpl.
  intros [= <- <- <-]. simpl.
  rewrite Hf, Hi, Hcl, <- app_assoc. by repeat split.
Qed.

(** X19. When [__call__] raises, the user message has already been
    appended to the history in memory, while no file has been written: the
    history of the object and its conversation file then differ. *)
Theorem call_failure_keeps_user_message message self w self' w' e :
  __call__ message (self, w) = ((self', w'), Raise e) →
  same_but_history self self' ∧
  history self' = history self ++ [user_message message] ∧
  only_printed w w'.
Proof.
  destruct (call_unfold message self w) as (w1 & Hw1 & _ & ->). simpl.
  destruct (read_response _ _) as [[self2 w2] [full|e']] eqn:Hr.
  { unfold _save_conversation. m_unfold. done. }
  apply read_response_frame in Hr as (Hs & Hw2 & _). simpl in *. subst self2.
  intros [= <- <- <-]. split_and!; [by repeat split|done|].
  by eapply only_printed_trans.
Qed.

(** A successful [__call__] leaves the conversation, with the history of
    the object, in the file of the conversation. *)
Lemma call_saved message self w self' w' full_response :
  __call__ message (self, w) = ((self', w'), Return full_response) →
  conversation_folder self' = conversation_folder self ∧
  conversation_id self' = conversation_id self ∧
  ∃ doc_name doc_chatbot doc_time doc_prompt,
    files w' !! conversation_path (conversation_folder self') (conversation_id self')
      = Some (ConversationDoc (conversation_id self') doc_name doc_chatbot
                doc_time doc_prompt (history self')).
Proof.
  destruct (call_unfold message self w) as (w1 & Hw1 & _ & ->). simpl.
  destruct (read_response _ _) as [[self2 w2] [full|e]] eqn:Hr; [|done].
  apply read_response_frame in Hr as (Hs & Hw2 & _). simpl in *. subst self2.
  unfold _save_conversation. m_unfold. simpl.
  intros [= <- <- <-]. simpl.
  split_and!; [done..|]. eexists _, _, _, _. apply lookup_insert_eq.
Qed.

(** X20. What [__call__] saved can be loaded back: after a successful
    call, [load_conversation] with the identifier of the conversation, by
    any chatbot object of the same folder, succeeds and restores the
    history and the identifier of the conversation, without writing. *)
Theorem load_conversation_after_call
    message self w self' w' full_response other :
  __call__ message (self, w) = ((self', w'), Return full_response) →
  conversation_folder other = conversation_folder self' →
  ∃ st,
    load_conversation (conversation_id self') (other, w') = (st, Return tt) ∧
    history st.1 = history self' ∧
    conversation_id st.1 = conversation_id self' ∧
    files st.2 = files w'.
Proof.
  intros Hcall Hfolder.
  apply call_saved in Hcall as (_ & _ & doc_name & doc_chatbot & doc_time & doc_prompt & Hdoc).
  unfold load_conversation. m_unfold. simpl.
  rewrite Hfolder, Hdoc.
  destruct (verbose other); simpl; eexists; by split_and!.
Qed.

(** ** The streamed response *)

Lemma collect_carries v pre s rest collected self w :
  carries pre s →
  ∃ w1 items,
    join items = Return s ∧
    only_printed w w1 ∧
    collect v (pre ++ rest) collected (self, w)
      = collect v rest (collected ++ items) (self, w1).
Proof.
  intros Hpre. revert collected w.
  induction Hpre as [|lines s _ IH|lines s _ IH|data type lines s Ht Hne _ IH
                     |data type text lines s Ht He Hd _ IH]; intros collected w.
  - exists w, []. rewrite app_nil_r. split_and!; [done|apply only_printed_refl|done].
  - apply IH.
  - apply IH.
  - destruct (IH collected w) as (w1 & items & ? & ? & Heq).
    exists w1, items. split_and!; [done..|].
    simpl. m_unfold. rewrite Ht. simpl. by rewrite Hne.
  - destruct v.
    + destruct (IH (collected ++ [JStr text])
                  (mkWorld (_chatbot_counter w) (files w) (stdout w +:+ text)
                     (isoformat_at w) (clock w) (uuid4_at w) (uuids w)
                     (requests_post w)))
        as (w1 & items & Hj & Hw & Heq).
      exists w1, (JStr text :: items). split_and!.
      * simpl. by rewrite Hj.
      * eapply only_printed_trans; [|exact Hw]. by repeat split.
      * simpl. m_unfold. rewrite Ht. simpl. rewrite He, Hd. simpl.
        rewrite Heq. by rewrite <- app_assoc.
    + destruct (IH (collected ++ [JStr text]) w) as (w1 & items & Hj & Hw & Heq).
      exists w1, (JStr text :: items). split_and!; [simpl; by rewrite Hj|done|].
      simpl. m_unfold. rewrite Ht. simpl. rewrite He, Hd. simpl.
      rewrite Heq. by rewrite <- app_assoc.
Qed.

(** X21. In streaming mode the reply is assembled from the content-delta
    events: when the service, called with the history followed by the new
    user message, streams lines that carry the text [s] (the texts of the
    content-delta events in order; empty lines, lines that are not JSON and
    events of another type being skipped), [__call__] returns [s]. *)
Theorem call_returns_streamed_text message self w s :
  stream (llm self) = true →
  carries (iter_lines
             (requests_post w "https://api.cohere.com/v2/chat" (llm self)
                (history self ++ [user_message message]))) s →
  ∃ st', __call__ message (self, w) = (st', Return (JStr s)).
Proof.
  intros Hstream Hlines.
  destruct (call_unfold message self w) as (w1 & _ & _ & ->). simpl.
  set (self1 := mkCohere_Chatbot _ _ _ _ _ _ _ _).
  destruct (collect_carries (verbose self) _ s [] [] self1 w1 Hlines)
    as (w2 & items & Hj & _ & Hc).
  rewrite app_nil_r in Hc. simpl in Hc.
  unfold read_response. m_unfold. simpl. rewrite Hstream, Hc. simpl.
  rewrite Hj. simpl.
  unfold _save_conversation. m_unfold.
  destruct (verbose self); simpl; by eexists.
Qed.

(** X22. In streaming mode a line that is not UTF-8, a JSON line without
    a "type" (KeyError) or that is not an object (TypeError), and a
    content-delta event without its text, each abort [__call__] with the
    exception of the failing step; only lines that are not JSON are
    skipped. *)
Theorem call_raises_on_bad_line message self w pre bad post s e :
  stream (llm self) = true →
  iter_lines (requests_post w "https://api.cohere.com/v2/chat" (llm self)
                (history self ++ [user_message message]))
    = pre ++ bad :: post →
  carries pre s →
  (bad = NotUtf8 ∧ e = UnicodeDecodeError) ∨
  (∃ data, bad = Json data ∧ getitem data "type" = Raise e) ∨
  (∃ data type, bad = Json data ∧ getitem data "type" = Return type ∧
                json_eq_str type "content-delta" = true ∧
                delta_text data = Raise e) →
  ∃ st', __call__ message (self, w) = (st', Raise e).
Proof.
  intros Hstream Hlines Hpre Hbad.
  destruct (call_unfold message self w) as (w1 & _ & _ & ->). simpl.
  set (self1 := mkCohere_Chatbot _ _ _ _ _ _ _ _).
  destruct (collect_carries (verbose self) _ s (bad :: post) [] self1 w1 Hpre)
    as (w2 & items & _ & _ & Hc).
  unfold read_response. m_unfold. simpl. rewrite Hstream, Hlines, Hc.
  destruct Hbad as [[-> ->]|[(data & -> & Ht)|(data & type & -> & Ht & He & Hd)]];
    simpl; m_unfold.
  - by eexists.
  - rewrite Ht. simpl. by eexists.
  - rewrite Ht. simpl. rewrite He, Hd. simpl. by eexists.
Qed.

(** ** Conversations *)

Lemma conversation_path_inj folder id id' :
  conversation_path folder id = conversation_path folder id' → id = id'.
Proof.
  unfold conversation_path. intros H.
  apply String.app_inj in H. apply (String.app_inj "/conversation_") in H.
  by apply string_append_inj_r in H.
Qed.

Lemma metadata_path_ne_conversation_path folder id :
  folder +:+ "/metadata.json" ≠ conversation_path folder id.
Proof.
  unfold conversation_path. intros H. apply String.app_inj in H.
  change ("/conversation_" +:+ id +:+ ".json")
    with (String "/" (String "c" ("onversation_" +:+ id +:+ ".json"))) in H.
  discriminate H.
Qed.

(** X23. [start_new_conversation] never raises; it gives the chatbot a
    fresh identifier and the history made of the system message alone, and
    it leaves the file of an earlier conversation as it is whenever the new
    identifier differs from the earlier one: [load_conversation] with the
    earlier identifier then restores the history that file holds. *)
Theorem start_new_conversation_keeps_previous
    self w previous doc_id doc_name doc_chatbot doc_time doc_prompt doc_history :
  files w !! conversation_path (conversation_folder self) previous
    = Some (ConversationDoc doc_id doc_name doc_chatbot doc_time doc_prompt
              doc_history) →
  uuid4_at w (uuids w) ≠ previous →
  ∃ st1 st2,
    start_new_conversation (self, w) = (st1, Return tt) ∧
    conversation_id st1.1 = uuid4_at w (uuids w) ∧
    history st1.1 = [mkMessage "system" (Plain (system_prompt self))] ∧
    load_conversation previous st1 = (st2, Return tt) ∧
    history st2.1 = doc_history ∧
    conversation_id st2.1 = doc_id.
Proof.
  intros Hdoc Hfresh.
  assert (Hpath : conversation_path (conversation_folder self) (uuid4_at w (uuids w))
                  ≠ conversation_path (conversation_folder self) previous)
    by (by intros ?%conversation_path_inj).
  unfold start_new_conversation, _initialize_conversation, _save_conversation,
    load_conversation.
  m_unfold. simpl.
  destruct (verbose self) eqn:Hv; simpl;
    (eexists _, _; split; [reflexivity|]; simpl; rewrite ?Hv; simpl;
     rewrite lookup_insert_ne, Hdoc by done; simpl; rewrite ?Hv; done).
Qed.

(** ** Construction *)

Lemma chatbot_folder_eq s :
  "conversations" +:+ "/cohere/" +:+ s = "conversations/cohere/" +:+ s.
Proof. reflexivity. Qed.

Lemma chatbot_init_facts llm0 prompt verbose0 name0 w :
  ∃ self w',
    Cohere_Chatbot__init__ llm0 prompt verbose0 name0 w = ((self, w'), Return tt) ∧
    chatbot_id self = S (_chatbot_counter w) ∧
    _chatbot_counter w' = S (_chatbot_counter w) ∧
    name self = match name0 with
                | Some (String c n) => String c n
                | _ => "cohere_chatbot_" +:+ pretty (S (_chatbot_counter w))
                end ∧
    conversation_folder self = "conversations/cohere/" +:+ name self.
Proof.
  init_run. eexists _, _. split; [reflexivity|]. init_run.
  split_and!; [reflexivity..|apply chatbot_folder_eq].
Qed.

(** In the model the constructor returns, with the following object and
    files. *)
Lemma chatbot_init_run llm0 prompt verbose0 name0 w :
  ∃ self w',
    Cohere_Chatbot__init__ llm0 prompt verbose0 name0 w = ((self, w'), Return tt) ∧
    chatbot_id self = S (_chatbot_counter w) ∧
    _chatbot_counter w' = S (_chatbot_counter w) ∧
    name self = match name0 with
                | Some (String c n) => String c n
                | _ => "cohere_chatbot_" +:+ pretty (S (_chatbot_counter w))
                end ∧
    conversation_folder self = "conversations/cohere/" +:+ name self ∧
    conversation_id self = uuid4_at w (uuids w) ∧
    history self = [mkMessage "system" (Plain prompt)] ∧
    files w' !! (conversation_folder self +:+ "/metadata.json")
      = Some (MetadataDoc (chatbot_id self) (name self)
                (isoformat_at w (clock w)) prompt (model llm0)
                (temperature llm0) (p llm0)) ∧
    files w' !! conversation_path (conversation_folder self) (conversation_id self)
      = Some (ConversationDoc (conversation_id self) (name self)
                (chatbot_id self) (isoformat_at w (S (clock w))) prompt
                (history self)).
Proof.
  init_run. eexists _, _. split; [reflexivity|]. init_run.
  split_and!; [reflexivity..|apply chatbot_folder_eq|reflexivity|reflexivity| |].
  - rewrite lookup_insert_ne; [apply lookup_insert_eq|].
    intros H. symmetry in H. revert H. apply metadata_path_ne_conversation_path.
  - apply lookup_insert_eq.
Qed.

(** X24. When [Cohere_Chatbot.__init__] returns, it has taken the next
    value of the class counter as identifier, and as name the given one or,
    when none or an empty one is given, "cohere_chatbot_" followed by the
    identifier; the folder is "conversations/cohere/" followed by the name;
    the metadata file of the chatbot is written, with the time of the first
    reading of the clock, and a first conversation is open whose history,
    in memory and in its file, is the system message alone. *)
Theorem chatbot_init llm0 prompt verbose0 name0 w self w' :
  Cohere_Chatbot__init__ llm0 prompt verbose0 name0 w = ((self, w'), Return tt) →
  chatbot_id self = S (_chatbot_counter w) ∧
  _chatbot_counter w' = S (_chatbot_counter w) ∧
  name self = match name0 with
              | Some (String c n) => String c n
              | _ => "cohere_chatbot_" +:+ pretty (S (_chatbot_counter w))
              end ∧
  conversation_folder self = "conversations/cohere/" +:+ name self ∧
  conversation_id self = uuid4_at w (uuids w) ∧
  history self = [mkMessage "system" (Plain prompt)] ∧
  files w' !! (conversation_folder self +:+ "/metadata.json")
    = Some (MetadataDoc (chatbot_id self) (name self)
              (isoformat_at w (clock w)) prompt (model llm0)
              (temperature llm0) (p llm0)) ∧
  files w' !! conversation_path (conversation_folder self) (conversation_id self)
    = Some (ConversationDoc (conversation_id self) (name self)
              (chatbot_id self) (isoformat_at w (S (clock w))) prompt
              (history self)).
Proof.
  intros Hinit.
  destruct (chatbot_init_run llm0 prompt verbose0 name0 w) as (self1 & w1 & E & Hfacts).
  rewrite E in Hinit. injection Hinit as <- <-. exact Hfacts.
Qed.

(** X25. Chatbots constructed later have larger identifiers, and two
    chatbots constructed without a name never share a folder: their
    default names differ. *)
Theorem unnamed_chatbots_have_distinct_folders
    llm1 prompt1 verbose1 w1 llm2 prompt2 verbose2 w2 self1 w1' self2 w2' out1 out2 :
  Cohere_Chatbot__init__ llm1 prompt1 verbose1 None w1 = ((self1, w1'), out1) →
  _chatbot_counter w1' ≤ _chatbot_counter w2 →
  Cohere_Chatbot__init__ llm2 prompt2 verbose2 None w2 = ((self2, w2'), out2) →
  chatbot_id self1 < chatbot_id self2 ∧
  name self1 ≠ name self2 ∧
  conversation_folder self1 ≠ conversation_folder self2.
Proof.
  intros H1 Hle H2.
  destruct (chatbot_init_facts llm1 prompt1 verbose1 None w1)
    as (s1 & v1 & E1 & Hid1 & Hc1 & Hn1 & Hf1).
  destruct (chatbot_init_facts llm2 prompt2 verbose2 None w2)
    as (s2 & v2 & E2 & Hid2 & Hc2 & Hn2 & Hf2).
  rewrite E1 in H1. rewrite E2 in H2.
  injection H1 as -> -> _. injection H2 as -> -> _.
  assert (Hlt : chatbot_id self1 < chatbot_id self2) by lia.
  assert (Hne : name self1 ≠ name self2).
  { rewrite Hn1, Hn2. intros H%String.app_inj%(inj pretty). lia. }
  split_and!; [exact Hlt|exact Hne|].
  rewrite Hf1, Hf2. intros H%String.app_inj. exact (Hne H).
Qed.

(** ** What a verbose chatbot prints *)

Lemma string_append_assoc (a b c : string) : (a +:+ b) +:+ c = a +:+ b +:+ c.
Proof.
  induction a as [|x a IH]; [reflexivity|].
  change (String x ((a +:+ b) +:+ c) = String x (a +:+ b +:+ c)).
  by rewrite IH.
Qed.

Lemma string_append_nil_r (a : string) : a +:+ "" = a.
Proof.
  induction a as [|x a IH]; [reflexivity|].
  change (String x (a +:+ "") = String x a). by rewrite IH.
Qed.

Lemma join_cons_Return content items s :
  join (content :: items) = Return s →
  ∃ text t, content = JStr text ∧ join items = Return t ∧ s = text +:+ t.
Proof.
  destruct content as [| | | text | |]; try discriminate. simpl.
  destruct (join items) as [t|]; [|discriminate].
  intros [= <-]. by exists text, t.
Qed.

(** The streaming loop returns only when its lines carry a text, and the
    items it returns then join into that text whenever they join at all,
    which they do when the chatbot is verbose. *)
Lemma collect_Return v lines collected st st' l :
  collect v lines collected st = (st', Return l) →
  ∃ items, l = collected ++ items ∧
           (v = true → ∃ s, join items = Return s) ∧
           (∀ s, join items = Return s → carries lines s).
Proof.
  revert collected st.
  induction lines as [|[| | |data] lines IH]; intros collected st; cbn [collect].
  - intros [= _ <-]. exists []. rewrite app_nil_r.
    split_and!; [done|by exists ""|]. intros s [= <-]. constructor.
  - intros (items & ? & ? & Hc)%IH. exists items. split_and!; [done..|].
    intros s Hs. constructor. by apply Hc.
  - done.
  - intros (items & ? & ? & Hc)%IH. exists items. split_and!; [done..|].
    intros s Hs. constructor. by apply Hc.
  - m_unfold.
    destruct (getitem data "type") as [type|] eqn:Ht; simpl; [|done].
    destruct (json_eq_str type "content-delta") eqn:He.
    2:{ intros (items & ? & ? & Hc)%IH. exists items. split_and!; [done..|].
        intros s Hs. eapply carries_other; [done..|]. by apply Hc. }
    destruct (delta_text data) as [content|] eqn:Hd; simpl; [|done].
    assert (Hrec : ∀ st1, collect v lines (collected ++ [content]) st1 = (st', Return l) →
              (v = true → ∃ text, content = JStr text) →
              ∃ items, l = collected ++ items ∧
                (v = true → ∃ s, join items = Return s) ∧
                (∀ s, join items = Return s → carries (Json data :: lines) s)).
    { intros st1 (items & -> & Hv & Hc)%IH Hcontent.
      exists (content :: items). rewrite <- app_assoc. split_and!; [done| |].
      - intros Htrue. destruct (Hv Htrue) as [t Ht']. destruct (Hcontent Htrue) as [text ->].
        exists (text +:+ t). simpl. by rewrite Ht'.
      - intros s (text & t & -> & Hj & ->)%join_cons_Return.
        eapply carries_delta; [done..|]. by apply Hc. }
    destruct v; simpl.
    + unfold _print_streaming_response. m_unfold.
      destruct content as [| | | text | |]; simpl; try done.
      intros H. eapply Hrec; [exact H|]. by exists text.
    + intros H. eapply Hrec; [exact H|done].
Qed.

Lemma printing_nil w : printing "" w = w.
Proof. destruct w. unfold printing. simpl. by rewrite string_append_nil_r. Qed.

Lemma printing_printing s t w : printing t (printing s w) = printing (s +:+ t) w.
Proof. unfold printing. simpl. by rewrite string_append_assoc. Qed.

(** The streaming loop over lines that carry [s] returns items that join
    into [s], and prints [s] when the chatbot is verbose. *)
Lemma collect_transcript v lines s collected self w :
  carries lines s →
  ∃ items, join items = Return s ∧
    collect v lines collected (self, w)
      = ((self, if v then printing s w else w), Return (collected ++ items)).
Proof.
  intros Hlines. revert collected w.
  induction Hlines as [|lines s _ IH|lines s _ IH|data type lines s Ht Hne _ IH
                     |data type text lines s Ht He Hd _ IH]; intros collected w.
  - exists []. rewrite app_nil_r, printing_nil. split; [done|]. by destruct v.
  - apply IH.
  - apply IH.
  - destruct (IH collected w) as (items & ? & Heq). exists items. split; [done|].
    cbn [collect]. m_unfold. rewrite Ht. simpl. by rewrite Hne.
  - destruct v.
    + destruct (IH (collected ++ [JStr text]) (printing text w)) as (items & Hj & Heq).
      exists (JStr text :: items). split; [simpl; by rewrite Hj|].
      cbn [collect]. m_unfold. rewrite Ht. simpl. rewrite He, Hd. simpl.
      fold (printing text w). rewrite Heq, printing_printing. by rewrite <- app_assoc.
    + destruct (IH (collected ++ [JStr text]) w) as (items & Hj & Heq).
      exists (JStr text :: items). split; [simpl; by rewrite Hj|].
      cbn [collect]. m_unfold. rewrite Ht. simpl. rewrite He, Hd. simpl.
      rewrite Heq. by rewrite <- app_assoc.
Qed.

(** [read_response] returns exactly the reply held by the response, which
    must be a string when the chatbot is verbose. *)
Lemma read_response_Return response self w r :
  (∃ st', read_response response (self, w) = (st', Return r)) ↔
  replies (stream (llm self)) response r ∧ (verbose self = true → ∃ s, r = JStr s).
Proof.
  unfold read_response, replies. m_unfold. simpl.
  destruct (stream (llm self)).
  - split.
    + intros [st' H].
      destruct (collect _ _ _ _) as [st1 [l|]] eqn:Hc; [|done].
      apply collect_Return in Hc as (items & -> & _ & Hc). simpl in *.
      destruct (join items) as [s|] eqn:Hj; [|done]. simpl in H.
      assert (r = JStr s) as -> by (destruct (verbose self); simpl in H; congruence).
      split; [|by exists s]. exists s. split; [done|]. by apply Hc.
    + intros [(s & -> & Hc) _].
      destruct (collect_transcript (verbose self) _ s [] self w Hc) as (items & Hj & ->).
      simpl. rewrite Hj. simpl. destruct (verbose self); simpl; by eexists.
  - split.
    + intros [st' H].
      destruct (response_json response) as [data|]; [|done].
      destruct (message_text data) as [full|] eqn:Hm; [|done]. simpl in H.
      destruct (verbose self); simpl in H.
      * destruct full as [| | | s | |]; simpl in H; try done.
        injection H as _ <-. split; [by exists data|]. by exists s.
      * injection H as _ <-. split; [by exists data|done].
    + intros [(data & -> & ->) Hv]. simpl.
      destruct (verbose self); simpl; [|by eexists].
      destruct Hv as [s ->]; [done|]. simpl. by eexists.
Qed.

(** When it returns, [read_response] has printed the reply and two
    newlines if the chatbot is verbose, and has done nothing else. *)
Lemma read_response_state response self w st' r :
  read_response response (self, w) = (st', Return r) →
  st' = (self, if verbose self
               then match r with
                    | JStr s => printing (s +:+ nl +:+ nl) w
                    | _ => w
                    end
               else w).
Proof.
  intros H.
  assert (Hr : ∃ st', read_response response (self, w) = (st', Return r)) by by eexists.
  apply read_response_Return in Hr as [Hr Hv].
  revert H. unfold read_response, replies in *. m_unfold. simpl.
  destruct (stream (llm self)).
  - destruct Hr as (s & -> & Hc).
    destruct (collect_transcript (verbose self) _ s [] self w Hc) as (items & Hj & ->).
    simpl. rewrite Hj. simpl.
    destruct (verbose self); simpl; intros [= <-]; [|done].
    unfold printing, nl. simpl. by rewrite string_append_assoc.
  - destruct Hr as (data & -> & ->). simpl.
    destruct (verbose self); simpl; [|by intros [= <-]].
    destruct Hv as [s ->]; [done|]. simpl. by intros [= <-].
Qed.

(** [__call__], with its effects before and after the reading of the
    response written out. *)
Lemma call_run message self w :
  __call__ message (self, w) =
    let self1 :=
      mkCohere_Chatbot (llm self) (system_prompt self) (verbose self)
        (chatbot_id self) (name self) (conversation_folder self)
        (conversation_id self) (history self ++ [user_message message]) in
    let w1 :=
      if verbose self then printing (call_header (name self) message) w else w in
    let response :=
      requests_post w "https://api.cohere.com/v2/chat" (llm self)
        (history self ++ [user_message message]) in
    match read_response response (self1, w1) with
    | ((self2, w2), Return full_response) =>
        let history2 := history self2 ++ [assistant_message full_response] in
        ((mkCohere_Chatbot (llm self2) (system_prompt self2) (verbose self2)
            (chatbot_id self2) (name self2) (conversation_folder self2)
            (conversation_id self2) history2,
          dumped (conversation_path (conversation_folder self2) (conversation_id self2))
            (ConversationDoc (conversation_id self2) (name self2) (chatbot_id self2)
               (isoformat_at w2 (clock w2)) (system_prompt self2) history2) w2),
         Return full_response)
    | (st2, Raise e) => (st2, Raise e)
    end.
Proof.
  unfold __call__, _prepare_messages, _make_request, _save_conversation, call_header.
  m_unfold. simpl.
  destruct (verbose self) eqn:Hv; simpl.
  - unfold printing. rewrite (string_append_assoc (stdout w)).
    by destruct (read_response _ _) as [[self2 w2] [full|e]].
  - by destruct (read_response _ _) as [[self2 w2] [full|e]].
Qed.

(** ** Verbosity *)

(** X26. A chatbot that is not verbose prints nothing: [__call__],
    whether it returns or raises, [start_new_conversation] and
    [load_conversation] leave the standard output as it is. *)
Theorem quiet_chatbot_prints_nothing message conversation_id self w :
  verbose self = false →
  stdout (__call__ message (self, w)).1.2 = stdout w ∧
  stdout (start_new_conversation (self, w)).1.2 = stdout w ∧
  stdout (load_conversation conversation_id (self, w)).1.2 = stdout w.
Proof.
  intros Hv. split_and!.
  - rewrite call_run. simpl. rewrite Hv.
    destruct (read_response _ _) as [[self2 w2] [full|e]] eqn:Hr;
      apply read_response_frame in Hr as (_ & _ & Hq); simpl in *; by apply Hq.
  - unfold start_new_conversation, _initialize_conversation, _save_conversation.
    m_unfold. simpl. by rewrite Hv.
  - unfold load_conversation. m_unfold. simpl.
    destruct (files w !! _) as [[]|]; simpl; [done| |done]. by rewrite Hv.
Qed.

(** X27. What a verbose chatbot prints when [__call__] returns: a line
    break, its name, " - User: ", a space, the message and a line break;
    then a line break, its name and " - Assistant: "; then the reply, which
    is a string, and two line breaks. *)
Theorem verbose_call_transcript message self w self' w' r :
  verbose self = true →
  __call__ message (self, w) = ((self', w'), Return r) →
  ∃ s, r = JStr s ∧
       stdout w' = stdout w +:+ call_header (name self) message +:+ s +:+ nl +:+ nl.
Proof.
  intros Hv. rewrite call_run. simpl. rewrite Hv.
  destruct (read_response _ _) as [[self2 w2] [full|e]] eqn:Hr; [|done].
  intros [= <- <- <-].
  assert (Hs : ∃ s, full = JStr s).
  { eapply read_response_Return; [by eexists|done]. }
  destruct Hs as [s ->]. exists s. split; [done|].
  apply read_response_state in Hr. simpl in Hr. injection Hr as _ ->.
  simpl. by rewrite string_append_assoc.
Qed.

(** The outcome of [__call__] when the response holds the reply [r]. *)
Lemma call_replies message self w r :
  replies (stream (llm self))
    (requests_post w "https://api.cohere.com/v2/chat" (llm self)
       (history self ++ [user_message message])) r →
  (verbose self = true → ∃ s, r = JStr s) →
  let history' := history self ++ [user_message message; assistant_message r] in
  let w1 := if verbose self
            then match r with
                 | JStr s => printing (s +:+ nl +:+ nl)
                               (printing (call_header (name self) message) w)
                 | _ => w
                 end
            else w in
  __call__ message (self, w) =
    ((mkCohere_Chatbot (llm self) (system_prompt self) (verbose self)
        (chatbot_id self) (name self) (conversation_folder self)
        (conversation_id self) history',
      dumped (conversation_path (conversation_folder self) (conversation_id self))
        (ConversationDoc (conversation_id self) (name self) (chatbot_id self)
           (isoformat_at w (clock w)) (system_prompt self) history') w1),
     Return r).
Proof.
  intros Hr Hv. rewrite call_run. simpl.
  set (self1 := mkCohere_Chatbot _ _ _ _ _ _ _ _).
  set (w0 := if verbose self then _ else w).
  destruct (proj2 (read_response_Return _ self1 w0 r) (conj Hr Hv)) as [st' Hst].
  rewrite Hst. apply read_response_state in Hst as ->. simpl.
  rewrite <- app_assoc. simpl. subst w0.
  destruct (verbose self); [|done].
  destruct Hv as [s ->]; done.
Qed.

(** X28. Verbosity changes nothing but the standard output: when
    [__call__] returns on the verbose chatbot, it returns the same reply on
    the same chatbot made quiet, with the same history, the same files and
    the same clock, and prints nothing. *)
Theorem verbose_call_as_quiet message self w self1 w1 r :
  __call__ message (with_verbose true self, w) = ((self1, w1), Return r) →
  ∃ w0,
    __call__ message (with_verbose false self, w)
      = ((with_verbose false self1, w0), Return r) ∧
    only_printed w0 w1 ∧ stdout w0 = stdout w.
Proof.
  intros H.
  assert (Hr : replies (stream (llm self))
                 (requests_post w "https://api.cohere.com/v2/chat" (llm self)
                    (history self ++ [user_message message])) r
               ∧ ∃ s, r = JStr s).
  { revert H. rewrite call_run. simpl.
    destruct (read_response _ _) as [[self2 w2] [full|e]] eqn:Hr; [|done].
    intros [= _ _ <-].
    assert (Hx : ∃ st', read_response
                   (requests_post w "https://api.cohere.com/v2/chat" (llm self)
                      (history self ++ [user_message message]))
                   (with_verbose true
                      (mkCohere_Chatbot (llm self) (system_prompt self) true
                         (chatbot_id self) (name self) (conversation_folder self)
                         (conversation_id self)
                         (history self ++ [user_message message])),
                    printing (call_header (name self) message) w)
                 = (st', Return full)) by by eexists.
    apply read_response_Return in Hx as [? Hs]. split; [done|by apply Hs]. }
  destruct Hr as [Hr [s ->]].
  rewrite (call_replies message (with_verbose true self) w (JStr s)) in H;
    [|done|by exists s].
  injection H as <- <-.
  eexists. split; [by apply (call_replies message (with_verbose false self) w (JStr s))|].
  by repeat split.
Qed.

(** X29. Conversely, when [__call__] returns a string on the quiet
    chatbot, it returns the same string on the same chatbot made verbose,
    with the same history, the same files and the same clock. *)
Theorem quiet_call_as_verbose message self w self0 w0 s :
  __call__ message (with_verbose false self, w) = ((self0, w0), Return (JStr s)) →
  ∃ w1,
    __call__ message (with_verbose true self, w)
      = ((with_verbose true self0, w1), Return (JStr s)) ∧
    only_printed w0 w1.
Proof.
  intros H.
  assert (Hr : replies (stream (llm self))
                 (requests_post w "https://api.cohere.com/v2/chat" (llm self)
                    (history self ++ [user_message message])) (JStr s)).
  { revert H. rewrite call_run. simpl.
    destruct (read_response _ _) as [[self2 w2] [full|e]] eqn:Hr; [|done].
    intros [= _ _ ->].
    assert (Hx : ∃ st', read_response
                   (requests_post w "https://api.cohere.com/v2/chat" (llm self)
                      (history self ++ [user_message message]))
                   (with_verbose false
                      (mkCohere_Chatbot (llm self) (system_prompt self) false
                         (chatbot_id self) (name self) (conversation_folder self)
                         (conversation_id self)
                         (history self ++ [user_message message])),
                    w)
                 = (st', Return (JStr s))) by by eexists.
    by apply read_response_Return in Hx as [? _]. }
  rewrite (call_replies message (with_verbose false self) w (JStr s)) in H;
    [|done|done].
  injection H as <- <-.
  eexists. split; [apply (call_replies message (with_verbose true self) w (JStr s));
                   [done|by exists s]|].
  by repeat split.
Qed.

(** ** Listing the conversations *)

Lemma removeprefix_app prefix s : removeprefix prefix (prefix +:+ s) = Some s.
Proof.
  induction prefix as [|a prefix IH]; [by destruct s|].
  change (String a prefix +:+ s) with (String a (prefix +:+ s)). simpl.
  by rewrite Ascii.eqb_refl.
Qed.

Lemma first_component_app a b :
  first_component a = a → first_component b = b →
  first_component (a +:+ b) = a +:+ b.
Proof.
  intros Ha Hb. induction a as [|c a IH]; [done|].
  change (String c a +:+ b) with (String c (a +:+ b)). simpl in *.
  destruct (Ascii.eqb c "/"); [done|]. injection Ha as Ha. by rewrite IH.
Qed.

Lemma startswith_app prefix s : startswith (prefix +:+ s) prefix = true.
Proof.
  unfold startswith. induction prefix as [|a prefix IH]; [by destruct s|].
  change (String a prefix +:+ s) with (String a (prefix +:+ s)). simpl.
  by destruct (ascii_dec a a).
Qed.

Lemma endswith_app s suffix : endswith (s +:+ suffix) suffix = true.
Proof.
  induction s as [|a s IH].
  - change ("" +:+ suffix) with suffix. destruct suffix; simpl; [done|].
    by rewrite Ascii.eqb_refl, String.eqb_refl.
  - change (String a s +:+ suffix) with (String a (s +:+ suffix)).
    cbn [endswith]. by destruct (String.eqb _ _).
Qed.

(** The entries [list_conversations] returns. *)
Lemma elem_of_list_conversations self w l f :
  list_conversations (self, w) = ((self, w), Return l) →
  f ∈ l ↔
  startswith f "conversation_" = true ∧ endswith f ".json" = true ∧
  ∃ path rest, is_Some (files w !! path) ∧
    removeprefix (conversation_folder self +:+ "/") path = Some rest ∧
    first_component rest = f.
Proof.
  unfold list_conversations, listdir. m_unfold. simpl.
  destruct (decide _) as [|_]; [done|].
  intros [= <-].
  rewrite list_elem_of_filter, elem_of_remove_dups, list_elem_of_fmap.
  rewrite andb_True, !Is_true_true.
  split.
  - intros [[??] (rest & -> & (path & Hpath & Hrest)%list_elem_of_omap)].
    split_and!; [done..|]. exists path, rest. split_and!; [|done..].
    apply list_elem_of_fmap in Hpath as ([path' doc] & -> & Hin).
    apply elem_of_map_to_list in Hin. by exists doc.
  - intros (? & ? & path & rest & [doc Hdoc] & Hrest & <-).
    split; [done|]. exists rest. split; [done|].
    apply list_elem_of_omap. exists path. split; [|done].
    apply list_elem_of_fmap. exists (path, doc). split; [done|].
    by apply elem_of_map_to_list.
Qed.

Lemma list_conversations_Return self w path rest :
  is_Some (files w !! path) →
  removeprefix (conversation_folder self +:+ "/") path = Some rest →
  ∃ l, list_conversations (self, w) = ((self, w), Return l).
Proof.
  intros [doc Hdoc] Hrest.
  unfold list_conversations, listdir. m_unfold. simpl.
  destruct (decide _) as [Hbelow|_]; [|by eexists].
  assert (Hin : rest ∈ omap (removeprefix (conversation_folder self +:+ "/"))
                  (map_to_list (files w)).*1).
  { apply list_elem_of_omap. exists path. split; [|done].
    apply list_elem_of_fmap. exists (path, doc). split; [done|].
    by apply elem_of_map_to_list. }
  rewrite Hbelow in Hin. by apply elem_of_nil in Hin.
Qed.

(** X30. A saved conversation is listed: after a successful [__call__] on
    a conversation whose identifier has no "/", [list_conversations]
    returns a list that holds "conversation_<id>.json"; the names it
    returns all start with "conversation_" and end with ".json", so the
    metadata file of the chatbot is never among them. *)
Theorem list_conversations_after_call message self w self' w' full_response :
  __call__ message (self, w) = ((self', w'), Return full_response) →
  first_component (conversation_id self) = conversation_id self →
  ∃ l,
    list_conversations (self', w') = ((self', w'), Return l) ∧
    ("conversation_" +:+ conversation_id self +:+ ".json") ∈ l ∧
    ("metadata.json" ∉ l) ∧
    ∀ f, f ∈ l → startswith f "conversation_" = true ∧ endswith f ".json" = true.
Proof.
  intros Hcall Hid.
  apply call_saved in Hcall as (Hf' & Hid' & ? & ? & ? & ? & Hdoc).
  assert (Hrest : removeprefix (conversation_folder self' +:+ "/")
                    (conversation_path (conversation_folder self') (conversation_id self'))
                  = Some ("conversation_" +:+ conversation_id self +:+ ".json")).
  { unfold conversation_path. rewrite Hid'.
    change ("/conversation_" +:+ conversation_id self +:+ ".json")
      with ("/" +:+ "conversation_" +:+ conversation_id self +:+ ".json").
    rewrite <- string_append_assoc. apply removeprefix_app. }
  destruct (list_conversations_Return self' w' _ _ (mk_is_Some _ _ Hdoc) Hrest)
    as [l Hl].
  exists l. split; [done|].
  pose proof (elem_of_list_conversations self' w' l) as Hin.
  split_and!.
  - apply Hin; [done|]. split_and!.
    + apply (startswith_app "conversation_").
    + rewrite <- string_append_assoc. apply endswith_app.
    + eexists _, _. split_and!; [by eexists|exact Hrest|].
      apply (first_component_app "conversation_"); [done|].
      by apply first_component_app.
  - intros (Hs & _)%Hin; [|done]. discriminate Hs.
  - intros f (? & ? & _)%Hin; done.
Qed.

(** * Runs of the chatbot *)

(** Witness of X18: the silent chatbot of the run is told "hi" and the
    service streams "Hello". *)
Lemma call_appends_exchange_witness :
  history (__call__ "hi" (demo_state hello_service)).1.1
  = history (demo_state hello_service).1
    ++ [user_message "hi"; assistant_message (JStr "Hello")].
Proof.
  destruct (call_appends_exchange "hi"
              (demo_state hello_service).1 (demo_state hello_service).2
              (__call__ "hi" (demo_state hello_service)).1.1
              (__call__ "hi" (demo_state hello_service)).1.2 (JStr "Hello"))
    as (_ & H & _).
  - vm_compute. reflexivity.
  - exact H.
Defined.

(** Witness of X19: the second line of the service has no "type". *)
Lemma call_failure_keeps_user_message_witness :
  history (__call__ "hi" (demo_state untyped_service)).1.1
  = history (demo_state untyped_service).1 ++ [user_message "hi"].
Proof.
  destruct (call_failure_keeps_user_message "hi"
              (demo_state untyped_service).1 (demo_state untyped_service).2
              (__call__ "hi" (demo_state untyped_service)).1.1
              (__call__ "hi" (demo_state untyped_service)).1.2 KeyError)
    as (_ & H & _).
  - vm_compute. reflexivity.
  - exact H.
Defined.

(** Witness of X20: the chatbot loads back what it has just saved. *)
Lemma load_conversation_after_call_witness :
  ∃ st,
    load_conversation
      (conversation_id (__call__ "hi" (demo_state hello_service)).1.1)
      ((__call__ "hi" (demo_state hello_service)).1.1,
       (__call__ "hi" (demo_state hello_service)).1.2)
      = (st, Return tt) ∧
    history st.1 = history (__call__ "hi" (demo_state hello_service)).1.1.
Proof.
  destruct (load_conversation_after_call "hi"
              (demo_state hello_service).1 (demo_state hello_service).2
              (__call__ "hi" (demo_state hello_service)).1.1
              (__call__ "hi" (demo_state hello_service)).1.2 (JStr "Hello")
              (__call__ "hi" (demo_state hello_service)).1.1)
    as (st & Hl & Hh & _).
  - vm_compute. reflexivity.
  - vm_compute. reflexivity.
  - exists st. split; [exact Hl|exact Hh].
Defined.

(** Witness of X21: the lines of the service carry "Hello". *)
Lemma call_returns_streamed_text_witness :
  ∃ st',
    __call__ "hi" ((demo_state hello_service).1, (demo_state hello_service).2)
    = (st', Return (JStr "Hello")).
Proof.
  apply (call_returns_streamed_text "hi"
           (demo_state hello_service).1 (demo_state hello_service).2 "Hello").
  - vm_compute. reflexivity.
  - vm_compute.
    apply carries_empty.
    apply (carries_delta _ (JStr "content-delta") "Hel" _ "lo");
      [vm_compute; reflexivity..|].
    apply carries_not_json.
    apply (carries_delta _ (JStr "content-delta") "lo" _ "");
      [vm_compute; reflexivity..|].
    apply (carries_other _ (JStr "message-end")); [vm_compute; reflexivity..|].
    apply carries_nil.
Defined.

(** Witness of X22: the second line of the service has no "type". *)
Lemma call_raises_on_bad_line_witness :
  ∃ st',
    __call__ "hi" ((demo_state untyped_service).1, (demo_state untyped_service).2)
    = (st', Raise KeyError).
Proof.
  apply (call_raises_on_bad_line "hi"
           (demo_state untyped_service).1 (demo_state untyped_service).2
           [Json (content_delta "Hel")] (Json (JObj ∅)) [] "Hel" KeyError).
  - vm_compute. reflexivity.
  - vm_compute. reflexivity.
  - apply (carries_delta _ (JStr "content-delta") "Hel" _ "");
      [vm_compute; reflexivity..|].
    apply carries_nil.
  - right. left. exists (JObj ∅). split; [reflexivity|vm_compute; reflexivity].
Defined.

(** Witness of X23: the first conversation of the chatbot, "id0", is
    loaded back after a second one has been started. *)
Lemma start_new_conversation_keeps_previous_witness :
  ∃ st1 st2,
    start_new_conversation
      ((demo_state hello_service).1, (demo_state hello_service).2)
      = (st1, Return tt) ∧
    load_conversation "id0" st1 = (st2, Return tt) ∧
    conversation_id st2.1 = "id0".
Proof.
  destruct (start_new_conversation_keeps_previous
              (demo_state hello_service).1 (demo_state hello_service).2 "id0"
              "id0" "cohere_chatbot_1" 1 "t1" "You are a helpful assistant."
              [mkMessage "system" (Plain "You are a helpful assistant.")])
    as (st1 & st2 & Hs & _ & _ & Hl & _ & Hid2).
  - vm_compute. reflexivity.
  - vm_compute. discriminate.
  - exists st1, st2. split_and!; [exact Hs|exact Hl|exact Hid2].
Defined.

(** Witness of X24: the chatbot of the run. *)
Lemma chatbot_init_witness :
  chatbot_id (demo_state hello_service).1
  = S (_chatbot_counter (demo_world hello_service)).
Proof.
  destruct (chatbot_init demo_llm "You are a helpful assistant." false None
              (demo_world hello_service)
              (demo_state hello_service).1 (demo_state hello_service).2)
    as (H & _).
  - vm_compute. reflexivity.
  - exact H.
Defined.

(** Witness of X25: a second unnamed chatbot is constructed after the
    first. *)
Lemma unnamed_chatbots_have_distinct_folders_witness :
  conversation_folder (demo_state hello_service).1
  ≠ conversation_folder
      (Cohere_Chatbot__init__ demo_llm "Be brief." true None
         (demo_state hello_service).2).1.1.
Proof.
  destruct (unnamed_chatbots_have_distinct_folders
              demo_llm "You are a helpful assistant." false (demo_world hello_service)
              demo_llm "Be brief." true (demo_state hello_service).2
              (demo_state hello_service).1 (demo_state hello_service).2
              (Cohere_Chatbot__init__ demo_llm "Be brief." true None
                 (demo_state hello_service).2).1.1
              (Cohere_Chatbot__init__ demo_llm "Be brief." true None
                 (demo_state hello_service).2).1.2
              (Return tt) (Return tt))
    as (_ & _ & H).
  - vm_compute. reflexivity.
  - vm_compute. lia.
  - vm_compute. reflexivity.
  - exact H.
Defined.

(** Witness of X26: the chatbot of the run is not verbose. *)
Lemma quiet_chatbot_prints_nothing_witness :
  stdout (__call__ "hi"
            ((demo_state hello_service).1, (demo_state hello_service).2)).1.2
  = stdout (demo_state hello_service).2.
Proof.
  destruct (quiet_chatbot_prints_nothing "hi" "id0"
              (demo_state hello_service).1 (demo_state hello_service).2)
    as (H & _).
  - vm_compute. reflexivity.
  - exact H.
Defined.

(** Witness of X27: the chatbot of the run, made verbose. *)
Lemma verbose_call_transcript_witness :
  ∃ s,
    JStr "Hello" = JStr s ∧
    stdout (__call__ "hi" (with_verbose true (demo_state hello_service).1,
                           (demo_state hello_service).2)).1.2
    = "" +:+ call_header "cohere_chatbot_1" "hi" +:+ s +:+ nl +:+ nl.
Proof.
  apply (verbose_call_transcript "hi"
           (with_verbose true (demo_state hello_service).1)
           (demo_state hello_service).2
           (__call__ "hi" (with_verbose true (demo_state hello_service).1,
                           (demo_state hello_service).2)).1.1
           (__call__ "hi" (with_verbose true (demo_state hello_service).1,
                           (demo_state hello_service).2)).1.2
           (JStr "Hello")).
  - reflexivity.
  - vm_compute. reflexivity.
Defined.

(** Witness of X28: the chatbot of the run, verbose and quiet. *)
Lemma verbose_call_as_quiet_witness :
  ∃ w0,
    __call__ "hi" (with_verbose false (demo_state hello_service).1,
                   (demo_state hello_service).2)
    = ((with_verbose false
          (__call__ "hi" (with_verbose true (demo_state hello_service).1,
                          (demo_state hello_service).2)).1.1, w0),
       Return (JStr "Hello")) ∧
    stdout w0 = "".
Proof.
  destruct (verbose_call_as_quiet "hi"
              (demo_state hello_service).1 (demo_state hello_service).2
              (__call__ "hi" (with_verbose true (demo_state hello_service).1,
                              (demo_state hello_service).2)).1.1
              (__call__ "hi" (with_verbose true (demo_state hello_service).1,
                              (demo_state hello_service).2)).1.2
              (JStr "Hello"))
    as (w0 & Hc & _ & Hout).
  - vm_compute. reflexivity.
  - exists w0. split; [exact Hc|exact Hout].
Defined.

(** Witness of X29: the chatbot of the run, quiet and verbose. *)
Lemma quiet_call_as_verbose_witness :
  ∃ w1,
    __call__ "hi" (with_verbose true (demo_state hello_service).1,
                   (demo_state hello_service).2)
    = ((with_verbose true
          (__call__ "hi" (with_verbose false (demo_state hello_service).1,
                          (demo_state hello_service).2)).1.1, w1),
       Return (JStr "Hello")).
Proof.
  destruct (quiet_call_as_verbose "hi"
              (demo_state hello_service).1 (demo_state hello_service).2
              (__call__ "hi" (with_verbose false (demo_state hello_service).1,
                              (demo_state hello_service).2)).1.1
              (__call__ "hi" (with_verbose false (demo_state hello_service).1,
                              (demo_state hello_service).2)).1.2
              "Hello")
    as (w1 & Hc & _).
  - vm_compute. reflexivity.
  - exists w1. exact Hc.
Defined.

(** Witness of X30: the conversation of the run is listed after a call. *)
Lemma list_conversations_after_call_witness :
  ∃ l,
    list_conversations
      ((__call__ "hi" (demo_state hello_service)).1.1,
       (__call__ "hi" (demo_state hello_service)).1.2)
      = (((__call__ "hi" (demo_state hello_service)).1.1,
          (__call__ "hi" (demo_state hello_service)).1.2), Return l) ∧
    ("conversation_" +:+ conversation_id (demo_state hello_service).1 +:+ ".json")
      ∈ l.
Proof.
  destruct (list_conversations_after_call "hi"
              (demo_state hello_service).1 (demo_state hello_service).2
              (__call__ "hi" (demo_state hello_service)).1.1
              (__call__ "hi" (demo_state hello_service)).1.2 (JStr "Hello"))
    as (l & Hl & Hin & _).
  - vm_compute. reflexivity.
  - vm_compute. reflexivity.
  - exists l. split; [exact Hl|exact Hin].
Defined.
